(** * literature-match: reference resolution against a Zotero library

    A shallow embedding of the Python sources under [scripts/]
    ([normalize.py], [bbt_library.py], [refs_extracted.py],
    [retrieval_tfidf.py], [match_pipeline.py], [apply_llm_decisions.py])
    and the properties of the specification proved about it.

    Conventions of the embedding.
    - A Python [str] is a [string]; the text model is 7-bit ASCII: a code
      above 127 belongs to no character class and is left alone by [lower].
      The module [Unicode] at the end has [refs_extracted.py] once more
      over code points, with the character classes as parameters.
    - A Python [float] is a binary64 [float] of the kernel, with its
      comparisons and arithmetic.
    - A Python [int] is a [Z]; a list index or a text offset is a [nat].
    - JSON documents whose shape the code inspects at run time are values of
      [json]; documents produced by the code itself are records.
    - A Python [dict] that is iterated is an insertion-ordered association
      list ([PyDict]); one that is only looked up is a [gmap].
    - A function that can raise returns a [result]. *)

From Stdlib Require Import ZArith List String Ascii Bool Lia.
From Stdlib Require Import Floats Sorting.Sorted.
From Stdlib Require Import Numbers.DecimalString.
From stdpp Require Import base option list strings gmap.
Import ListNotations.

Set Warnings "-inexact-float".
Local Open Scope string_scope.
Local Open Scope list_scope.

(* ===================================================================== *)
(** * Python strings *)
(* ===================================================================== *)

Module PyStr.

Definition chars (s : string) : list ascii := list_ascii_of_string s.
Definition str (l : list ascii) : string := string_of_list_ascii l.

Definition code (c : ascii) : nat := nat_of_ascii c.

Definition between (lo hi : nat) (c : ascii) : bool :=
  (lo <=? code c)%nat && (code c <=? hi)%nat.

(** [str.isspace] on one character: TAB, LF, VT, FF, CR, the four
    separators FS GS RS US, and the space. *)
Definition isspace (c : ascii) : bool :=
  between 9 13 c || between 28 32 c.

Definition isdigit (c : ascii) : bool := between 48 57 c.
Definition isupper (c : ascii) : bool := between 65 90 c.
Definition islower (c : ascii) : bool := between 97 122 c.
Definition isalpha (c : ascii) : bool := isupper c || islower c.

(** The class [\w] of the [re] module. *)
Definition isword (c : ascii) : bool :=
  isalpha c || isdigit c || Ascii.eqb c "_".

Definition lower_char (c : ascii) : ascii :=
  if isupper c then ascii_of_nat (code c + 32) else c.

Definition lower (s : string) : string := str (map lower_char (chars s)).

Fixpoint dropwhile (p : ascii -> bool) (l : list ascii) : list ascii :=
  match l with
  | [] => []
  | c :: t => if p c then dropwhile p t else l
  end.

Definition lstrip_by (p : ascii -> bool) (l : list ascii) : list ascii :=
  dropwhile p l.
Definition rstrip_by (p : ascii -> bool) (l : list ascii) : list ascii :=
  rev (dropwhile p (rev l)).
Definition strip_by (p : ascii -> bool) (l : list ascii) : list ascii :=
  rstrip_by p (lstrip_by p l).

Definition mem_char (set : string) (c : ascii) : bool :=
  existsb (Ascii.eqb c) (chars set).

(** [s.strip()] *)
Definition strip (s : string) : string := str (strip_by isspace (chars s)).
(** [s.strip(set)] and [s.rstrip(set)] *)
Definition strip_chars (set s : string) : string :=
  str (strip_by (mem_char set) (chars s)).
Definition rstrip_chars (set s : string) : string :=
  str (rstrip_by (mem_char set) (chars s)).

(** Truth value of a string: [bool(s)]. *)
Definition truthy (s : string) : bool := negb (String.eqb s "").

(** [s.startswith(p)], and [s[len(p):]]. *)
Definition startswith (s p : string) : bool := String.prefix p s.
Definition drop (n : nat) (s : string) : string :=
  String.substring n (String.length s - n) s.

Fixpoint list_prefix (p l : list ascii) : bool :=
  match p, l with
  | [], _ => true
  | _ :: _, [] => false
  | a :: p', b :: l' => Ascii.eqb a b && list_prefix p' l'
  end.

Definition endswith (s p : string) : bool :=
  list_prefix (rev (chars p)) (rev (chars s)).

(** [needle in hay] *)
Fixpoint list_infix (p l : list ascii) : bool :=
  list_prefix p l ||
  match l with
  | [] => false
  | _ :: t => list_infix p t
  end.
Definition contains (hay needle : string) : bool :=
  list_infix (chars needle) (chars hay).

(** [sep.join(parts)] *)
Definition join (sep : string) (parts : list string) : string :=
  String.concat sep parts.

(** [text[a:b]] on the character list, for [a <= b]. *)
Definition slice (a b : nat) (l : list ascii) : list ascii :=
  firstn (b - a) (skipn a l).

(** [str(n)] for an [int]. *)
Definition of_Z (n : Z) : string := NilZero.string_of_int (Z.to_int n).

(** [int(s)] for an already stripped [s]: an optional sign, then decimal
    digits, single underscores allowed between digits. *)
Definition digit_val (c : ascii) : Z := Z.of_nat (code c - 48).

Fixpoint parse_digits (l : list ascii) (acc : Z) (need_digit : bool)
  : option Z :=
  match l with
  | [] => if need_digit then None else Some acc
  | c :: t =>
      if isdigit c then parse_digits t (10 * acc + digit_val c)%Z false
      else if Ascii.eqb c "_" then
        if need_digit then None else parse_digits t acc true
      else None
  end.

Definition to_Z (s : string) : option Z :=
  match chars s with
  | "-"%char :: t => Z.opp <$> parse_digits t 0%Z true
  | "+"%char :: t => parse_digits t 0%Z true
  | l => parse_digits l 0%Z true
  end.

End PyStr.

(* ===================================================================== *)
(** * Python values, errors, sorting and ordered dictionaries *)
(* ===================================================================== *)

(** A value read by [json.load]. An object lists its members in document
    order, with distinct keys. *)
#[warnings="-register-all"]
Inductive json : Type :=
| JNull
| JBool (b : bool)
| JInt (n : Z)
| JFloat (f : float)
| JStr (s : string)
| JList (l : list json)
| JObj (members : list (string * json)).

(** The exceptions the program raises itself, and those of the libraries it
    calls. *)
Inductive exn : Type :=
| ValueError (msg : string)
| AttributeError
| SklearnError.

Inductive result (A : Type) : Type :=
| Ok (a : A)
| Raise (e : exn).
Arguments Ok {A} a.
Arguments Raise {A} e.

Definition bind_result {A B : Type} (r : result A) (f : A -> result B)
  : result B :=
  match r with
  | Ok a => f a
  | Raise e => Raise e
  end.

Notation "'do' x <- e ; k" := (bind_result e (fun x => k))
  (at level 10, x pattern, e at level 100, k at level 200,
   format "'[v' 'do'  x  <-  e ; '/' k ']'").

(** A loop whose body can raise: the first exception ends it. *)
Fixpoint for_each {A S : Type} (body : S -> A -> result S) (l : list A)
    (s : S) : result S :=
  match l with
  | [] => Ok s
  | x :: t => do s' <- body s x; for_each body t s'
  end.

(** Truth value of a [str | None], and [a or b] on such values. *)
Definition truthy_opt (o : option string) : bool :=
  match o with Some s => PyStr.truthy s | None => false end.
Definition or_opt (a b : option string) : option string :=
  if truthy_opt a then a else b.
(** [s or None] *)
Definition or_none (s : string) : option string :=
  if PyStr.truthy s then Some s else None.

Module PySort.
Section Sort.
Context {A : Type} (lt : A -> A -> bool).

Fixpoint insert (x : A) (l : list A) : list A :=
  match l with
  | [] => [x]
  | y :: t => if lt x y then x :: l else y :: insert x t
  end.

(** Stable ascending sort: an element is placed after the elements
    not greater than it that came before it. *)
Definition sort (l : list A) : list A :=
  fold_left (fun acc x => insert x acc) l [].

(** [l.sort(reverse=True)]: CPython reverses the list, sorts it
    ascending and stable, and reverses the outcome, so that equal
    elements keep their order. *)
Definition sort_reverse (l : list A) : list A := rev (sort (rev l)).
End Sort.
End PySort.

(** An insertion-ordered [dict] with [str] keys. *)
Module PyDict.
Section Dict.
Context {V : Type}.

Definition t : Type := list (string * V).

Definition empty : t := [].

Fixpoint get (k : string) (d : t) : option V :=
  match d with
  | [] => None
  | (k', v) :: d' => if String.eqb k k' then Some v else get k d'
  end.

Definition mem (k : string) (d : t) : bool :=
  match get k d with Some _ => true | None => false end.

(** [d[k] = v]: a present key keeps its place, a new one goes last. *)
Fixpoint set (k : string) (v : V) (d : t) : t :=
  match d with
  | [] => [(k, v)]
  | (k', v') :: d' =>
      if String.eqb k k' then (k', v) :: d' else (k', v') :: set k v d'
  end.

Definition keys (d : t) : list string := map fst d.
Definition items (d : t) : list (string * V) := d.
Definition len (d : t) : nat := Datatypes.length d.
End Dict.
Arguments t V : clear implicits.

(** [d.setdefault(k, []).append(x)] *)
Definition append_to {X : Type} (k : string) (x : X) (d : t (list X))
  : t (list X) :=
  match get k d with
  | Some l => set k (l ++ [x]) d
  | None => set k [x] d
  end.
End PyDict.

Module Json.

(** [mapping.get(k)], with [None] for a missing key. *)
Definition get (k : string) (members : list (string * json)) : json :=
  match PyDict.get k members with
  | Some v => v
  | None => JNull
  end.

Definition is_null (v : json) : bool :=
  match v with JNull => true | _ => false end.

(** Truth value of a value: [bool(v)]. *)
Definition truthy (v : json) : bool :=
  match v with
  | JNull => false
  | JBool b => b
  | JInt n => negb (n =? 0)%Z
  | JFloat f => negb (PrimFloat.eqb f 0%float)
  | JStr s => PyStr.truthy s
  | JList l => match l with [] => false | _ => true end
  | JObj m => match m with [] => false | _ => true end
  end.

(** [a or b] *)
Definition or_else (a b : json) : json := if truthy a then a else b.

Section Str.
(** [repr] of a float, a list or a dict is left to Python. *)
Variable py_repr : json -> string.

(** [str(v)] *)
Definition str (v : json) : string :=
  match v with
  | JNull => "None"
  | JBool true => "True"
  | JBool false => "False"
  | JInt n => PyStr.of_Z n
  | JStr s => s
  | JFloat _ | JList _ | JObj _ => py_repr v
  end.
End Str.

End Json.

(* ===================================================================== *)
(** * The fragment of Python's [re] used by [normalize.py] *)
(* ===================================================================== *)

Module Re.

(** Regular expressions with one capture group.  [Rep lo hi r] is the
    greedy [r{lo,hi}]; [hi = None] is unbounded ([+] is [Rep 1 None],
    [?] is [Rep 0 (Some 1)]). *)
Inductive regex : Type :=
| Eps
| Chr (p : ascii -> bool)
| Seq (r1 r2 : regex)
| Alt (r1 r2 : regex)
| Rep (lo : nat) (hi : option nat) (r : regex)
| WordB
| Group (r : regex).

(** A position in the subject: the character before it, the characters
    from it on, and its offset. *)
Record cursor : Type := Cursor {
  prev : option ascii;
  rest : list ascii;
  pos : nat
}.

Definition span : Type := (nat * nat)%type.

Definition is_word_opt (o : option ascii) : bool :=
  match o with Some c => PyStr.isword c | None => false end.

(** [\b]: exactly one side is a word character. *)
Definition at_boundary (c : cursor) : bool :=
  xorb (is_word_opt (prev c)) (is_word_opt (head (rest c))).

(** Backtracking matcher in continuation-passing style: alternatives are
    tried left to right, repetitions longest first, and the first
    continuation that succeeds decides the match, as in [re]. *)
Fixpoint run {R : Type} (r : regex) (c : cursor) (g : option span)
    (k : cursor -> option span -> option R) {struct r} : option R :=
  match r with
  | Eps => k c g
  | Chr p =>
      match rest c with
      | a :: t => if p a then k (Cursor (Some a) t (S (pos c))) g else None
      | [] => None
      end
  | Seq r1 r2 => run r1 c g (fun c' g' => run r2 c' g' k)
  | Alt r1 r2 =>
      match run r1 c g k with
      | Some x => Some x
      | None => run r2 c g k
      end
  | WordB => if at_boundary c then k c g else None
  | Group r1 => run r1 c g (fun c' _ => k c' (Some (pos c, pos c')))
  | Rep lo hi r1 =>
      (fix loop (fuel lo : nat) (hi : option nat) (c : cursor)
           (g : option span) {struct fuel} : option R :=
         let stop := if (lo =? 0)%nat then k c g else None in
         match fuel with
         | O => stop
         | S fuel' =>
             let more :=
               match hi with
               | Some O => None
               | _ => run r1 c g
                        (fun c' g' => loop fuel' (Nat.pred lo)
                                        (Nat.pred <$> hi) c' g')
               end in
             match more with
             | Some x => Some x
             | None => stop
             end
         end) (Datatypes.length (rest c)) lo hi c g
  end.

Record found : Type := Found {
  m_start : nat;
  m_end : nat;
  m_group : option span
}.

Definition match_at (r : regex) (c : cursor) : option found :=
  run r c None (fun c' g => Some (Found (pos c) (pos c') g)).

(** [pattern.finditer(text)]: matches from left to right, each search
    resuming where the previous match ended.  (No pattern of the
    program matches the empty string.) *)
Fixpoint scan (r : regex) (p : option ascii) (l : list ascii)
    (i resume : nat) : list found :=
  let here := if (resume <=? i)%nat then match_at r (Cursor p l i)
              else None in
  match l with
  | [] => match here with Some m => [m] | None => [] end
  | a :: t =>
      match here with
      | Some m => m :: scan r (Some a) t (S i) (Nat.max (m_end m) (S i))
      | None => scan r (Some a) t (S i) resume
      end
  end.

Definition finditer (r : regex) (text : list ascii) : list found :=
  scan r None text 0 0.

(** [pattern.search(text)] *)
Definition search (r : regex) (text : list ascii) : option found :=
  head (finditer r text).

(** [m.start(1)], [m.end(1)] and [m.group(1)]. *)
Definition group1 (m : found) : span :=
  match m_group m with Some sp => sp | None => (m_start m, m_start m) end.
Definition group1_text (text : list ascii) (m : found) : string :=
  PyStr.str (PyStr.slice (fst (group1 m)) (snd (group1 m)) text).

(** Pattern syntax. *)
Definition chr (c : ascii) : regex := Chr (Ascii.eqb c).
Definition chr_i (c : ascii) : regex :=
  Chr (fun x => Ascii.eqb (PyStr.lower_char x) (PyStr.lower_char c)).
Definition digit : regex := Chr PyStr.isdigit.
Definition seqs (rs : list regex) : regex := fold_right Seq Eps rs.
Definition alts (r : regex) (rs : list regex) : regex :=
  fold_left Alt rs r.
Definition lit (s : string) : regex := seqs (map chr (PyStr.chars s)).
Definition lit_i (s : string) : regex := seqs (map chr_i (PyStr.chars s)).
Definition plus (r : regex) : regex := Rep 1 None r.
Definition opt (r : regex) : regex := Rep 0 (Some 1) r.
Definition times (lo hi : nat) (r : regex) : regex := Rep lo (Some hi) r.

End Re.

(* ===================================================================== *)
(** * normalize.py *)
(* ===================================================================== *)

Module Normalize.
Import Re.

(** [DOI_PATTERN = (10\.\d{4,9}/[-._;()/:A-Z0-9]+)], [re.IGNORECASE] *)
Definition doi_tail (c : ascii) : bool :=
  PyStr.mem_char "-._;()/:" c || PyStr.isalpha c || PyStr.isdigit c.

Definition DOI_PATTERN : regex :=
  Group (seqs [lit "10"; chr "."; Rep 4 (Some 9) digit; chr "/";
               plus (Chr doi_tail)]).

(** [ARXIV_PATTERN = \b(?:arxiv:)?(\d{4}\.\d{4,5})(?:v\d+)?\b],
    [re.IGNORECASE] *)
Definition ARXIV_PATTERN : regex :=
  seqs [WordB; opt (lit_i "arxiv:");
        Group (seqs [times 4 4 digit; chr "."; times 4 5 digit]);
        opt (seqs [chr_i "v"; plus digit]); WordB].

(** [YEAR_PATTERN = \b(19\d{2}|20\d{2})\b] *)
Definition YEAR_PATTERN : regex :=
  seqs [WordB;
        Group (Alt (seqs [lit "19"; times 2 2 digit])
                   (seqs [lit "20"; times 2 2 digit]));
        WordB].

(** [URL_PATTERN = (https?://[^\s\)\]\}>,;]+)], [re.IGNORECASE] *)
Definition url_char (c : ascii) : bool :=
  negb (PyStr.isspace c || PyStr.mem_char ")]}>,;" c).

Definition URL_PATTERN : regex :=
  Group (seqs [lit_i "http"; opt (chr_i "s"); lit "://";
               plus (Chr url_char)]).

(** [ACCESS_YEAR_CONTEXT_PATTERN = \b(accessed|retrieved|visited)\b],
    [re.IGNORECASE] *)
Definition ACCESS_YEAR_CONTEXT_PATTERN : regex :=
  seqs [WordB;
        Group (alts (lit_i "accessed") [lit_i "retrieved"; lit_i "visited"]);
        WordB].

Definition PUNCT : string := ".,;:()[]{}<>".

(** The prefix loop of [normalize_doi]: the first prefix the text starts
    with is cut off and the rest stripped; then the loop breaks. *)
Fixpoint cut_first_prefix (strip_after : bool) (prefixes : list string)
    (text : string) : string :=
  match prefixes with
  | [] => text
  | p :: ps =>
      if PyStr.startswith text p then
        let cut := PyStr.drop (String.length p) text in
        if strip_after then PyStr.strip cut else cut
      else cut_first_prefix strip_after ps text
  end.

Definition normalize_doi (raw : option string) : option string :=
  match raw with
  | None => None
  | Some raw =>
      let text := PyStr.strip raw in
      if negb (PyStr.truthy text) then None
      else
        let text := PyStr.lower text in
        let text :=
          cut_first_prefix true
            ["https://doi.org/"; "http://doi.org/"; "doi:"; "doi "] text in
        Some (PyStr.strip_chars PUNCT (PyStr.strip text))
  end.

Definition normalize_url (raw : option string) : option string :=
  match raw with
  | None => None
  | Some raw =>
      let text := PyStr.strip raw in
      if negb (PyStr.truthy text) then None
      else
        let text := PyStr.strip_chars PUNCT (PyStr.strip text) in
        let text := PyStr.lower text in
        let text := cut_first_prefix false ["https://"; "http://"] text in
        let text := if PyStr.startswith text "www."
                    then PyStr.drop 4 text else text in
        Some (PyStr.rstrip_chars "/" text)
  end.

(** [if not text: return None] on a [str | None]. *)
Definition nonempty (text : option string) : option string :=
  match text with
  | Some s => if PyStr.truthy s then Some s else None
  | None => None
  end.

Definition extract_first_url (text : option string) : option string :=
  s ← nonempty text;
  m ← search URL_PATTERN (PyStr.chars s);
  Some (PyStr.rstrip_chars ").,;]" (group1_text (PyStr.chars s) m)).

Definition extract_doi (text : option string) : option string :=
  s ← nonempty text;
  m ← search DOI_PATTERN (PyStr.chars s);
  Some (PyStr.rstrip_chars ").,;]" (group1_text (PyStr.chars s) m)).

Definition extract_arxiv_id (text : option string) : option string :=
  s ← nonempty text;
  m ← search ARXIV_PATTERN (PyStr.chars s);
  Some (group1_text (PyStr.chars s) m).

(** ** [extract_year] *)

(** A year candidate: [(m.group(1), m.start(1), m.end(1))]. *)
Definition year_cand : Type := (string * nat * nat)%type.

Definition ignore_spans (text : list ascii) : list span :=
  flat_map (fun pattern =>
              map (fun m => (m_start m, m_end m)) (finditer pattern text))
           [URL_PATTERN; DOI_PATTERN; ARXIV_PATTERN].

Definition is_ignored (spans : list span) (start end_ : nat) : bool :=
  existsb (fun '(s, e) => (start <? e)%nat && (s <? end_)%nat) spans.

Definition year_candidates (text : list ascii) : list year_cand :=
  let spans := ignore_spans text in
  flat_map (fun m =>
              let '(start, end_) := group1 m in
              if is_ignored spans start end_ then []
              else [(group1_text text m, start, end_)])
           (finditer YEAR_PATTERN text).

Definition is_access_year (text : list ascii) (start : nat) : bool :=
  let window_start := (start - 80)%nat in
  let window := PyStr.slice window_start start text in
  match last (finditer ACCESS_YEAR_CONTEXT_PATTERN window) with
  | None => false
  | Some m => (Datatypes.length window - m_start m <=? 50)%nat
  end.

Definition in_parentheses (text : list ascii) (start end_ : nat) : bool :=
  let before := PyStr.dropwhile PyStr.isspace (rev (firstn start text)) in
  let after := PyStr.dropwhile PyStr.isspace (skipn end_ text) in
  match before, after with
  | i :: _, j :: _ => Ascii.eqb i "(" && Ascii.eqb j ")"
  | _, _ => false
  end.

Definition start_lt (a b : year_cand) : bool :=
  (snd (fst a) <? snd (fst b))%nat.

Definition extract_year (text : option string) : option string :=
  s ← nonempty text;
  let text := PyStr.chars s in
  let candidates := year_candidates text in
  match candidates with
  | [] => None
  | _ =>
      let non_access :=
        List.filter (fun '(_, s, _) => negb (is_access_year text s))
                    candidates in
      match non_access with
      | [] => None
      | _ =>
          let paren :=
            List.filter (fun '(_, s, e) => in_parentheses text s e)
                        non_access in
          match PySort.sort_reverse start_lt paren with
          | (y, _, _) :: _ => Some y
          | [] =>
              match PySort.sort_reverse start_lt non_access with
              | (y, _, _) :: _ => Some y
              | [] => None
              end
          end
      end
  end.

(** [coerce_int].  The last case is [int(str(value).strip())] under
    [try]: [str] of a float, a list or a dict is never an integer
    literal (it holds a point, an exponent, [inf], [nan], a bracket or a
    brace), so those fall to the default. *)
Definition coerce_int (value : json) (default : Z) : Z :=
  match value with
  | JNull => default
  | JBool _ => default
  | JInt n => n
  | JStr s =>
      match PyStr.to_Z (PyStr.strip s) with
      | Some n => n
      | None => default
      end
  | JFloat _ | JList _ | JObj _ => default
  end.

End Normalize.


(* ===================================================================== *)
(** * bbt_library.py *)
(* ===================================================================== *)

Module BbtLibrary.
Import Normalize.

Record PdfAttachment : Type := {
  att_title : string;
  att_path : string;
  att_url : string
}.

(** The dict [summarize_item] returns. *)
Record LibraryRecord : Type := {
  citekey : string;
  itemKey : string;
  title : string;
  year : option string;
  authors : list string;
  doi : option string;
  url : option string;
  zotero_tags : list string;
  pdf_attachments : list PdfAttachment
}.

Record LibraryIndex : Type := {
  records : PyDict.t LibraryRecord;
  by_doi : PyDict.t (list string);
  by_arxiv : PyDict.t (list string);
  by_url : PyDict.t (list string);
  total_items : nat;
  indexed_items : nat;
  warnings : list string
}.

(** The items of [iter_library_items]: the members of each object. *)
Definition item : Type := list (string * json).

Definition only_objects (l : list json) : list item :=
  flat_map (fun v => match v with JObj m => [m] | _ => [] end) l.

Definition iter_library_items (data : json) : list item :=
  match data with
  | JObj m =>
      match Json.get "items" m with
      | JList items => only_objects items
      | _ => []
      end
  | JList items => only_objects items
  | _ => []
  end.

Section WithRepr.
Variable py_repr : json -> string.

Abbreviation str := (Json.str py_repr).

(** [re.search(r"\b(19\d{2}|20\d{2})\b", str(value))] *)
Definition _extract_year (value : json) : option string :=
  match value with
  | JNull => None
  | _ =>
      let text := PyStr.chars (str value) in
      Re.group1_text text <$> Re.search YEAR_PATTERN text
  end.

(** [(c.get("creatorType") or "").lower()]: a true value that is not a
    string has no [lower]. *)
Definition creator_type_lower (c : item) : result string :=
  match Json.or_else (Json.get "creatorType" c) (JStr "") with
  | JStr s => Ok (PyStr.lower s)
  | _ => Raise AttributeError
  end.

Definition format_creator (c : item) : result (list string) :=
  do ty <- creator_type_lower c;
  if negb (String.eqb ty "author" || String.eqb ty "") then Ok []
  else
    let last :=
      PyStr.strip (str (Json.or_else (Json.get "lastName" c) (JStr ""))) in
    let first :=
      PyStr.strip (str (Json.or_else (Json.get "firstName" c) (JStr ""))) in
    if PyStr.truthy last && PyStr.truthy first
    then Ok [last +:+ ", " +:+ first]
    else if PyStr.truthy last then Ok [last]
    else if PyStr.truthy first then Ok [first]
    else Ok [].

Definition _format_creators (creators : json) : result (list string) :=
  match creators with
  | JList cs =>
      for_each (fun authors c => do a <- format_creator c;
                                 Ok (authors ++ a))
               (only_objects cs) []
  | _ => Ok []
  end.

Definition normalize_tag (t : json) : list string :=
  let tag :=
    match t with
    | JStr s => PyStr.strip s
    | JObj m => PyStr.strip (str (Json.or_else (Json.get "tag" m) (JStr "")))
    | _ => PyStr.strip (str t)
    end in
  if PyStr.truthy tag then [tag] else [].

Definition _normalize_tags (tags : json) : list string :=
  match tags with
  | JList ts => flat_map normalize_tag ts
  | _ => []
  end.

Definition att_field (k : string) (att : item) : string :=
  str (Json.or_else (Json.get k att) (JStr "")).

Definition _is_pdf_attachment (att : item) : bool :=
  let path := att_field "path" att in
  let title := att_field "title" att in
  let url := att_field "url" att in
  if existsb (fun value => PyStr.endswith (PyStr.lower value) ".pdf")
             [path; title; url] then true
  else
    let lowered := PyStr.lower url in
    if PyStr.contains lowered "arxiv.org/pdf/" then true
    else if PyStr.contains lowered "/pdf/" then true
    else false.

Definition _extract_pdf_attachments (attachments : json)
  : list PdfAttachment :=
  match attachments with
  | JList atts =>
      flat_map (fun att =>
                  if _is_pdf_attachment att then
                    [{| att_title := att_field "title" att;
                        att_path := att_field "path" att;
                        att_url := att_field "url" att |}]
                  else [])
               (only_objects atts)
  | _ => []
  end.

Definition summarize_item (it : item) : result (option LibraryRecord) :=
  match Json.get "citationKey" it with
  | JStr citekey =>
      if negb (PyStr.truthy (PyStr.strip citekey)) then Ok None
      else
        let title :=
          PyStr.strip (str (Json.or_else (Json.get "title" it) (JStr ""))) in
        let date := Json.get "date" it in
        let year :=
          or_opt (or_opt (_extract_year date)
                         (_extract_year (Json.get "issued" it)))
                 (_extract_year (Json.get "year" it)) in
        let doi :=
          PyStr.strip
            (str (Json.or_else
                    (Json.or_else (Json.get "DOI" it) (Json.get "doi" it))
                    (JStr ""))) in
        let url :=
          PyStr.strip
            (str (Json.or_else
                    (Json.or_else (Json.get "url" it) (Json.get "URL" it))
                    (JStr ""))) in
        let creators := Json.get "creators" it in
        do authors <- _format_creators creators;
        let tags := _normalize_tags (Json.get "tags" it) in
        let pdfs := _extract_pdf_attachments (Json.get "attachments" it) in
        Ok (Some {| citekey := citekey;
                    itemKey :=
                      str (Json.or_else (Json.get "itemKey" it) (JStr ""));
                    title := title;
                    year := year;
                    authors := authors;
                    doi := or_none doi;
                    url := or_none url;
                    zotero_tags := tags;
                    pdf_attachments := pdfs |})
  | _ => Ok None
  end.

(** The four dicts the indexing loop fills. *)
Record tables : Type := {
  t_records : PyDict.t LibraryRecord;
  t_by_doi : PyDict.t (list string);
  t_by_arxiv : PyDict.t (list string);
  t_by_url : PyDict.t (list string)
}.

Definition no_tables : tables :=
  {| t_records := []; t_by_doi := []; t_by_arxiv := []; t_by_url := [] |}.

(** [if key: index.setdefault(key, []).append(citekey)] *)
Definition index_under (key : option string) (ck : string)
    (d : PyDict.t (list string)) : PyDict.t (list string) :=
  match key with
  | Some k => if PyStr.truthy k then PyDict.append_to k ck d else d
  | None => d
  end.

Definition arxiv_of (summary : LibraryRecord) (it : item)
  : option string :=
  let arxiv_id :=
    or_opt (extract_arxiv_id (doi summary))
           (extract_arxiv_id (url summary)) in
  if truthy_opt arxiv_id then arxiv_id
  else
    let extra := Json.get "extra" it in
    if Json.truthy extra then extract_arxiv_id (Some (str extra))
    else None.

Definition index_summary (tb : tables) (it : item)
    (summary : LibraryRecord) : tables :=
  let ck := citekey summary in
  {| t_records := PyDict.set ck summary (t_records tb);
     t_by_doi := index_under (normalize_doi (doi summary)) ck (t_by_doi tb);
     t_by_url := index_under (normalize_url (url summary)) ck (t_by_url tb);
     t_by_arxiv := index_under (arxiv_of summary it) ck (t_by_arxiv tb) |}.

Definition index_item (tb : tables) (it : item) : result tables :=
  do summary <- summarize_item it;
  match summary with
  | None => Ok tb
  | Some summary => Ok (index_summary tb it summary)
  end.

Definition duplicate_warnings (what : string)
    (index : PyDict.t (list string)) : list string :=
  flat_map (fun '(key, citekeys) =>
              if (1 <? Datatypes.length citekeys)%nat then
                ["Duplicate " +:+ what +:+ " index for " +:+ key +:+ ": "
                   +:+ py_repr (JList (map JStr citekeys))]
              else [])
           (PyDict.items index).

Definition build_library_index (data : json) : result LibraryIndex :=
  let items := iter_library_items data in
  do tb <- for_each index_item items no_tables;
  Ok {| records := t_records tb;
        by_doi := t_by_doi tb;
        by_arxiv := t_by_arxiv tb;
        by_url := t_by_url tb;
        total_items := Datatypes.length items;
        indexed_items := PyDict.len (t_records tb);
        warnings := duplicate_warnings "DOI" (t_by_doi tb)
                    ++ duplicate_warnings "arXiv" (t_by_arxiv tb)
                    ++ duplicate_warnings "URL" (t_by_url tb) |}.

End WithRepr.
End BbtLibrary.

(* ===================================================================== *)
(** * refs_extracted.py *)
(* ===================================================================== *)

Module RefsExtracted.
Import Normalize.

(** The [parsed] dict of a normalized reference. *)
Record Parsed : Type := {
  p_doi : option string;
  p_url : option string;
  p_arxiv : option string;
  p_year : option string;
  p_title_guess : option string;
  p_author_guess : option string
}.

(** The dict [_normalize_ref] returns. *)
Record Reference : Type := {
  ref_id : string;
  line_start : Z;
  line_end : Z;
  raw_text : string;
  parsed : Parsed
}.

Record RefsExtracted : Type := {
  meta : list (string * json);
  refs : list Reference;
  warnings : list string
}.

Fixpoint _first_present (mapping : list (string * json))
    (keys : list string) : json :=
  match keys with
  | [] => JNull
  | k :: ks =>
      if PyDict.mem k mapping then Json.get k mapping
      else _first_present mapping ks
  end.

Definition both_null (a b : json) : bool :=
  Json.is_null a && Json.is_null b.

(** The four places a line range is read from, in order; each later one
    is consulted only while both ends are still [None]. *)
Definition range_from_keys (obj : list (string * json)) : json * json :=
  (_first_present obj ["line_start"; "start_line"; "startLine"; "lineStart"],
   _first_present obj ["line_end"; "end_line"; "endLine"; "lineEnd"]).

Definition range_from_pair (obj : list (string * json)) (r : json * json)
  : json * json :=
  if both_null (fst r) (snd r) then
    match Json.or_else (Json.get "line_range" obj)
                       (Json.get "lineRange" obj) with
    | JList [a; b] => (a, b)
    | _ => r
    end
  else r.

Definition range_from_lines (obj : list (string * json)) (r : json * json)
  : json * json :=
  if both_null (fst r) (snd r) then
    match Json.get "lines" obj with
    | JObj lines =>
        (_first_present lines ["start"; "line_start"; "start_line"],
         _first_present lines ["end"; "line_end"; "end_line"])
    | _ => r
    end
  else r.

Definition range_from_single (obj : list (string * json)) (r : json * json)
  : json * json :=
  if both_null (fst r) (snd r) then
    match Json.get "line" obj with
    | JNull => r
    | single => (single, single)
    end
  else r.

Definition swapped_warning (start_i end_i : Z) : string :=
  "Swapped line range: start=" +:+ PyStr.of_Z start_i
    +:+ " end=" +:+ PyStr.of_Z end_i.

(** Returns the range and the warnings list after the call. *)
Definition _extract_line_range (obj : list (string * json))
    (warnings : list string) : (Z * Z) * list string :=
  let r := range_from_single obj
             (range_from_lines obj
                (range_from_pair obj (range_from_keys obj))) in
  let start_i := coerce_int (fst r) (-1) in
  let end_i := coerce_int (snd r) (-1) in
  if (0 <=? start_i)%Z && (0 <=? end_i)%Z && (end_i <? start_i)%Z then
    ((end_i, start_i), warnings ++ [swapped_warning start_i end_i])
  else ((start_i, end_i), warnings).

Definition json_of_opt (o : option string) : json :=
  match o with Some s => JStr s | None => JNull end.

(** [type(ref).__name__] *)
Definition type_name (v : json) : string :=
  match v with
  | JNull => "NoneType"
  | JBool _ => "bool"
  | JInt _ => "int"
  | JFloat _ => "float"
  | JStr _ => "str"
  | JList _ => "list"
  | JObj _ => "dict"
  end.

Section WithRepr.
Variable py_repr : json -> string.

Abbreviation str := (Json.str py_repr).

(** [str(v) if v else ""] *)
Definition str_if_true (v : json) : string :=
  if Json.truthy v then str v else "".

Definition clean (value : json) : option string :=
  match value with
  | JNull => None
  | _ => or_none (PyStr.strip (str value))
  end.

Definition _normalize_parsed (raw_text : string) (parsed : json)
  : Parsed :=
  let parsed := match parsed with JObj m => m | _ => [] end in
  let doi := Json.get "doi" parsed in
  let url := Json.get "url" parsed in
  let arxiv := Json.get "arxiv" parsed in
  let year := Json.get "year" parsed in
  let title_guess := Json.get "title_guess" parsed in
  let author_guess := Json.get "author_guess" parsed in
  let doi := if Json.truthy doi then doi
             else json_of_opt (extract_doi (Some raw_text)) in
  let url := if Json.truthy url then url
             else json_of_opt (extract_first_url (Some raw_text)) in
  let arxiv :=
    if Json.truthy arxiv then arxiv
    else json_of_opt
           (or_opt (or_opt (extract_arxiv_id (Some raw_text))
                           (extract_arxiv_id (Some (str_if_true doi))))
                   (extract_arxiv_id (Some (str_if_true url)))) in
  let year := if Json.truthy year then year
              else json_of_opt (extract_year (Some raw_text)) in
  {| p_doi := clean doi;
     p_url := clean url;
     p_arxiv := clean arxiv;
     p_year := clean year;
     p_title_guess := clean title_guess;
     p_author_guess := clean author_guess |}.

(** ["\n".join(str(x) for x in raw_lines if str(x).strip())] *)
Definition join_raw_lines (raw_lines : list json) : string :=
  PyStr.join (String (ascii_of_nat 10) "")
    (List.filter (fun s => PyStr.truthy (PyStr.strip s))
                 (map str raw_lines)).

Definition raw_text_of (ref : list (string * json)) : json :=
  match _first_present ref ["raw_text"; "rawText"; "text"; "raw"] with
  | JNull =>
      match _first_present ref
              ["raw_lines"; "rawLines"; "lines_raw"; "rawLinesText"] with
      | JList raw_lines => JStr (join_raw_lines raw_lines)
      | _ => JNull
      end
  | raw_text => raw_text
  end.

(** [str(v).strip() if v is not None else ""] *)
Definition stripped_or_empty (v : json) : string :=
  match v with
  | JNull => ""
  | _ => PyStr.strip (str v)
  end.

(** Returns the reference, if the entry is kept, and the warnings list
    after the call. *)
Definition _normalize_ref (ref : json) (warnings : list string)
  : option Reference * list string :=
  match ref with
  | JStr ref =>
      let raw_text := PyStr.strip ref in
      if negb (PyStr.truthy raw_text) then (None, warnings)
      else
        let parsed := _normalize_parsed raw_text (JObj []) in
        (Some {| ref_id := "";
                 line_start := (-1);
                 line_end := (-1);
                 raw_text := raw_text;
                 parsed := parsed |},
         warnings)
  | JObj ref =>
      let ref_id :=
        _first_present ref ["ref_id"; "id"; "refId"; "number"] in
      let ref_id_str := stripped_or_empty ref_id in
      let raw_text_str := stripped_or_empty (raw_text_of ref) in
      if negb (PyStr.truthy raw_text_str) then
        (None,
         warnings ++ ["Skipped ref with no raw_text (ref_id="
                        +:+ py_repr (JStr ref_id_str) +:+ ")"])
      else
        let '((line_start, line_end), warnings) :=
          _extract_line_range ref warnings in
        let parsed :=
          _normalize_parsed raw_text_str (Json.get "parsed" ref) in
        (Some {| ref_id := ref_id_str;
                 line_start := line_start;
                 line_end := line_end;
                 raw_text := raw_text_str;
                 parsed := parsed |},
         warnings)
  | _ =>
      (None,
       warnings ++ ["Skipped non-object ref entry: " +:+ type_name ref])
  end.

(** The loop of [load_refs_extracted] over the raw entries. *)
Fixpoint normalize_all (refs_raw : list json) (refs : list Reference)
    (warnings : list string) : list Reference * list string :=
  match refs_raw with
  | [] => (refs, warnings)
  | r :: rest =>
      match _normalize_ref r warnings with
      | (Some normalized, warnings) =>
          normalize_all rest (refs ++ [normalized]) warnings
      | (None, warnings) => normalize_all rest refs warnings
      end
  end.

(** What [load_refs_extracted] selects from the document. *)
Definition select_refs (data : json)
  : list (string * json) * json * list string :=
  match data with
  | JObj m =>
      let meta := match Json.get "meta" m with
                  | JObj meta_raw => meta_raw
                  | _ => []
                  end in
      (meta, _first_present m ["refs"; "references"; "items"], [])
  | _ =>
      ([], JNull,
       ["Unexpected top-level JSON type: " +:+ type_name data])
  end.

Definition no_refs_warning : string :=
  "No refs found in refs_extracted.json (expected one of: refs/references/items)".

Definition refs_list (refs_raw : json) (warnings : list string)
  : list json * list string :=
  let '(refs_raw, warnings) :=
    match refs_raw with
    | JNull => (JList [], warnings ++ [no_refs_warning])
    | _ => (refs_raw, warnings)
    end in
  match refs_raw with
  | JList l => (l, warnings)
  | _ =>
      ([], warnings ++ ["refs is not a list (got " +:+ type_name refs_raw
                          +:+ "); treating as empty"])
  end.

(** [meta.setdefault("warnings", [])], then [extend] when the member is
    a list and assignment otherwise. *)
Definition with_warnings (meta : list (string * json))
    (warnings : list string) : list (string * json) :=
  let meta := if PyDict.mem "warnings" meta then meta
              else PyDict.set "warnings" (JList []) meta in
  match Json.get "warnings" meta with
  | JList old => PyDict.set "warnings" (JList (old ++ map JStr warnings)) meta
  | _ => PyDict.set "warnings" (JList (map JStr warnings)) meta
  end.

(** [load_refs_extracted] from the document [json.load] returned. *)
Definition load_refs_extracted (data : json) : RefsExtracted :=
  let '(meta, refs_raw, warnings) := select_refs data in
  let '(refs_raw, warnings) := refs_list refs_raw warnings in
  let '(refs, warnings) := normalize_all refs_raw [] warnings in
  {| meta := with_warnings meta warnings;
     refs := refs;
     warnings := warnings |}.

End WithRepr.
End RefsExtracted.

(* ===================================================================== *)
(** * The match result document *)
(* ===================================================================== *)

Module MatchDoc.
Import BbtLibrary RefsExtracted.

(** The dict [_candidate_from_record] returns. *)
Record Candidate : Type := {
  c_citekey : string;
  c_itemKey : string;
  c_score : float;
  c_title : string;
  c_year : option string;
  c_authors : list string;
  c_doi : option string;
  c_url : option string;
  c_zotero_tags : list string;
  c_pdf_attachments : list PdfAttachment
}.

(** The [match] dict of a reference.  An absent or empty [status] is
    the empty string; an absent [reason] is [None]. *)
Record Match : Type := {
  status : string;
  m_citekey : option string;
  m_itemKey : option string;
  method : string;
  confidence : float;
  reason : option string
}.

(** One entry of [refs] in the match result.  [r_match] is [None] when
    the entry carries no [match] object. *)
Record MatchRef : Type := {
  r_ref_id : string;
  r_line_start : Z;
  r_line_end : Z;
  r_raw_text : string;
  r_parsed : Parsed;
  r_match : option Match;
  r_candidates : list Candidate
}.

(** The [stats] dict: a counter per key. *)
Definition zero_stats : gmap string nat :=
  <["total" := 0]> (<["matched" := 0]> (<["needs_llm" := 0]>
    (<["needs_review" := 0]> (<["unmatched" := 0]> ∅)))).

(** [stats[key] += 1], for a key the dict holds (the program never does
    it for another). *)
Definition bump (key : string) (stats : gmap string nat) : gmap string nat :=
  <[key := S (default 0 (stats !! key))]> stats.

End MatchDoc.

(* ===================================================================== *)
(** * retrieval_tfidf.py *)
(* ===================================================================== *)

Module RetrievalTfidf.
Import BbtLibrary.

Section WithSklearn.
(** scikit-learn is outside the program: [M] is a fitted vectorizer
    with its document matrix, [fit_transform] builds it from the
    titles, and [kernel_scores] is [vectorizer.transform] followed by
    [linear_kernel(...).flatten()], one score per document.  Either
    may raise. *)
Variable M : Type.
Variable fit_transform : list string -> result M.
Variable kernel_scores : M -> string -> result (list float).

Record TfidfRetrievalIndex : Type := {
  citekeys : list string;
  titles : list string;
  matrix : option M
}.

Definition build_tfidf_index (records : PyDict.t LibraryRecord)
  : result TfidfRetrievalIndex :=
  let citekeys := PyDict.keys records in
  let titles := map (fun '(_, r) => title r) (PyDict.items records) in
  do matrix <- match titles with
               | [] => Ok None
               | _ => do m <- fit_transform titles; Ok (Some m)
               end;
  Ok {| citekeys := citekeys; titles := titles; matrix := matrix |}.

Definition score_lt (a b : string * float) : bool :=
  PrimFloat.ltb (snd a) (snd b).

Definition retrieve_top_k (index : TfidfRetrievalIndex) (query : string)
    (top_k : Z) : result (list (string * float)) :=
  let query_text := PyStr.strip query in
  match PyStr.truthy query_text, citekeys index, matrix index with
  | true, _ :: _, Some m =>
      do scores <- kernel_scores m query_text;
      let scored := combine (citekeys index) scores in
      let scored := PySort.sort_reverse score_lt scored in
      Ok (firstn (Z.to_nat (Z.max 0 top_k)) scored)
  | _, _, _ => Ok []
  end.

End WithSklearn.

Arguments citekeys {M} _.
Arguments titles {M} _.
Arguments matrix {M} _.
End RetrievalTfidf.

(* ===================================================================== *)
(** * match_pipeline.py *)
(* ===================================================================== *)

Module MatchPipeline.
Import Normalize BbtLibrary RefsExtracted MatchDoc RetrievalTfidf.

Record MatchParams : Type := {
  top_k : Z;
  tfidf_auto_match_threshold : float;
  tfidf_auto_match_gap : float;
  tfidf_needs_llm_threshold : float;
  year_boost : float;
  author_boost : float
}.

(** [MatchParams()] *)
Definition default_params : MatchParams :=
  {| top_k := 10;
     tfidf_auto_match_threshold := 0.90;
     tfidf_auto_match_gap := 0.10;
     tfidf_needs_llm_threshold := 0.25;
     year_boost := 0.03;
     author_boost := 0.03 |}.

Definition _candidate_from_record (record : LibraryRecord) (score : float)
  : Candidate :=
  {| c_citekey := citekey record;
     c_itemKey := itemKey record;
     c_score := score;
     c_title := title record;
     c_year := year record;
     c_authors := authors record;
     c_doi := doi record;
     c_url := url record;
     c_zotero_tags := zotero_tags record;
     c_pdf_attachments := pdf_attachments record |}.

Definition year_agrees (ref_year cand_year : option string) : bool :=
  match ref_year, cand_year with
  | Some r, Some c => PyStr.truthy r && PyStr.truthy c && String.eqb r c
  | _, _ => false
  end.

Definition author_agrees (ref_author_guess : option string)
    (cand_authors : list string) : bool :=
  match ref_author_guess with
  | Some guess =>
      PyStr.truthy guess &&
      let needle := PyStr.lower (PyStr.strip guess) in
      PyStr.truthy needle &&
      let hay := PyStr.lower (PyStr.join " " cand_authors) in
      PyStr.contains hay needle
  | None => false
  end.

Definition _apply_light_boosts (base_score : float)
    (ref_year ref_author_guess cand_year : option string)
    (cand_authors : list string) (params : MatchParams) : float :=
  let score := base_score in
  let score := if year_agrees ref_year cand_year
               then (score + year_boost params)%float else score in
  let score := if author_agrees ref_author_guess cand_authors
               then (score + author_boost params)%float else score in
  score.

(** [0.99 if len(citekeys) == 1 else 0.80] *)
Definition det_confidence (citekeys : list string) : float :=
  if (Datatypes.length citekeys =? 1)%nat then 0.99%float else 0.80%float.

(** [key and key in index], giving [index[key]]. *)
Definition hit (key : option string) (index : PyDict.t (list string))
  : option (list string) :=
  match key with
  | Some k => if PyStr.truthy k then PyDict.get k index else None
  | None => None
  end.

Definition arxiv_norm_of (arxiv_id : option string) : option string :=
  if truthy_opt arxiv_id then extract_arxiv_id arxiv_id else None.

Definition _deterministic_match (ref : Reference) (library : LibraryIndex)
  : option string * list string * float :=
  let parsed := parsed ref in
  match hit (normalize_doi (p_doi parsed)) (by_doi library) with
  | Some citekeys => (Some "doi", citekeys, det_confidence citekeys)
  | None =>
      match hit (arxiv_norm_of (p_arxiv parsed)) (by_arxiv library) with
      | Some citekeys => (Some "arxiv", citekeys, det_confidence citekeys)
      | None =>
          match hit (normalize_url (p_url parsed)) (by_url library) with
          | Some citekeys => (Some "url", citekeys, det_confidence citekeys)
          | None => (None, [], 0%float)
          end
      end
  end.

Definition _select_query_text (ref : Reference) : string :=
  match p_title_guess (parsed ref) with
  | Some title_guess =>
      if PyStr.truthy (PyStr.strip title_guess) then PyStr.strip title_guess
      else PyStr.strip (raw_text ref)
  | None => PyStr.strip (raw_text ref)
  end.

(** The candidates of the deterministic tier: a record per colliding
    citekey the library holds, each with score 1.0. *)
Definition det_candidates (library : LibraryIndex)
    (det_citekeys : list string) : list Candidate :=
  flat_map (fun ck =>
              match PyDict.get ck (records library) with
              | Some record => [_candidate_from_record record 1]
              | None => []
              end)
           det_citekeys.

(** The candidates of the lexical tier, before sorting. *)
Definition boosted_candidates (params : MatchParams)
    (library : LibraryIndex) (ref : Reference)
    (retrieved : list (string * float)) : list Candidate :=
  flat_map (fun '(ck, base_score) =>
              match PyDict.get ck (records library) with
              | Some record =>
                  let score :=
                    _apply_light_boosts base_score
                      (p_year (parsed ref)) (p_author_guess (parsed ref))
                      (year record) (authors record) params in
                  [_candidate_from_record record score]
              | None => []
              end)
           retrieved.

(** Order of the sort key [(c["score"], c.get("citekey") or "")]: the
    first components decide unless they are equal. *)
Definition cand_lt (a b : Candidate) : bool :=
  if PrimFloat.eqb (c_score a) (c_score b)
  then String.ltb (c_citekey a) (c_citekey b)
  else PrimFloat.ltb (c_score a) (c_score b).

(** [x >= y] on floats. *)
Definition float_ge (x y : float) : bool := PrimFloat.leb y x.

(** Tier classification of a non-empty sorted candidate list. *)
Definition classify (params : MatchParams) (top : Candidate)
    (others : list Candidate) : Match :=
  let top1 := c_score top in
  let top2 := match others with
              | second :: _ => c_score second
              | [] => 0%float
              end in
  if float_ge top1 (tfidf_auto_match_threshold params)
     && float_ge (top1 - top2)%float (tfidf_auto_match_gap params) then
    {| status := "matched";
       m_citekey := or_none (c_citekey top);
       m_itemKey := or_none (c_itemKey top);
       method := "tfidf";
       confidence := top1;
       reason := None |}
  else if float_ge top1 (tfidf_needs_llm_threshold params) then
    {| status := "needs_llm"; m_citekey := None; m_itemKey := None;
       method := "tfidf"; confidence := top1; reason := None |}
  else
    {| status := "needs_review"; m_citekey := None; m_itemKey := None;
       method := "tfidf"; confidence := top1; reason := None |}.

Definition unmatched : Match :=
  {| status := "unmatched"; m_citekey := None; m_itemKey := None;
     method := "none"; confidence := 0; reason := None |}.

(** [int(v or -1)] *)
Definition or_minus_one (v : Z) : Z := if (v =? 0)%Z then (-1)%Z else v.

Definition emit (ref : Reference) (m : Match) (candidates : list Candidate)
  : MatchRef :=
  {| r_ref_id := ref_id ref;
     r_line_start := or_minus_one (line_start ref);
     r_line_end := or_minus_one (line_end ref);
     r_raw_text := raw_text ref;
     r_parsed := parsed ref;
     r_match := Some m;
     r_candidates := candidates |}.

Section WithSklearn.
Variable M : Type.
Variable fit_transform : list string -> result M.
Variable kernel_scores : M -> string -> result (list float).

(** The body of the loop over the references: the verdict and the
    candidates of one reference. *)
Definition resolve (params : MatchParams) (library : LibraryIndex)
    (retrieval_index : TfidfRetrievalIndex M) (ref : Reference)
  : result (Match * list Candidate) :=
  match _deterministic_match ref library with
  | (Some det_method, det_citekeys, det_conf) =>
      let candidates := det_candidates library det_citekeys in
      match det_citekeys with
      | [match_citekey] =>
          Ok ({| status := "matched";
                 m_citekey := Some match_citekey;
                 m_itemKey :=
                   match PyDict.get match_citekey (records library) with
                   | Some record => or_none (itemKey record)
                   | None => None
                   end;
                 method := det_method;
                 confidence := det_conf;
                 reason := None |}, candidates)
      | _ =>
          Ok ({| status := match candidates with
                           | [] => "needs_review"
                           | _ => "needs_llm"
                           end;
                 m_citekey := None;
                 m_itemKey := None;
                 method := det_method;
                 confidence := det_conf;
                 reason := None |}, candidates)
      end
  | (None, _, _) =>
      let query := _select_query_text ref in
      do retrieved <- retrieve_top_k M kernel_scores retrieval_index
                        query (top_k params);
      let candidates := boosted_candidates params library ref retrieved in
      let candidates := PySort.sort_reverse cand_lt candidates in
      match candidates with
      | top :: others => Ok (classify params top others, candidates)
      | [] => Ok (unmatched, [])
      end
  end.

Definition resolve_ref (params : MatchParams) (library : LibraryIndex)
    (retrieval_index : TfidfRetrievalIndex M)
    (acc : list MatchRef * gmap string nat) (ref : Reference)
  : result (list MatchRef * gmap string nat) :=
  let '(refs_out, stats) := acc in
  let stats := bump "total" stats in
  do (m, candidates) <- resolve params library retrieval_index ref;
  let stats := bump (status m) stats in
  Ok (refs_out ++ [emit ref m candidates], stats).

Record MatchResult : Type := {
  meta_warnings : list string;
  library_item_count : nat;
  library_total_item_count : nat;
  refs : list MatchRef;
  stats : gmap string nat
}.

(** [warnings.extend(str(w) for w in meta_warnings if str(w).strip())] *)
Definition carried_warnings (py_repr : json -> string)
    (meta : list (string * json)) : list string :=
  match Json.get "warnings" meta with
  | JList ws =>
      List.filter (fun w => PyStr.truthy (PyStr.strip w))
                  (map (Json.str py_repr) ws)
  | _ => []
  end.

(** [build_initial_match_result] from the two documents it loads (the
    references as [load_refs_extracted] returned them and the library
    export).  The provenance fields of [meta] that repeat the
    arguments or read the clock are left out. *)
Definition build_initial_match_result (py_repr : json -> string)
    (params : MatchParams) (refs_extracted : RefsExtracted)
    (library_data : json) : result MatchResult :=
  do library <- build_library_index py_repr library_data;
  do retrieval_index <- build_tfidf_index M fit_transform
                          (records library);
  let warnings :=
    carried_warnings py_repr (RefsExtracted.meta refs_extracted)
      ++ BbtLibrary.warnings library in
  do (refs_out, stats) <-
    for_each (resolve_ref params library retrieval_index)
             (RefsExtracted.refs refs_extracted) ([], zero_stats);
  Ok {| meta_warnings := warnings;
        library_item_count := indexed_items library;
        library_total_item_count := total_items library;
        refs := refs_out;
        stats := stats |}.

End WithSklearn.
End MatchPipeline.

(* ===================================================================== *)
(** * apply_llm_decisions.py *)
(* ===================================================================== *)

Module ApplyLlmDecisions.
Import MatchDoc.

(** The match result document as [apply_llm_decisions] receives it:
    [d_refs] is [None] when [refs] is missing or not a list. *)
Record MatchResultDoc : Type := {
  d_meta : json;
  d_refs : option (list MatchRef);
  d_stats : gmap string nat
}.

Record ApplyResult : Type := {
  updated : MatchResultDoc;
  warnings : list string
}.

(** [_index_refs_by_id].  The dict holds the reference objects of the
    list themselves; here it holds their positions in the list. *)
Fixpoint index_from (i : nat) (refs : list MatchRef)
    (out : gmap string nat) : gmap string nat :=
  match refs with
  | [] => out
  | ref :: rest =>
      let ref_id := PyStr.strip (r_ref_id ref) in
      index_from (S i) rest
        (if PyStr.truthy ref_id then
           match out !! ref_id with
           | Some _ => out
           | None => <[ref_id := i]> out
           end
         else out)
  end.

Definition _index_refs_by_id (refs : list MatchRef) : gmap string nat :=
  index_from 0 refs ∅.

Definition _candidate_map (ref : MatchRef) : gmap string Candidate :=
  fold_left (fun out c =>
               let ck := PyStr.strip (c_citekey c) in
               if PyStr.truthy ck then
                 match out !! ck with
                 | Some _ => out
                 | None => <[ck := c]> out
                 end
               else out)
            (r_candidates ref) ∅.

Definition status_or_unmatched (m : Match) : string :=
  if PyStr.truthy (status m) then status m else "unmatched".

Definition tally (stats : gmap string nat) (ref : MatchRef)
  : gmap string nat :=
  let stats := bump "total" stats in
  match r_match ref with
  | None => bump "unmatched" stats
  | Some m =>
      let status := status_or_unmatched m in
      match stats !! status with
      | Some _ => bump status stats
      | None => bump "unmatched" stats
      end
  end.

Definition _recompute_stats (refs : list MatchRef) : gmap string nat :=
  fold_left tally refs zero_stats.

(** [decisions.get("decisions")], else [items] or [refs]. *)
Definition decisions_list (decisions : list (string * json)) : json :=
  match Json.get "decisions" decisions with
  | JNull => Json.or_else (Json.get "items" decisions)
                          (Json.get "refs" decisions)
  | l => l
  end.

(** [match.get("confidence") or 0.0] *)
Definition prior_confidence (m : option Match) : float :=
  match m with
  | Some m => if PrimFloat.eqb (confidence m) 0 then 0%float
              else confidence m
  | None => 0%float
  end.

Definition prior_reason (m : option Match) : option string :=
  match m with Some m => reason m | None => None end.

(** [match["reason"] = reason] when a reason is given. *)
Definition new_reason (given : option string) (m : option Match)
  : option string :=
  match given with Some r => Some r | None => prior_reason m end.

Definition set_match (ref : MatchRef) (m : Match) : MatchRef :=
  {| r_ref_id := r_ref_id ref;
     r_line_start := r_line_start ref;
     r_line_end := r_line_end ref;
     r_raw_text := r_raw_text ref;
     r_parsed := r_parsed ref;
     r_match := Some m;
     r_candidates := r_candidates ref |}.

Section WithBuiltins.
Variable py_repr : json -> string.
(** [float(v)] of an [int] or a [str]; [None] when it raises. *)
Variable py_float : json -> option float.

Abbreviation str := (Json.str py_repr).

(** [float(confidence) if confidence is not None else None], under
    [try]. *)
Definition confidence_of (confidence : json) : option float :=
  match confidence with
  | JNull => None
  | JFloat f => Some f
  | JBool b => Some (if b then 1%float else 0%float)
  | JInt _ | JStr _ => py_float confidence
  | JList _ | JObj _ => None
  end.

(** The decided citekey: [None] for a null, an empty or a ["null"]
    choice. *)
Definition chosen_citekey (d : list (string * json)) : option string :=
  match Json.get "citekey" d with
  | JNull => None
  | chosen =>
      let citekey := PyStr.strip (str chosen) in
      if String.eqb citekey "" || String.eqb citekey "null" then None
      else Some citekey
  end.

Definition decision_ref_id (d : list (string * json)) : string :=
  PyStr.strip (str (Json.or_else (Json.get "ref_id" d) (JStr ""))).

Definition decision_reason (d : list (string * json)) : option string :=
  or_none (PyStr.strip (str (Json.or_else (Json.get "reason" d)
                                          (JStr "")))).

Definition not_in_candidates (ref_id citekey : string) : exn :=
  ValueError ("Decision citekey not in candidates for ref_id="
                +:+ ref_id +:+ ": " +:+ citekey).

(** The verdict a decision writes over the match of [ref]. *)
Definition decide_match (d : list (string * json)) (ref_id : string)
    (ref : MatchRef) : result Match :=
  let reason := decision_reason d in
  let confidence_f := confidence_of (Json.get "confidence" d) in
  let m := r_match ref in
  match chosen_citekey d with
  | None =>
      Ok {| status := "unmatched";
            m_citekey := None;
            m_itemKey := None;
            method := "llm";
            confidence := default 0%float confidence_f;
            reason := new_reason reason m |}
  | Some citekey =>
      match _candidate_map ref !! citekey with
      | None => Raise (not_in_candidates ref_id citekey)
      | Some cand =>
          Ok {| status := "matched";
                m_citekey := Some citekey;
                m_itemKey := or_none (c_itemKey cand);
                method := "llm";
                confidence :=
                  default (prior_confidence m) confidence_f;
                reason := new_reason reason m |}
      end
  end.

(** The body of the loop over the decisions.  [refs_by_id] was built
    before the loop; the references it points to are updated in
    place. *)
Definition apply_decision (refs_by_id : gmap string nat)
    (acc : list MatchRef * list string) (d : json)
  : result (list MatchRef * list string) :=
  let '(refs, warnings) := acc in
  match d with
  | JObj d =>
      let ref_id := decision_ref_id d in
      if negb (PyStr.truthy ref_id) then
        Ok (refs, warnings ++ ["Skipped decision with empty ref_id"])
      else
        match i ← refs_by_id !! ref_id; ref ← refs !! i; Some (i, ref) with
        | None =>
            Ok (refs,
                warnings
                  ++ ["Decision ref_id not found in match_result.json: "
                        +:+ ref_id])
        | Some (i, ref) =>
            do m <- decide_match d ref_id ref;
            Ok (<[i := set_match ref m]> refs, warnings)
        end
  | _ => Ok acc
  end.

Definition with_meta_warnings (meta : json) (warnings : list string)
  : json :=
  match meta with
  | JObj m => JObj (RefsExtracted.with_warnings m warnings)
  | _ => meta
  end.

Definition apply_llm_decisions (match_result : MatchResultDoc)
    (decisions : list (string * json)) : result ApplyResult :=
  match d_refs match_result with
  | None =>
      Raise (ValueError "match_result.json missing required field: refs[]")
  | Some refs =>
      match decisions_list decisions with
      | JList decisions_list =>
          let refs_by_id := _index_refs_by_id refs in
          do (refs, warnings) <-
            for_each (apply_decision refs_by_id) decisions_list (refs, []);
          Ok {| updated :=
                  {| d_meta :=
                       with_meta_warnings (d_meta match_result) warnings;
                     d_refs := Some refs;
                     d_stats := _recompute_stats refs |};
                warnings := warnings |}
      | _ =>
          Raise (ValueError
                   "llm_decisions.json missing required field: decisions[]")
      end
  end.

End WithBuiltins.
End ApplyLlmDecisions.

(* ===================================================================== *)
(** * Properties: identifier normalizer *)
(* ===================================================================== *)

Module NormalizeProps.
Import Normalize.

Definition smith_2019 : string :=
  "Smith, J. (2019). Title. Retrieved 2023 from http://x".

(** C5. [extract_year] returns ["2019"] on the citation of Smith: both
    2019 and 2023 are candidates, 2023 follows "Retrieved" and is set
    aside as an access date, and 2019 stands between parentheses. *)
Theorem extract_year_smith_2019 :
  extract_year (Some smith_2019) = Some "2019"
  /\ year_candidates (PyStr.chars smith_2019)
     = [("2019", 11, 15); ("2023", 35, 39)]
  /\ is_access_year (PyStr.chars smith_2019) 35 = true
  /\ is_access_year (PyStr.chars smith_2019) 11 = false
  /\ in_parentheses (PyStr.chars smith_2019) 11 15 = true.
Proof. repeat split; vm_compute; reflexivity. Qed.

End NormalizeProps.

(* ===================================================================== *)
(** * Properties: ordered dictionaries and loops *)
(* ===================================================================== *)

Module PyDictProps.
Section Dict.
Context {V : Type}.
Implicit Types (d : PyDict.t V) (k : string) (v : V).

Lemma get_set_same k v d : PyDict.get k (PyDict.set k v d) = Some v.
Proof.
  induction d as [|[k' v'] d IH]; simpl.
  - now rewrite String.eqb_refl.
  - destruct (String.eqb k k') eqn:E; simpl; rewrite E; auto.
Qed.

Lemma get_set_other k k' v d :
  k <> k' -> PyDict.get k' (PyDict.set k v d) = PyDict.get k' d.
Proof.
  intros Hne. induction d as [|[k0 v0] d IH]; simpl.
  - destruct (String.eqb_spec k' k); congruence.
  - destruct (String.eqb_spec k k0) as [->|Hk]; simpl.
    + destruct (String.eqb_spec k' k0); congruence.
    + now rewrite IH.
Qed.

Lemma get_set k k' v d :
  PyDict.get k' (PyDict.set k v d)
  = if String.eqb k k' then Some v else PyDict.get k' d.
Proof.
  destruct (String.eqb_spec k k') as [->|Hne].
  - apply get_set_same.
  - now apply get_set_other.
Qed.

(** A value stored in the dictionary was put there by some [set] or
    was there before. *)
Lemma get_set_inv k k' v v' d :
  PyDict.get k' (PyDict.set k v d) = Some v' ->
  (k = k' /\ v' = v) \/ (k <> k' /\ PyDict.get k' d = Some v').
Proof.
  rewrite get_set. destruct (String.eqb_spec k k'); intros H.
  - left. split; congruence.
  - right. now split.
Qed.
End Dict.

Lemma get_append_to {X : Type} k k' (x : X) (d : PyDict.t (list X)) :
  PyDict.get k' (PyDict.append_to k x d)
  = if String.eqb k k'
    then Some (default [] (PyDict.get k d) ++ [x])
    else PyDict.get k' d.
Proof.
  unfold PyDict.append_to.
  destruct (PyDict.get k d) as [l|] eqn:E; rewrite get_set; simpl;
    reflexivity.
Qed.
End PyDictProps.

Module ResultProps.

Definition is_ok {A : Type} (r : result A) : Prop :=
  match r with Ok _ => True | Raise _ => False end.

Lemma bind_ok {A B : Type} (r : result A) (f : A -> result B) (b : B) :
  bind_result r f = Ok b -> exists a, r = Ok a /\ f a = Ok b.
Proof. destruct r as [a|e]; simpl; [eauto | discriminate]. Qed.



(** An invariant of the loop state holds at the end of a loop that did
    not raise. *)
Lemma for_each_invariant {A S : Type} (P : S -> Prop)
    (body : S -> A -> result S) (l : list A) :
  (forall s x s', P s -> body s x = Ok s' -> P s') ->
  forall s s', P s -> for_each body l s = Ok s' -> P s'.
Proof.
  intros Hstep. induction l as [|x l IH]; simpl; intros s s' Hs H.
  - now inversion H; subst.
  - apply bind_ok in H as (s1 & H1 & H2). eauto.
Qed.

(** A loop whose body never raises does not raise. *)
Lemma for_each_total {A S : Type} (body : S -> A -> result S)
    (l : list A) :
  Forall (fun x => forall s, is_ok (body s x)) l ->
  forall s, is_ok (for_each body l s).
Proof.
  induction 1 as [|x l Hx _ IH]; intros s; simpl; [exact I|].
  specialize (Hx s). destruct (body s x); simpl; [apply IH | contradiction].
Qed.

End ResultProps.

(* ===================================================================== *)
(** * Properties: library index *)
(* ===================================================================== *)

Module LibraryProps.
Import BbtLibrary ResultProps PyDictProps.

Section WithRepr.
Variable py_repr : json -> string.

(** The summaries of the items that carry the citekey [ck], in the
    order of the export. *)
Definition summaries_of (ck : string) (items : list item)
  : list LibraryRecord :=
  flat_map (fun it =>
              match summarize_item py_repr it with
              | Ok (Some s) => if String.eqb (citekey s) ck then [s] else []
              | _ => []
              end)
           items.

Lemma summarize_item_citekey it s :
  summarize_item py_repr it = Ok (Some s) ->
  PyStr.truthy (citekey s) = true.
Proof.
  unfold summarize_item.
  destruct (Json.get "citationKey" it) as [| | | |ck| |]; try discriminate.
  destruct (PyStr.truthy (PyStr.strip ck)) eqn:Hck; simpl; [|discriminate].
  intros H. apply bind_ok in H as (a & _ & H). inversion H; subst; simpl.
  destruct ck; [discriminate Hck | reflexivity].
Qed.

Lemma index_item_records tb it tb' ck :
  index_item py_repr tb it = Ok tb' ->
  PyDict.get ck (t_records tb')
  = match last (summaries_of ck [it]) with
    | Some s => Some s
    | None => PyDict.get ck (t_records tb)
    end.
Proof.
  unfold index_item, summaries_of. simpl. intros H.
  apply bind_ok in H as (o & Ho & H). rewrite Ho.
  destruct o as [s|]; inversion H; subst; clear H; simpl; [|reflexivity].
  rewrite get_set, app_nil_r.
  destruct (String.eqb (citekey s) ck); reflexivity.
Qed.

Lemma index_loop_records items : forall tb tb' ck,
  for_each (index_item py_repr) items tb = Ok tb' ->
  PyDict.get ck (t_records tb')
  = match last (summaries_of ck items) with
    | Some s => Some s
    | None => PyDict.get ck (t_records tb)
    end.
Proof.
  induction items as [|it items IH]; intros tb tb' ck H; simpl in H.
  - now inversion H.
  - apply bind_ok in H as (tb1 & H1 & H2).
    rewrite (IH _ _ ck H2), (index_item_records _ _ _ ck H1).
    replace (summaries_of ck (it :: items))
      with (summaries_of ck [it] ++ summaries_of ck items)
      by (unfold summaries_of; simpl; now rewrite app_nil_r).
    rewrite last_app. destruct (last (summaries_of ck items)); reflexivity.
Qed.

(** Every record of the index is filed under its own, non-empty
    citekey. *)
Definition records_keyed (rs : PyDict.t LibraryRecord) : Prop :=
  forall k r, PyDict.get k rs = Some r ->
              citekey r = k /\ PyStr.truthy (citekey r) = true.

Lemma index_item_keyed tb it tb' :
  records_keyed (t_records tb) ->
  index_item py_repr tb it = Ok tb' ->
  records_keyed (t_records tb').
Proof.
  unfold index_item. intros Hk H.
  apply bind_ok in H as (o & Ho & H).
  destruct o as [s|]; inversion H; subst; clear H; simpl; [|exact Hk].
  intros k r Hget. apply get_set_inv in Hget as [[<- ->]|[_ Hget]].
  - split; [reflexivity | eapply summarize_item_citekey; eauto].
  - now apply Hk.
Qed.

Lemma build_library_index_keyed data idx :
  build_library_index py_repr data = Ok idx ->
  records_keyed (records idx).
Proof.
  unfold build_library_index. intros H.
  apply bind_ok in H as (tb & Htb & H). inversion H; subst; simpl.
  eapply (for_each_invariant (fun tb => records_keyed (t_records tb)));
    [| |exact Htb].
  - intros s x s'. apply index_item_keyed.
  - intros k r Hget. discriminate Hget.
Qed.

(** C1, as the code has it.  When no item of the export raises in
    [summarize_item], [build_library_index] returns an index, and
    [records[ck]] is the summary of the last item carrying [ck]: an
    item with a citekey already seen replaces the earlier record. *)
Theorem build_library_index_last_wins (data : json) :
  Forall (fun it => is_ok (summarize_item py_repr it))
         (iter_library_items data) ->
  exists idx,
    build_library_index py_repr data = Ok idx
    /\ forall ck, PyDict.get ck (records idx)
                  = last (summaries_of ck (iter_library_items data)).
Proof.
  intros Hok. unfold build_library_index.
  assert (Htot : is_ok (for_each (index_item py_repr)
                          (iter_library_items data) no_tables)).
  { apply for_each_total. eapply Forall_impl; [exact Hok|].
    intros it Hit tb. unfold index_item. simpl in Hit.
    destruct (summarize_item py_repr it) as [[s|]|]; simpl; auto. }
  destruct (for_each (index_item py_repr) (iter_library_items data)
              no_tables) as [tb|e] eqn:Htb; [|contradiction].
  simpl. eexists. split; [reflexivity|]. intros ck. simpl.
  rewrite (index_loop_records _ _ _ ck Htb). simpl.
  destruct (last (summaries_of ck (iter_library_items data))); reflexivity.
Qed.

End WithRepr.

(** An export with the citekey ["a"] twice. *)
Definition first_a : item := [("citationKey", JStr "a"); ("title", JStr "First")].
Definition second_a : item := [("citationKey", JStr "a"); ("title", JStr "Second")].
Definition twice_a : json := JList [JObj first_a; JObj second_a].
Definition no_repr : json -> string := fun _ => "".

Lemma build_library_index_last_wins_witness :
  exists idx,
    build_library_index no_repr twice_a = Ok idx
    /\ forall ck, PyDict.get ck (records idx)
                  = last (summaries_of no_repr ck (iter_library_items twice_a)).
Proof.
  apply (build_library_index_last_wins no_repr twice_a).
  repeat constructor.
Defined.

(** C1, as the spec has it, fails on [twice_a]: the record kept under
    ["a"] is not the summary of the first item. *)
Lemma first_occurrence_does_not_win :
  exists idx first second,
    build_library_index no_repr twice_a = Ok idx
    /\ summarize_item no_repr first_a = Ok (Some first)
    /\ summarize_item no_repr second_a = Ok (Some second)
    /\ citekey first = "a" /\ citekey second = "a"
    /\ PyDict.get "a" (records idx) = Some second
    /\ PyDict.get "a" (records idx) <> Some first.
Proof.
  vm_compute. do 3 eexists. repeat split; try reflexivity. discriminate.
Qed.

End LibraryProps.

(* ===================================================================== *)
(** * The order of binary64 floats *)
(* ===================================================================== *)

Module FloatOrder.

(** A rank of the non-NaN values that orders them as [SFcompare] does:
    the class by sign, then exponent and mantissa, mirrored for the
    negative values. *)
Definition rank (f : spec_float) : Z * Z * Z :=
  match f with
  | S754_infinity true => (-2, 0, 0)
  | S754_finite true m e => (-1, - e, - Zpos m)
  | S754_zero _ | S754_nan => (0, 0, 0)
  | S754_finite false m e => (1, e, Zpos m)
  | S754_infinity false => (2, 0, 0)
  end%Z.

Definition rank_lt (a b : Z * Z * Z) : Prop :=
  let '(a1, a2, a3) := a in
  let '(b1, b2, b3) := b in
  (a1 < b1 \/ (a1 = b1 /\ (a2 < b2 \/ (a2 = b2 /\ a3 < b3))))%Z.

Definition not_nan (f : spec_float) : Prop := f <> S754_nan.

Lemma SFltb_rank f1 f2 :
  not_nan f1 -> not_nan f2 ->
  (SFltb f1 f2 = true <-> rank_lt (rank f1) (rank f2)).
Proof.
  unfold not_nan, SFltb, SFcompare.
  destruct f1 as [s1|s1| |s1 m1 e1], f2 as [s2|s2| |s2 m2 e2];
    try congruence; intros _ _;
    try destruct s1; try destruct s2; simpl;
    try (split; [discriminate | lia]);
    try (split; [lia | reflexivity]).
  - rewrite Pos.compare_cont_spec. simpl.
    destruct (Z.compare_spec e1 e2), (Pos.compare_spec m1 m2); simpl;
      split; try discriminate; try reflexivity; lia.
  - rewrite Pos.compare_cont_spec. simpl.
    destruct (Z.compare_spec e1 e2), (Pos.compare_spec m1 m2); simpl;
      split; try discriminate; try reflexivity; lia.
Qed.

Lemma SFeqb_rank f1 f2 :
  not_nan f1 -> not_nan f2 ->
  (SFeqb f1 f2 = true <-> rank f1 = rank f2).
Proof.
  unfold not_nan, SFeqb, SFcompare.
  destruct f1 as [s1|s1| |s1 m1 e1], f2 as [s2|s2| |s2 m2 e2];
    try congruence; intros _ _;
    try destruct s1; try destruct s2; simpl;
    try (split; [discriminate | intros [=]; lia]);
    try (split; [discriminate | discriminate]);
    try (split; reflexivity).
  - rewrite Pos.compare_cont_spec. simpl.
    destruct (Z.compare_spec e1 e2), (Pos.compare_spec m1 m2); simpl;
      split; try discriminate; try reflexivity; try (intros [=]; lia).
    intros _. subst. reflexivity.
  - rewrite Pos.compare_cont_spec. simpl.
    destruct (Z.compare_spec e1 e2), (Pos.compare_spec m1 m2); simpl;
      split; try discriminate; try reflexivity; try (intros [=]; lia).
    intros _. subst. reflexivity.
Qed.

Lemma SFcompare_nan_l f : SFcompare S754_nan f = None.
Proof. reflexivity. Qed.

Lemma SFcompare_nan_r f : SFcompare f S754_nan = None.
Proof. destruct f; reflexivity. Qed.

Lemma SFltb_not_nan f1 f2 :
  SFltb f1 f2 = true -> not_nan f1 /\ not_nan f2.
Proof.
  unfold SFltb, not_nan. intros H. split; intros ->.
  - discriminate H.
  - rewrite SFcompare_nan_r in H. discriminate H.
Qed.

Lemma SFeqb_not_nan f1 f2 :
  SFeqb f1 f2 = true -> not_nan f1 /\ not_nan f2.
Proof.
  unfold SFeqb, not_nan. intros H. split; intros ->.
  - discriminate H.
  - rewrite SFcompare_nan_r in H. discriminate H.
Qed.

Lemma rank_lt_asym a b : rank_lt a b -> ~ rank_lt b a.
Proof. destruct a as [[a1 a2] a3], b as [[b1 b2] b3]. simpl. lia. Qed.

Lemma rank_lt_irrefl a : ~ rank_lt a a.
Proof. destruct a as [[a1 a2] a3]. simpl. lia. Qed.

Lemma rank_le_trans a b c :
  ~ rank_lt b a -> ~ rank_lt c b -> ~ rank_lt c a.
Proof.
  destruct a as [[a1 a2] a3], b as [[b1 b2] b3], c as [[c1 c2] c3].
  simpl. lia.
Qed.

Lemma SFltb_false_rank f1 f2 :
  not_nan f1 -> not_nan f2 ->
  (SFltb f1 f2 = false <-> ~ rank_lt (rank f1) (rank f2)).
Proof.
  intros H1 H2. rewrite <- (SFltb_rank f1 f2 H1 H2).
  destruct (SFltb f1 f2); split; congruence.
Qed.

(** ** The order of binary64 values *)

Definition is_number (x : float) : Prop := (x =? x)%float = true.

Lemma is_number_not_nan x : is_number x -> not_nan (Prim2SF x).
Proof.
  unfold is_number. rewrite FloatAxioms.eqb_spec. apply SFeqb_not_nan.
Qed.

Lemma ltb_asym x y : (x <? y)%float = true -> (y <? x)%float = false.
Proof.
  rewrite !FloatAxioms.ltb_spec. intros H.
  destruct (SFltb_not_nan _ _ H) as [Hx Hy].
  apply SFltb_false_rank; [assumption..|].
  apply rank_lt_asym. now apply SFltb_rank.
Qed.

Lemma eqb_not_ltb x y :
  (x =? y)%float = true ->
  (x <? y)%float = false /\ (y <? x)%float = false.
Proof.
  rewrite FloatAxioms.eqb_spec, !FloatAxioms.ltb_spec. intros H.
  destruct (SFeqb_not_nan _ _ H) as [Hx Hy].
  apply SFeqb_rank in H; [|assumption..].
  split; apply SFltb_false_rank; try assumption;
    rewrite H; apply rank_lt_irrefl.
Qed.

(** [x <= y <= z] gives [x <= z], reading [a <= b] as "not [b < a]", when
    the middle value is a number. *)
Lemma not_ltb_trans x y z :
  is_number y ->
  (y <? x)%float = false -> (z <? y)%float = false ->
  (z <? x)%float = false.
Proof.
  intros Hy. apply is_number_not_nan in Hy. rewrite !FloatAxioms.ltb_spec.
  intros Hyx Hzy.
  destruct (SFltb (Prim2SF z) (Prim2SF x)) eqn:Hzx; [|reflexivity].
  destruct (SFltb_not_nan _ _ Hzx) as [Hz Hx].
  apply SFltb_false_rank in Hyx; [|assumption..].
  apply SFltb_false_rank in Hzy; [|assumption..].
  apply SFltb_rank in Hzx; [|assumption..].
  exfalso. exact (rank_le_trans _ _ _ Hyx Hzy Hzx).
Qed.

End FloatOrder.

(* ===================================================================== *)
(** * Properties: sorting *)
(* ===================================================================== *)

Module PySortProps.
Section Sort.
Context {A : Type} (lt : A -> A -> bool).

Lemma insert_perm (x : A) (l : list A) :
  Permutation (PySort.insert lt x l) (x :: l).
Proof.
  induction l as [|y l IH]; simpl; [reflexivity|].
  destruct (lt x y); [reflexivity|].
  rewrite IH. apply perm_swap.
Qed.

Lemma sort_from_perm (l acc : list A) :
  Permutation (fold_left (fun acc x => PySort.insert lt x acc) l acc)
              (acc ++ l).
Proof.
  revert acc. induction l as [|x l IH]; intros acc; simpl.
  - now rewrite app_nil_r.
  - rewrite IH, insert_perm. apply Permutation_middle.
Qed.

(** Sorting rearranges: nothing is lost, added or repeated. *)
Lemma sort_reverse_perm (l : list A) :
  Permutation (PySort.sort_reverse lt l) l.
Proof.
  unfold PySort.sort_reverse, PySort.sort.
  rewrite <- Permutation_rev, sort_from_perm. simpl.
  symmetry. apply Permutation_rev.
Qed.

Lemma sort_reverse_In (x : A) (l : list A) :
  In x (PySort.sort_reverse lt l) <-> In x l.
Proof.
  split; apply Permutation_in;
    [apply sort_reverse_perm | symmetry; apply sort_reverse_perm].
Qed.

Lemma sort_reverse_nil : PySort.sort_reverse lt [] = [].
Proof. reflexivity. Qed.
End Sort.
End PySortProps.

(* ===================================================================== *)
(** * Properties: resolution pipeline *)
(* ===================================================================== *)

Module PipelineProps.
Import Normalize BbtLibrary RefsExtracted MatchDoc RetrievalTfidf.
Import MatchPipeline ResultProps.

(** The deterministic tier in the words of the specification: the
    identifier types in priority order, each with the entry of its
    reverse index under the reference's normalized value, and the first
    type that has an entry. *)
Definition identifier_hits (ref : Reference) (library : LibraryIndex)
  : list (string * option (list string)) :=
  [("doi", hit (normalize_doi (p_doi (parsed ref))) (by_doi library));
   ("arxiv", hit (arxiv_norm_of (p_arxiv (parsed ref))) (by_arxiv library));
   ("url", hit (normalize_url (p_url (parsed ref))) (by_url library))].

Fixpoint first_some (hits : list (string * option (list string)))
  : option (string * list string) :=
  match hits with
  | [] => None
  | (ty, Some citekeys) :: _ => Some (ty, citekeys)
  | (_, None) :: rest => first_some rest
  end.

Definition first_hit (ref : Reference) (library : LibraryIndex)
  : option (string * list string) :=
  first_some (identifier_hits ref library).

Lemma deterministic_match_first_hit ref library :
  _deterministic_match ref library
  = match first_hit ref library with
    | Some (ty, citekeys) => (Some ty, citekeys, det_confidence citekeys)
    | None => (None, [], 0%float)
    end.
Proof.
  unfold _deterministic_match, first_hit, identifier_hits. simpl.
  destruct (hit (normalize_doi _) _); [reflexivity|].
  destruct (hit (arxiv_norm_of _) _); [reflexivity|].
  destruct (hit (normalize_url _) _); reflexivity.
Qed.

Lemma first_hit_type ref library ty citekeys :
  first_hit ref library = Some (ty, citekeys) ->
  ty = "doi" \/ ty = "arxiv" \/ ty = "url".
Proof.
  unfold first_hit, identifier_hits. simpl.
  destruct (hit (normalize_doi _) _); [intros [= <- _]; auto|].
  destruct (hit (arxiv_norm_of _) _); [intros [= <- _]; auto|].
  destruct (hit (normalize_url _) _); [intros [= <- _]; auto|discriminate].
Qed.


(** ** The order of the emitted candidates *)

(** [score_le a b]: the score of [a] is not above that of [b]. *)
Definition score_le (a b : Candidate) : Prop :=
  PrimFloat.ltb (c_score b) (c_score a) = false.

(** The score is a number, not a NaN. *)
Definition scored (c : Candidate) : Prop :=
  FloatOrder.is_number (c_score c).

Lemma cand_lt_true a b : cand_lt a b = true -> score_le a b.
Proof.
  unfold cand_lt, score_le.
  destruct (PrimFloat.eqb (c_score a) (c_score b)) eqn:E.
  - intros _. now apply FloatOrder.eqb_not_ltb in E.
  - apply FloatOrder.ltb_asym.
Qed.

Lemma cand_lt_false a b : cand_lt a b = false -> score_le b a.
Proof.
  unfold cand_lt, score_le.
  destruct (PrimFloat.eqb (c_score a) (c_score b)) eqn:E.
  - intros _. now apply FloatOrder.eqb_not_ltb in E.
  - auto.
Qed.

Lemma score_le_trans a b c :
  scored b -> score_le a b -> score_le b c -> score_le a c.
Proof. unfold score_le, scored. intros Hb Hab Hbc. eauto using FloatOrder.not_ltb_trans. Qed.

Lemma insert_sorted x l :
  Forall scored l ->
  StronglySorted score_le l ->
  StronglySorted score_le (PySort.insert cand_lt x l).
Proof.
  intros Hnum Hsorted. induction Hsorted as [|y l Hl IH Hy]; simpl.
  - repeat constructor.
  - inversion Hnum as [|? ? Hy_num Hl_num]; subst.
    destruct (cand_lt x y) eqn:E.
    + constructor; [now constructor|].
      apply cand_lt_true in E. constructor; [exact E|].
      eapply Forall_impl; [exact Hy|].
      intros z Hz. eapply score_le_trans; eauto.
    + constructor; [now apply IH|].
      apply cand_lt_false in E.
      eapply Permutation_Forall;
        [symmetry; apply PySortProps.insert_perm|].
      now constructor.
Qed.

Lemma sort_from_sorted l : forall acc,
  Forall scored l -> Forall scored acc ->
  StronglySorted score_le acc ->
  StronglySorted score_le
    (fold_left (fun acc x => PySort.insert cand_lt x acc) l acc).
Proof.
  induction l as [|x l IH]; intros acc Hl Hacc Hsorted; simpl;
    [exact Hsorted|].
  inversion Hl as [|? ? Hx Hl']; subst.
  apply IH; [exact Hl' | | now apply insert_sorted].
  eapply Permutation_Forall; [symmetry; apply PySortProps.insert_perm|].
  now constructor.
Qed.

Lemma sorted_app_inv (l1 l2 : list Candidate) :
  StronglySorted score_le (l1 ++ l2) ->
  StronglySorted score_le l1
  /\ forall a b, In a l1 -> In b l2 -> score_le a b.
Proof.
  induction l1 as [|x l1 IH]; simpl; intros H.
  - split; [constructor | contradiction].
  - inversion H as [|? ? Hrest Hx]; subst.
    destruct (IH Hrest) as [Hs Hcross].
    rewrite List.Forall_forall in Hx. split.
    + constructor; [exact Hs|].
      apply List.Forall_forall. intros z Hz.
      apply Hx. apply in_or_app. now left.
    + intros a b [<-|Ha] Hb; [|now apply Hcross].
      apply Hx. apply in_or_app. now right.
Qed.

(** In a list sorted by [sort_reverse cand_lt] whose scores are numbers,
    no candidate scores above the first, and none after the second scores
    above the second. *)
Lemma sort_reverse_best l top others :
  Forall scored l ->
  PySort.sort_reverse cand_lt l = top :: others ->
  (forall c, In c others -> PrimFloat.ltb (c_score top) (c_score c) = false)
  /\ (forall second rest, others = second :: rest ->
      forall c, In c rest ->
                PrimFloat.ltb (c_score second) (c_score c) = false).
Proof.
  intros Hnum Hsort. unfold PySort.sort_reverse in Hsort.
  assert (Hsorted : StronglySorted score_le (rev (top :: others))).
  { rewrite <- Hsort, rev_involutive. unfold PySort.sort.
    apply sort_from_sorted; [|constructor|constructor].
    eapply Permutation_Forall; [apply Permutation_rev|exact Hnum]. }
  simpl in Hsorted. apply sorted_app_inv in Hsorted as [Hinit Hlast].
  split.
  - intros c Hc. apply (Hlast c top); [|now left].
    now apply in_rev in Hc.
  - intros second rest -> c Hc. simpl in Hinit.
    apply sorted_app_inv in Hinit as [_ Hsecond].
    apply (Hsecond c second); [|now left].
    now apply in_rev in Hc.
Qed.

Section WithSklearn.
Variable M : Type.
Variable fit_transform : list string -> result M.
Variable kernel_scores : M -> string -> result (list float).

Abbreviation resolve := (MatchPipeline.resolve M kernel_scores).








Lemma boosted_candidates_In params library ref retrieved c :
  In c (boosted_candidates params library ref retrieved) ->
  exists ck record score,
    PyDict.get ck (records library) = Some record
    /\ c = _candidate_from_record record score.
Proof.
  unfold boosted_candidates. rewrite in_flat_map.
  intros ([ck base] & _ & Hc).
  destruct (PyDict.get ck (records library)) as [record|] eqn:E;
    [|contradiction].
  destruct Hc as [<-|[]]. eauto.
Qed.

(** On the lexical path, the emitted candidates are the sorted boosted
    candidates, and the verdict is their classification. *)
Lemma resolve_lexical params library index ref m candidates :
  first_hit ref library = None ->
  resolve params library index ref = Ok (m, candidates) ->
  exists retrieved,
    candidates = PySort.sort_reverse cand_lt
                   (boosted_candidates params library ref retrieved)
    /\ m = match candidates with
           | top :: others => classify params top others
           | [] => unmatched
           end.
Proof.
  intros Hhit. unfold MatchPipeline.resolve.
  rewrite deterministic_match_first_hit, Hhit.
  intros H. apply bind_ok in H as (retrieved & _ & H).
  exists retrieved.
  destruct (PySort.sort_reverse cand_lt _) as [|top others];
    inversion H; subst; auto.
Qed.

(** C2. On the lexical path with a non-empty candidate list, let
[top1] be the score of the first emitted candidate and [top2] that
of the second (0 when there is none).  The reference is [matched]
exactly when [top1] reaches the auto-match threshold and
[top1 - top2] reaches the auto-match gap, and then the method is
[tfidf], the confidence [top1] and the citekey that of the first
candidate; otherwise it is [needs_llm] when [top1] reaches the
needs-llm threshold and [needs_review] when it does not.  When the
scores are numbers, [top1] is the best score (no candidate scores
above the first) and [top2] the second best (no candidate after the
second scores above it).  With the default parameters, scores 0.95
and 0.91 give [needs_llm]. *)
Theorem lexical_tier_classification (py_repr : json -> string)
    (data : json) (params : MatchParams) (library : LibraryIndex)
    (index : TfidfRetrievalIndex M) (ref : Reference) (m : Match)
    (top : Candidate) (others : list Candidate) :
  build_library_index py_repr data = Ok library ->
  first_hit ref library = None ->
  resolve params library index ref = Ok (m, top :: others) ->
  let top1 := c_score top in
  let top2 := match others with
              | second :: _ => c_score second
              | [] => 0%float
              end in
  let auto :=
    float_ge top1 (tfidf_auto_match_threshold params)
    && float_ge (top1 - top2)%float (tfidf_auto_match_gap params) in
  (status m = "matched" <-> auto = true)
  /\ (auto = true ->
      method m = "tfidf" /\ confidence m = top1
      /\ m_citekey m = Some (c_citekey top))
  /\ (auto = false ->
      status m = if float_ge top1 (tfidf_needs_llm_threshold params)
                 then "needs_llm" else "needs_review")
  /\ (Forall scored (top :: others) ->
      (forall c, In c others -> PrimFloat.ltb top1 (c_score c) = false)
      /\ (forall second rest, others = second :: rest ->
          forall c, In c rest ->
                    PrimFloat.ltb (c_score second) (c_score c) = false))
  /\ (params = default_params ->
      top1 = 0.95%float -> top2 = 0.91%float -> status m = "needs_llm").
Proof.
  intros Hlib Hhit Hres top1 top2 auto.
  destruct (resolve_lexical _ _ _ _ _ _ Hhit Hres) as (retrieved & Hc & ->).
  assert (Hkey : PyStr.truthy (c_citekey top) = true).
  { assert (Hin : In top (top :: others)) by now left.
    rewrite Hc in Hin. apply PySortProps.sort_reverse_In in Hin.
    apply boosted_candidates_In in Hin as (ck & record & score & Hget & ->).
    simpl. eapply LibraryProps.build_library_index_keyed; eauto. }
  unfold classify. fold top1 top2. fold auto.
  split; [|split; [|split; [|split]]].
  - destruct auto; simpl; [tauto|].
    destruct (float_ge top1 _); simpl; split; discriminate.
  - intros ->. simpl. unfold or_none. rewrite Hkey. auto.
  - intros ->. destruct (float_ge top1 _); reflexivity.
  - intros Hnum. symmetry in Hc.
    apply (sort_reverse_best _ _ _) in Hc; [exact Hc|].
    eapply Permutation_Forall; [|exact Hnum].
    rewrite <- Hc. apply PySortProps.sort_reverse_perm.
  - intros -> H1 H2. subst auto. rewrite H1, H2. reflexivity.
Qed.

(** ** From the loop body to the match result *)

(** [out] is what the pipeline emits for [ref]: the reference with the
    verdict and the candidates [resolve] gives. *)
Definition emitted (params : MatchParams) (library : LibraryIndex)
    (index : TfidfRetrievalIndex M) (ref : Reference) (out : MatchRef)
  : Prop :=
  exists m candidates,
    resolve params library index ref = Ok (m, candidates)
    /\ out = emit ref m candidates.

Lemma resolve_all params library index refs_in : forall refs_out stats acc,
  for_each (resolve_ref M kernel_scores params library index) refs_in acc
  = Ok (refs_out, stats) ->
  exists news,
    refs_out = fst acc ++ news
    /\ Forall2 (emitted params library index) refs_in news.
Proof.
  induction refs_in as [|ref refs_in IH]; intros refs_out stats acc; simpl.
  - intros [= ->]. exists []. rewrite app_nil_r. split; constructor.
  - intros H. apply bind_ok in H as ([refs1 stats1] & Hstep & Hrest).
    destruct acc as [refs0 stats0]. unfold resolve_ref in Hstep.
    apply bind_ok in Hstep as ([m candidates] & Hres & [= <- <-]).
    apply IH in Hrest as (news & -> & Hall). simpl.
    exists (emit ref m candidates :: news).
    rewrite <- app_assoc. split; [reflexivity|].
    constructor; [|exact Hall]. exists m, candidates. auto.
Qed.

(** The references of the match result are, in the order of the input,
    what the loop body gives for each input reference against the library
    index and the retrieval index built from the export. *)
Lemma build_initial_match_result_refs py_repr params refs_extracted
    library_data res :
  build_initial_match_result M fit_transform kernel_scores py_repr params
    refs_extracted library_data = Ok res ->
  exists library index,
    build_library_index py_repr library_data = Ok library
    /\ build_tfidf_index M fit_transform (records library) = Ok index
    /\ Forall2 (emitted params library index)
               (RefsExtracted.refs refs_extracted)
               (MatchPipeline.refs res).
Proof.
  unfold build_initial_match_result. intros H.
  apply bind_ok in H as (library & Hlib & H).
  apply bind_ok in H as (index & Hindex & H).
  apply bind_ok in H as ([refs_out stats] & Hloop & [= <-]).
  exists library, index. split; [exact Hlib|]. split; [exact Hindex|].
  apply resolve_all in Hloop as (news & -> & Hall). exact Hall.
Qed.

End WithSklearn.
End PipelineProps.

(* ===================================================================== *)
(** * The pipeline on a small library *)
(* ===================================================================== *)

Module PipelineExamples.
Import Normalize BbtLibrary RefsExtracted MatchDoc RetrievalTfidf.
Import MatchPipeline ResultProps PipelineProps.

Definition no_repr : json -> string := fun _ => "".

(** Three entries; the last two share a DOI. *)
Definition export : json :=
  JList
    [JObj [("citationKey", JStr "smith2020");
           ("title", JStr "Deep learning for citations");
           ("DOI", JStr "10.1000/abc"); ("date", JStr "2020-05-01")];
     JObj [("citationKey", JStr "jones2019");
           ("title", JStr "Deep learning of citations");
           ("DOI", JStr "10.1000/dup")];
     JObj [("citationKey", JStr "lee2018");
           ("title", JStr "Shallow learning");
           ("DOI", JStr "https://doi.org/10.1000/DUP")]].

Definition empty_index : LibraryIndex :=
  {| records := []; by_doi := []; by_arxiv := []; by_url := [];
     total_items := 0; indexed_items := 0; BbtLibrary.warnings := [] |}.

Definition library : LibraryIndex :=
  Eval vm_compute in
    match build_library_index no_repr export with
    | Ok l => l
    | Raise _ => empty_index
    end.

(** A stand-in for scikit-learn: the fitted state is trivial and the
    scores of the three titles are fixed. *)
Definition fit (_ : list string) : result unit := Ok tt.
Definition scores (_ : unit) (_ : string) : result (list float) :=
  Ok [0.95%float; 0.91%float; 0.10%float].

Definition index : TfidfRetrievalIndex unit :=
  Eval vm_compute in
    match build_tfidf_index unit fit (records library) with
    | Ok ix => ix
    | Raise _ => {| citekeys := []; titles := []; matrix := None |}
    end.

Definition no_parsed : Parsed :=
  {| p_doi := None; p_url := None; p_arxiv := None; p_year := None;
     p_title_guess := None; p_author_guess := None |}.

Definition with_doi (doi : string) : Parsed :=
  {| p_doi := Some doi; p_url := None; p_arxiv := None; p_year := None;
     p_title_guess := None; p_author_guess := None |}.

Definition ref_of (text : string) (p : Parsed) : Reference :=
  {| ref_id := "r1"; line_start := 3; line_end := 4; raw_text := text;
     parsed := p |}.

Definition ref_abc : Reference :=
  ref_of "Smith. Deep learning. doi:10.1000/ABC." (with_doi "doi:10.1000/ABC.").
Definition ref_plain : Reference :=
  ref_of "Deep learning citations" no_parsed.



Definition two_refs : RefsExtracted :=
  {| RefsExtracted.meta := [];
     RefsExtracted.refs := [ref_abc; ref_plain];
     RefsExtracted.warnings := [] |}.


(** The candidates of [ref_plain]: the three records with the scores of
    [scores]; the reference has no year and no author to boost them. *)
Definition summary (ck title_ : string) (year_ : option string)
    (doi_ : string) : LibraryRecord :=
  {| citekey := ck; itemKey := ""; title := title_; year := year_;
     authors := []; doi := Some doi_; url := None; zotero_tags := [];
     pdf_attachments := [] |}.

Definition first_cand : Candidate :=
  _candidate_from_record
    (summary "smith2020" "Deep learning for citations" (Some "2020")
             "10.1000/abc") 0.95.
Definition second_cand : Candidate :=
  _candidate_from_record
    (summary "jones2019" "Deep learning of citations" None "10.1000/dup")
    0.91.
Definition third_cand : Candidate :=
  _candidate_from_record
    (summary "lee2018" "Shallow learning" None "https://doi.org/10.1000/DUP")
    0.10.

Definition plain_verdict : Match :=
  {| status := "needs_llm"; m_citekey := None; m_itemKey := None;
     method := "tfidf"; confidence := 0.95; reason := None |}.

Lemma lexical_tier_classification_witness :
  resolve unit scores default_params library index ref_plain
  = Ok (plain_verdict, [first_cand; second_cand; third_cand])
  /\ status plain_verdict = "needs_llm".
Proof.
  assert (Hres : resolve unit scores default_params library index ref_plain
                 = Ok (plain_verdict, [first_cand; second_cand; third_cand]))
    by (vm_compute; reflexivity).
  split; [exact Hres|].
  apply (lexical_tier_classification unit scores no_repr export
           default_params library index ref_plain plain_verdict
           first_cand [second_cand; third_cand]);
    solve [exact Hres | vm_compute; reflexivity].
Defined.

End PipelineExamples.

(* ===================================================================== *)
(** * Properties: input normalization *)
(* ===================================================================== *)

Module RefsProps.
Import Normalize RefsExtracted.

(** The two ends of the line range as read from the entry and coerced,
    before any swap. *)
Definition coerced_range (obj : list (string * json)) : Z * Z :=
  let r := range_from_single obj
             (range_from_lines obj
                (range_from_pair obj (range_from_keys obj))) in
  (coerce_int (fst r) (-1), coerce_int (snd r) (-1)).

(** Both ends known, and the end before the start. *)
Definition inverted (r : Z * Z) : bool :=
  (0 <=? fst r)%Z && (0 <=? snd r)%Z && (snd r <? fst r)%Z.


Lemma extract_line_range_cases obj warnings :
  _extract_line_range obj warnings
  = if inverted (coerced_range obj)
    then ((snd (coerced_range obj), fst (coerced_range obj)),
          warnings ++ [swapped_warning (fst (coerced_range obj))
                                       (snd (coerced_range obj))])
    else (coerced_range obj, warnings).
Proof. reflexivity. Qed.


Section WithRepr.
Variable py_repr : json -> string.




(** A call of [_normalize_ref] only appends to the warnings, and its
    reference does not depend on them. *)
Lemma normalize_ref_appends entry warnings :
  _normalize_ref py_repr entry warnings
  = (fst (_normalize_ref py_repr entry []),
     warnings ++ snd (_normalize_ref py_repr entry [])).
Proof.
  unfold _normalize_ref.
  destruct entry as [| | | |s| |obj]; simpl;
    try (rewrite ?app_nil_r; reflexivity).
  - destruct (PyStr.truthy (PyStr.strip s)); simpl;
      now rewrite app_nil_r.
  - destruct (PyStr.truthy _); simpl; [|reflexivity].
    rewrite !extract_line_range_cases.
    destruct (inverted (coerced_range obj)); simpl;
      now rewrite ?app_nil_r.
Qed.

(** The references and warnings the loop adds for a list of entries. *)
Definition kept (entries : list json) : list Reference :=
  fst (normalize_all py_repr entries [] []).
Definition warned (entries : list json) : list string :=
  snd (normalize_all py_repr entries [] []).

Lemma normalize_all_cons entry entries refs warnings :
  normalize_all py_repr (entry :: entries) refs warnings
  = normalize_all py_repr entries
      (refs ++ match fst (_normalize_ref py_repr entry []) with
               | Some r => [r]
               | None => []
               end)
      (warnings ++ snd (_normalize_ref py_repr entry [])).
Proof.
  simpl. rewrite (normalize_ref_appends entry warnings).
  destruct (fst (_normalize_ref py_repr entry [])); simpl;
    now rewrite ?app_nil_r.
Qed.

Lemma normalize_all_from entries : forall refs warnings,
  normalize_all py_repr entries refs warnings
  = (refs ++ kept entries, warnings ++ warned entries).
Proof.
  unfold kept, warned.
  induction entries as [|entry entries IH]; intros refs warnings.
  - simpl. now rewrite !app_nil_r.
  - rewrite !normalize_all_cons, IH. simpl.
    rewrite (IH (match fst (_normalize_ref py_repr entry []) with
                 | Some r => [r] | None => [] end)
                (snd (_normalize_ref py_repr entry []))).
    simpl. now rewrite !app_assoc.
Qed.

Lemma kept_app l1 l2 : kept (l1 ++ l2) = kept l1 ++ kept l2.
Proof.
  unfold kept at 1. revert l2.
  induction l1 as [|entry l1 IH]; intros l2; [reflexivity|].
  rewrite <- app_comm_cons, normalize_all_cons, normalize_all_from. simpl.
  replace (kept (entry :: l1))
    with (match fst (_normalize_ref py_repr entry []) with
          | Some r => [r] | None => [] end ++ kept l1).
  - rewrite <- app_assoc. f_equal.
    specialize (IH l2). unfold kept at 1 in IH.
    rewrite normalize_all_from in IH. exact IH.
  - unfold kept at 2. now rewrite normalize_all_cons, normalize_all_from.
Qed.

Lemma warned_app l1 l2 : warned (l1 ++ l2) = warned l1 ++ warned l2.
Proof.
  unfold warned at 1. revert l2.
  induction l1 as [|entry l1 IH]; intros l2; [reflexivity|].
  rewrite <- app_comm_cons, normalize_all_cons, normalize_all_from. simpl.
  replace (warned (entry :: l1))
    with (snd (_normalize_ref py_repr entry []) ++ warned l1).
  - rewrite <- app_assoc. f_equal.
    specialize (IH l2). unfold warned at 1 in IH.
    rewrite normalize_all_from in IH. exact IH.
  - unfold warned at 2. now rewrite normalize_all_cons, normalize_all_from.
Qed.

(** A refs document with the given entries. *)
Definition refs_document (entries : list json) : json :=
  JObj [("refs", JList entries)].

Lemma load_refs_document entries :
  refs (load_refs_extracted py_repr (refs_document entries)) = kept entries
  /\ warnings (load_refs_extracted py_repr (refs_document entries))
     = warned entries.
Proof.
  unfold load_refs_extracted, refs_document. simpl.
  rewrite normalize_all_from. simpl. auto.
Qed.

End WithRepr.

Definition no_repr : json -> string := fun _ => "".



End RefsProps.

(* ===================================================================== *)
(** * Properties: decision merge *)
(* ===================================================================== *)

Module ApplyProps.
Import MatchDoc ApplyLlmDecisions ResultProps.

(** ** The statistics *)

(** The [stats] dict with the given counters. *)
Definition stats_of (total matched needs_llm needs_review unmatched : nat)
  : gmap string nat :=
  <["total" := total]> (<["matched" := matched]>
    (<["needs_llm" := needs_llm]> (<["needs_review" := needs_review]>
      (<["unmatched" := unmatched]> ∅)))).

(** The status a reference currently has: that of its [match] object,
    [unmatched] when there is no object or no status. *)
Definition current_status (ref : MatchRef) : string :=
  match r_match ref with
  | Some m => status_or_unmatched m
  | None => "unmatched"
  end.

Definition count_status (s : string) (refs : list MatchRef) : nat :=
  Datatypes.length
    (List.filter (fun ref => String.eqb (current_status ref) s) refs).

(** The references that are neither matched nor awaiting a decision or a
    review: those count as unmatched. *)
Definition count_unmatched (refs : list MatchRef) : nat :=
  Datatypes.length
    (List.filter (fun ref =>
                    negb (String.eqb (current_status ref) "matched"
                          || String.eqb (current_status ref) "needs_llm"
                          || String.eqb (current_status ref) "needs_review"))
                 refs).

(** The tally in the words of the specification: the number of references
    and a count per status. *)
Definition tally_from_scratch (refs : list MatchRef) : gmap string nat :=
  stats_of (Datatypes.length refs)
           (count_status "matched" refs)
           (count_status "needs_llm" refs)
           (count_status "needs_review" refs)
           (count_unmatched refs).

Lemma lookup_stats_of (s : string) t m l r u :
  stats_of t m l r u !! s
  = if decide (s = "total") then Some t
    else if decide (s = "matched") then Some m
    else if decide (s = "needs_llm") then Some l
    else if decide (s = "needs_review") then Some r
    else if decide (s = "unmatched") then Some u
    else None.
Proof.
  unfold stats_of. rewrite !lookup_insert, lookup_empty.
  repeat case_decide; subst; congruence.
Qed.

Ltac stats_eq :=
  apply map_eq; intros ?; unfold bump;
  rewrite ?lookup_insert, ?lookup_stats_of; simpl;
  repeat case_decide; subst; simpl; congruence.

Lemma bump_total t m l r u :
  bump "total" (stats_of t m l r u) = stats_of (S t) m l r u.
Proof. stats_eq. Qed.

Lemma bump_matched t m l r u :
  bump "matched" (stats_of t m l r u) = stats_of t (S m) l r u.
Proof. stats_eq. Qed.

Lemma bump_needs_llm t m l r u :
  bump "needs_llm" (stats_of t m l r u) = stats_of t m (S l) r u.
Proof. stats_eq. Qed.

Lemma bump_needs_review t m l r u :
  bump "needs_review" (stats_of t m l r u) = stats_of t m l (S r) u.
Proof. stats_eq. Qed.

Lemma bump_unmatched t m l r u :
  bump "unmatched" (stats_of t m l r u) = stats_of t m l r (S u).
Proof. stats_eq. Qed.

(** One step of the tally, for a reference whose status is not the name
    of the [total] counter. *)
Lemma tally_by_status ref t m l r u :
  tally (stats_of t m l r u) ref
  = match stats_of (S t) m l r u !! current_status ref with
    | Some _ => bump (current_status ref) (stats_of (S t) m l r u)
    | None => bump "unmatched" (stats_of (S t) m l r u)
    end.
Proof.
  unfold tally, current_status. rewrite bump_total.
  destruct (r_match ref); reflexivity.
Qed.

Lemma tally_step ref t m l r u :
  current_status ref <> "total" ->
  tally (stats_of t m l r u) ref
  = stats_of (S t)
      (m + count_status "matched" [ref])
      (l + count_status "needs_llm" [ref])
      (r + count_status "needs_review" [ref])
      (u + count_unmatched [ref]).
Proof.
  intros Hne. rewrite tally_by_status, lookup_stats_of.
  unfold count_status, count_unmatched. cbn [List.filter].
  generalize dependent (current_status ref). intros s Hne.
  destruct (String.eqb_spec s "matched") as [E1|E1];
    destruct (String.eqb_spec s "needs_llm") as [E2|E2];
    destruct (String.eqb_spec s "needs_review") as [E3|E3];
    repeat case_decide; try congruence; subst; simpl;
    rewrite ?bump_matched, ?bump_needs_llm, ?bump_needs_review,
            ?bump_unmatched;
    f_equal; lia.
Qed.

Lemma tally_all refs : forall t m l r u,
  Forall (fun ref => current_status ref <> "total") refs ->
  fold_left tally refs (stats_of t m l r u)
  = stats_of (t + Datatypes.length refs)
      (m + count_status "matched" refs)
      (l + count_status "needs_llm" refs)
      (r + count_status "needs_review" refs)
      (u + count_unmatched refs).
Proof.
  induction refs as [|ref refs IH]; intros t m l r u Hok.
  - simpl. unfold count_status, count_unmatched. simpl.
    f_equal; lia.
  - inversion Hok as [|? ? Href Hrest]; subst. simpl fold_left.
    rewrite tally_step by exact Href. rewrite IH by exact Hrest.
    unfold count_status, count_unmatched. cbn [List.filter].
    destruct (String.eqb (current_status ref) "matched");
      destruct (String.eqb (current_status ref) "needs_llm");
      destruct (String.eqb (current_status ref) "needs_review");
      simpl; f_equal; lia.
Qed.

(** [_recompute_stats] is the tally from scratch, for references none of
    which has the name of the [total] counter as its status. *)
Lemma recompute_stats_is_tally refs :
  Forall (fun ref => current_status ref <> "total") refs ->
  _recompute_stats refs = tally_from_scratch refs.
Proof.
  intros Hok. unfold _recompute_stats, tally_from_scratch.
  change zero_stats with (stats_of 0 0 0 0 0).
  now rewrite tally_all.
Qed.

(** ** The decisions *)










(** What the merge never changes in a reference: its id and its
    candidates. *)
Definition frame (ref : MatchRef) : string * list Candidate :=
  (r_ref_id ref, r_candidates ref).



Section WithBuiltins.
Variable py_repr : json -> string.
Variable py_float : json -> option float.

Abbreviation step := (apply_decision py_repr py_float).














(** A match result that differs in its [stats] only. *)
Definition with_stats (match_result : MatchResultDoc)
    (stale : gmap string nat) : MatchResultDoc :=
  {| d_meta := d_meta match_result;
     d_refs := d_refs match_result;
     d_stats := stale |}.

(** When [apply_llm_decisions] returns, the [stats] of its result are
    [_recompute_stats] of the references of the result, whatever [stats]
    the input carried; and for references none of which has the name of
    the [total] counter as its status (the four statuses of the data model,
    and any other text, qualify) that is the tally from scratch: the
    number of references and a count per status. *)
Theorem stats_recomputed_after_merge (match_result : MatchResultDoc)
    (decisions : list (string * json)) (res : ApplyResult) :
  apply_llm_decisions py_repr py_float match_result decisions = Ok res ->
  exists refs',
    d_refs (updated res) = Some refs'
    /\ d_stats (updated res) = _recompute_stats refs'
    /\ (forall stale,
          apply_llm_decisions py_repr py_float
            (with_stats match_result stale) decisions = Ok res)
    /\ (Forall (fun ref => current_status ref <> "total") refs' ->
        d_stats (updated res) = tally_from_scratch refs').
Proof.
  unfold apply_llm_decisions at 1. intros H.
  assert (Hstale : forall stale,
             apply_llm_decisions py_repr py_float
               (with_stats match_result stale) decisions
             = apply_llm_decisions py_repr py_float match_result decisions)
    by reflexivity.
  destruct (d_refs match_result) as [refs|] eqn:Hrefs; [|discriminate].
  destruct (decisions_list decisions) as [| | | | |ds|] eqn:Hds;
    try discriminate.
  apply bind_ok in H as ([refs' warnings'] & Hloop & [= <-]).
  exists refs'. simpl. split; [reflexivity|]. split; [reflexivity|].
  split.
  - intros stale. rewrite Hstale. unfold apply_llm_decisions.
    now rewrite Hrefs, Hds, Hloop.
  - apply recompute_stats_is_tally.
Qed.

End WithBuiltins.
End ApplyProps.

(* ===================================================================== *)
(** * The decision merge on a small match result *)
(* ===================================================================== *)

Module ApplyExamples.
Import BbtLibrary RefsExtracted MatchDoc ApplyLlmDecisions ApplyProps.

Definition no_repr : json -> string := fun _ => "".
Definition no_float : json -> option float := fun _ => None.

Definition cand (ck item_key : string) (score : float) : Candidate :=
  {| c_citekey := ck; c_itemKey := item_key; c_score := score;
     c_title := ""; c_year := None; c_authors := []; c_doi := None;
     c_url := None; c_zotero_tags := []; c_pdf_attachments := [] |}.

Definition entry (id : string) (m : option Match) (cs : list Candidate)
  : MatchRef :=
  {| r_ref_id := id; r_line_start := (-1); r_line_end := (-1);
     r_raw_text := "Smith 2020";
     r_parsed := {| p_doi := None; p_url := None; p_arxiv := None;
                    p_year := None; p_title_guess := None;
                    p_author_guess := None |};
     r_match := m; r_candidates := cs |}.

Definition verdict (st meth : string) (conf : float) : Match :=
  {| status := st; m_citekey := None; m_itemKey := None; method := meth;
     confidence := conf; reason := None |}.

(** Two references: the first awaits a decision between two candidates,
    the second has none.  The [stats] are stale. *)
Definition first_ref : MatchRef :=
  entry "r1" (Some (verdict "needs_llm" "tfidf" 0.5))
        [cand "smith2020" "ABCD" 0.5; cand "jones2019" "EFGH" 0.45].
Definition second_ref : MatchRef :=
  entry "r2" (Some (verdict "unmatched" "none" 0)) [].

Definition doc : MatchResultDoc :=
  {| d_meta := JObj [];
     d_refs := Some [first_ref; second_ref];
     d_stats := stats_of 7 7 7 7 7 |}.

Definition decision (id : string) (citekey : json) : json :=
  JObj [("ref_id", JStr id); ("citekey", citekey)].

Definition decisions_doc (ds : list json) : list (string * json) :=
  [("decisions", JList ds)].



Definition merged : ApplyResult :=
  Eval vm_compute in
    match apply_llm_decisions no_repr no_float doc
            (decisions_doc [decision "r1" (JStr "jones2019")]) with
    | Ok res => res
    | Raise _ => {| updated := doc; warnings := [] |}
    end.

Lemma stats_recomputed_after_merge_witness :
  exists refs',
    d_refs (updated merged) = Some refs'
    /\ d_stats (updated merged) = _recompute_stats refs'
    /\ (forall stale,
          apply_llm_decisions no_repr no_float (with_stats doc stale)
            (decisions_doc [decision "r1" (JStr "jones2019")]) = Ok merged)
    /\ (Forall (fun ref => current_status ref <> "total") refs' ->
        d_stats (updated merged) = tally_from_scratch refs').
Proof.
  apply (stats_recomputed_after_merge no_repr no_float doc
           (decisions_doc [decision "r1" (JStr "jones2019")]) merged).
  vm_compute. reflexivity.
Defined.

(** The merged result counts one matched and one unmatched reference,
    not the stale sevens. *)
Example merged_stats :
  d_stats (updated merged) = stats_of 2 1 0 0 1.
Proof. vm_compute. reflexivity. Qed.

(** [_recompute_stats] looks the status up among the keys of [stats],
    and [total] is one of them, so a reference with that status is
    counted under [total] a second time instead of under [unmatched]. *)
Remark status_total_is_counted_as_total :
  _recompute_stats [entry "r1" (Some (verdict "total" "none" 0)) []]
  = stats_of 2 0 0 0 0.
Proof. vm_compute. reflexivity. Qed.

(** A match result with one reference, whose status is the text
    [total]. *)
Definition total_ref : MatchRef :=
  entry "r1" (Some (verdict "total" "none" 0)) [].

Definition doc_total : MatchResultDoc :=
  {| d_meta := JObj [];
     d_refs := Some [total_ref];
     d_stats := stats_of 1 0 0 0 1 |}.

(** C7 fails on the code at this input.  The merge of no decision into a
    match result with the one reference [total_ref] returns, the list of
    references is unchanged and has one entry, and the [stats] of the
    result give [total] as 2 and every status counter as 0: the stale
    [stats] of the input were the tally from scratch, those of the result
    are not. *)
Theorem status_named_total_is_counted_twice :
  exists res,
    apply_llm_decisions no_repr no_float doc_total (decisions_doc [])
    = Ok res
    /\ d_refs (updated res) = Some [total_ref]
    /\ current_status total_ref = "total"
    /\ d_stats (updated res) = stats_of 2 0 0 0 0
    /\ tally_from_scratch [total_ref] = stats_of 1 0 0 0 1.
Proof.
  exists {| updated := {| d_meta := JObj [("warnings", JList [])];
                          d_refs := Some [total_ref];
                          d_stats := stats_of 2 0 0 0 0 |};
            warnings := [] |}.
  repeat split; vm_compute; reflexivity.
Qed.

End ApplyExamples.


(* ===================================================================== *)
(** * More on ordered dictionaries *)
(* ===================================================================== *)

Module PyDictFacts.
Import PyDictProps.

Section Dict.
Context {V : Type}.
Implicit Types (d : PyDict.t V) (k : string) (v : V).

Lemma mem_get k d : PyDict.mem k d = true <-> exists v, PyDict.get k d = Some v.
Proof.
  unfold PyDict.mem. destruct (PyDict.get k d) as [v|].
  - split; eauto.
  - split; [discriminate | intros [v H]; discriminate H].
Qed.

Lemma In_keys k d : In k (PyDict.keys d) <-> PyDict.mem k d = true.
Proof.
  unfold PyDict.mem, PyDict.keys.
  induction d as [|[k' v'] d IH]; simpl; [split; [tauto|discriminate]|].
  destruct (String.eqb_spec k k') as [->|Hne].
  - split; auto.
  - rewrite <- IH. split; [intros [H|H]; [congruence|exact H] | auto].
Qed.

Lemma get_In k v d : PyDict.get k d = Some v -> In (k, v) d.
Proof.
  induction d as [|[k' v'] d IH]; simpl; [discriminate|].
  destruct (String.eqb_spec k k') as [->|Hne].
  - intros [= ->]. now left.
  - auto.
Qed.

Lemma In_get k v d :
  List.NoDup (PyDict.keys d) -> In (k, v) d -> PyDict.get k d = Some v.
Proof.
  unfold PyDict.keys.
  induction d as [|[k' v'] d IH]; simpl; [contradiction|].
  intros Hnd [[= -> ->]|Hin].
  - now rewrite String.eqb_refl.
  - apply List.NoDup_cons_iff in Hnd as [Hk Hnd].
    destruct (String.eqb_spec k k') as [->|Hne]; [|auto].
    exfalso. apply Hk. apply in_map_iff. now exists (k', v).
Qed.

Lemma keys_set k v d :
  PyDict.keys (PyDict.set k v d)
  = if PyDict.mem k d then PyDict.keys d else PyDict.keys d ++ [k].
Proof.
  unfold PyDict.mem, PyDict.keys.
  induction d as [|[k' v'] d IH]; simpl; [reflexivity|].
  destruct (String.eqb_spec k k') as [->|Hne]; simpl; [reflexivity|].
  rewrite IH. destruct (PyDict.get k d); reflexivity.
Qed.

Lemma NoDup_keys_set k v d :
  List.NoDup (PyDict.keys d) -> List.NoDup (PyDict.keys (PyDict.set k v d)).
Proof.
  intros Hnd. rewrite keys_set.
  destruct (PyDict.mem k d) eqn:Hm; [exact Hnd|].
  apply List.NoDup_app; [exact Hnd | |].
  - constructor; [intros [] | constructor].
  - intros x Hx [<-|[]]. apply In_keys in Hx. congruence.
Qed.

Lemma len_set k v d :
  PyDict.len (PyDict.set k v d)
  = if PyDict.mem k d then PyDict.len d else S (PyDict.len d).
Proof.
  unfold PyDict.len.
  rewrite <- !(length_map fst). change (map fst) with (@PyDict.keys V).
  rewrite keys_set. destruct (PyDict.mem k d); [reflexivity|].
  rewrite length_app. simpl. lia.
Qed.

Lemma mem_set k k' v d :
  PyDict.mem k' (PyDict.set k v d)
  = String.eqb k k' || PyDict.mem k' d.
Proof.
  unfold PyDict.mem. rewrite get_set.
  destruct (String.eqb k k'); reflexivity.
Qed.

End Dict.

Lemma keys_append_to {X : Type} k (x : X) (d : PyDict.t (list X)) :
  List.NoDup (PyDict.keys d) -> List.NoDup (PyDict.keys (PyDict.append_to k x d)).
Proof.
  unfold PyDict.append_to.
  destruct (PyDict.get k d); apply NoDup_keys_set.
Qed.

End PyDictFacts.

(* ===================================================================== *)
(** * Properties: invariants of the library index *)
(* ===================================================================== *)

Module LibraryInvariants.
Import Normalize BbtLibrary ResultProps PyDictProps PyDictFacts LibraryProps.

(** A reverse index is sound against the records: its keys are distinct
    and not empty, no key has an empty list, and every citekey it lists
    has a record. *)
Definition index_sound (records : PyDict.t LibraryRecord)
    (index : PyDict.t (list string)) : Prop :=
  List.NoDup (PyDict.keys index)
  /\ forall k l,
       PyDict.get k index = Some l ->
       PyStr.truthy k = true
       /\ l <> []
       /\ forall ck, In ck l -> PyDict.mem ck records = true.

(** A reverse index is complete for a field: every record whose field
    normalizes to a non-empty key is listed under that key. *)
Definition index_complete (norm : option string -> option string)
    (field : LibraryRecord -> option string)
    (records : PyDict.t LibraryRecord) (index : PyDict.t (list string))
  : Prop :=
  forall ck r d,
    PyDict.get ck records = Some r ->
    norm (field r) = Some d -> PyStr.truthy d = true ->
    exists l, PyDict.get d index = Some l /\ In ck l.

Lemma index_under_get key ck index k :
  PyDict.get k (index_under key ck index)
  = match key with
    | Some d =>
        if PyStr.truthy d && String.eqb d k
        then Some (default [] (PyDict.get d index) ++ [ck])
        else PyDict.get k index
    | None => PyDict.get k index
    end.
Proof.
  unfold index_under. destruct key as [d|]; [|reflexivity].
  destruct (PyStr.truthy d); simpl; [|reflexivity].
  apply get_append_to.
Qed.

Lemma index_under_sound records records' key ck index :
  index_sound records index ->
  (forall c, PyDict.mem c records = true -> PyDict.mem c records' = true) ->
  PyDict.mem ck records' = true ->
  index_sound records' (index_under key ck index).
Proof.
  intros [Hnd Hs] Hgrow Hck. split.
  - unfold index_under. destruct key as [d|]; [|exact Hnd].
    destruct (PyStr.truthy d); [|exact Hnd]. now apply keys_append_to.
  - intros k l. rewrite index_under_get.
    assert (Hold : PyDict.get k index = Some l ->
                   PyStr.truthy k = true /\ l <> []
                   /\ forall c, In c l -> PyDict.mem c records' = true).
    { intros H. destruct (Hs _ _ H) as (Hk & Hl & Hin). auto. }
    destruct key as [d|]; [|exact Hold].
    destruct (PyStr.truthy d) eqn:Hd; simpl; [|exact Hold].
    destruct (String.eqb_spec d k) as [<-|Hne]; [|exact Hold].
    intros [= <-]. split; [exact Hd|]. split.
    + destruct (default [] (PyDict.get d index)); discriminate.
    + intros c [Hc|[<-|[]]]%in_app_or; [|exact Hck].
      destruct (PyDict.get d index) as [l0|] eqn:Hget; [|contradiction].
      apply Hgrow. now apply (Hs _ _ Hget).
Qed.

Lemma index_under_grows key ck index k l :
  PyDict.get k index = Some l ->
  exists l', PyDict.get k (index_under key ck index) = Some l'
             /\ incl l l'.
Proof.
  intros H. rewrite index_under_get.
  destruct key as [d|]; [|exists l; split; [exact H | apply incl_refl]].
  destruct (PyStr.truthy d && String.eqb d k) eqn:E;
    [|exists l; split; [exact H | apply incl_refl]].
  apply andb_true_iff in E as [_ ->%String.eqb_eq]. rewrite H. simpl.
  eexists. split; [reflexivity | now apply incl_appl, incl_refl].
Qed.

Lemma index_under_complete norm field records s index :
  index_complete norm field records index ->
  index_complete norm field
    (PyDict.set (citekey s) s records)
    (index_under (norm (field s)) (citekey s) index).
Proof.
  intros Hc ck r d Hget Hn Ht.
  apply get_set_inv in Hget as [[<- ->]|[Hne Hget]].
  - rewrite index_under_get, Hn, Ht, String.eqb_refl. simpl.
    eexists. split; [reflexivity|]. apply in_or_app. right. now left.
  - destruct (Hc _ _ _ Hget Hn Ht) as (l & Hl & Hin).
    destruct (index_under_grows (norm (field s)) (citekey s) _ _ _ Hl)
      as (l' & Hl' & Hincl).
    exists l'. split; [exact Hl' | now apply Hincl].
Qed.

(** The invariant of the indexing loop. *)
Record tables_ok (tb : tables) : Prop := {
  ok_keys : List.NoDup (PyDict.keys (t_records tb));
  ok_doi : index_sound (t_records tb) (t_by_doi tb);
  ok_arxiv : index_sound (t_records tb) (t_by_arxiv tb);
  ok_url : index_sound (t_records tb) (t_by_url tb);
  ok_doi_complete :
    index_complete normalize_doi doi (t_records tb) (t_by_doi tb);
  ok_url_complete :
    index_complete normalize_url url (t_records tb) (t_by_url tb)
}.

Lemma no_tables_ok : tables_ok no_tables.
Proof.
  assert (He : forall r, index_sound r []).
  { intros r. split; [constructor | intros k l H; discriminate H]. }
  split; simpl; try apply He; try constructor;
    intros ck r d H; discriminate H.
Qed.

Section WithRepr.
Variable py_repr : json -> string.

Lemma index_summary_ok tb it s :
  tables_ok tb -> tables_ok (index_summary py_repr tb it s).
Proof.
  intros [Hk Hd Ha Hu Hdc Huc].
  assert (Hgrow : forall c,
             PyDict.mem c (t_records tb) = true ->
             PyDict.mem c (PyDict.set (citekey s) s (t_records tb)) = true).
  { intros c Hc. rewrite mem_set, Hc. apply orb_true_r. }
  assert (Hck : PyDict.mem (citekey s)
                  (PyDict.set (citekey s) s (t_records tb)) = true).
  { now rewrite mem_set, String.eqb_refl. }
  split; simpl.
  - now apply NoDup_keys_set.
  - now apply index_under_sound with (records := t_records tb).
  - now apply index_under_sound with (records := t_records tb).
  - now apply index_under_sound with (records := t_records tb).
  - now apply index_under_complete.
  - now apply index_under_complete.
Qed.

Lemma index_item_ok tb it tb' :
  tables_ok tb -> index_item py_repr tb it = Ok tb' -> tables_ok tb'.
Proof.
  unfold index_item. intros Hok H.
  apply bind_ok in H as (o & _ & H).
  destruct o as [s|]; inversion H; subst; [|exact Hok].
  now apply index_summary_ok.
Qed.

Lemma index_loop_ok items tb tb' :
  tables_ok tb ->
  for_each (index_item py_repr) items tb = Ok tb' -> tables_ok tb'.
Proof.
  apply (for_each_invariant tables_ok). intros s x s'. apply index_item_ok.
Qed.

(** The tables the builder returns for an export. *)
Lemma build_library_index_tables data idx :
  build_library_index py_repr data = Ok idx ->
  exists tb,
    for_each (index_item py_repr) (iter_library_items data) no_tables = Ok tb
    /\ tables_ok tb
    /\ records idx = t_records tb /\ by_doi idx = t_by_doi tb
    /\ by_arxiv idx = t_by_arxiv tb /\ by_url idx = t_by_url tb
    /\ total_items idx = Datatypes.length (iter_library_items data)
    /\ indexed_items idx = PyDict.len (t_records tb)
    /\ warnings idx = duplicate_warnings py_repr "DOI" (t_by_doi tb)
                      ++ duplicate_warnings py_repr "arXiv" (t_by_arxiv tb)
                      ++ duplicate_warnings py_repr "URL" (t_by_url tb).
Proof.
  unfold build_library_index. intros H.
  apply bind_ok in H as (tb & Htb & [= <-]). exists tb. simpl.
  split; [exact Htb|]. split; [|repeat split].
  eapply index_loop_ok; [apply no_tables_ok | exact Htb].
Qed.

End WithRepr.
End LibraryInvariants.

Module LibraryFacts.
Import Normalize BbtLibrary ResultProps PyDictProps PyDictFacts.
Import LibraryProps LibraryInvariants.

Section WithRepr.
Variable py_repr : json -> string.

Lemma records_len_bound items : forall tb tb',
  for_each (index_item py_repr) items tb = Ok tb' ->
  (PyDict.len (t_records tb')
   <= PyDict.len (t_records tb) + Datatypes.length items)%nat.
Proof.
  induction items as [|it items IH]; intros tb tb'; simpl.
  - intros [= <-]. lia.
  - intros H. apply bind_ok in H as (tb1 & H1 & H2).
    apply IH in H2. unfold index_item in H1.
    apply bind_ok in H1 as (o & _ & H1).
    destruct o as [s|]; inversion H1; subst; simpl in *; [|lia].
    rewrite len_set in H2. destruct (PyDict.mem _ _); lia.
Qed.

(** X1. In the index [build_library_index] returns, each reverse index
    has distinct, non-empty keys, no key has an empty list, and every
    citekey listed has a record, filed under that citekey. *)
Theorem reverse_indexes_point_to_records (data : json) (idx : LibraryIndex) :
  build_library_index py_repr data = Ok idx ->
  Forall (fun index =>
            List.NoDup (PyDict.keys index)
            /\ forall k l,
                 PyDict.get k index = Some l ->
                 k <> "" /\ l <> []
                 /\ forall ck, In ck l ->
                      exists r, PyDict.get ck (records idx) = Some r
                                /\ citekey r = ck)
         [by_doi idx; by_arxiv idx; by_url idx].
Proof.
  intros H.
  pose proof (build_library_index_keyed py_repr _ _ H) as Hkeyed.
  apply build_library_index_tables in H
    as (tb & _ & [_ Hd Ha Hu _ _] & Er & Ed & Ea & Eu & _).
  rewrite <- Er, <- Ed in Hd. rewrite <- Er, <- Ea in Ha.
  rewrite <- Er, <- Eu in Hu. clear Er Ed Ea Eu.
  assert (Hone : forall index,
             index_sound (records idx) index ->
             List.NoDup (PyDict.keys index)
             /\ forall k l,
                  PyDict.get k index = Some l ->
                  k <> "" /\ l <> []
                  /\ forall ck, In ck l ->
                       exists r, PyDict.get ck (records idx) = Some r
                                 /\ citekey r = ck).
  { intros index [Hnd Hs]. split; [exact Hnd|]. intros k l Hget.
    destruct (Hs _ _ Hget) as (Hk & Hl & Hin).
    split; [intros ->; discriminate Hk|]. split; [exact Hl|].
    intros ck Hck. apply Hin, mem_get in Hck as [r Hr].
    exists r. split; [exact Hr | now apply (Hkeyed ck r)]. }
  apply List.Forall_cons; [now apply Hone|].
  apply List.Forall_cons; [now apply Hone|].
  apply List.Forall_cons; [now apply Hone|]. apply List.Forall_nil.
Qed.


(** X3. The records of the index hold one entry per distinct citekey:
    the keys are distinct, a citekey is a key exactly when some item of
    the export is summarized under it, and [indexed_items] is the number
    of keys, which is at most [total_items]. *)
Theorem records_hold_one_entry_per_citekey (data : json)
    (idx : LibraryIndex) :
  build_library_index py_repr data = Ok idx ->
  List.NoDup (PyDict.keys (records idx))
  /\ (forall ck, In ck (PyDict.keys (records idx))
                 <-> summaries_of py_repr ck (iter_library_items data) <> [])
  /\ indexed_items idx = Datatypes.length (PyDict.keys (records idx))
  /\ (indexed_items idx <= total_items idx)%nat.
Proof.
  intros H.
  apply build_library_index_tables in H
    as (tb & Hloop & [Hk _ _ _ _ _] & Er & _ & _ & _ & Et & Ei & _).
  rewrite Er, Et, Ei. split; [exact Hk|]. split; [|split].
  - intros ck. rewrite In_keys, mem_get.
    rewrite (index_loop_records py_repr _ _ _ ck Hloop). simpl.
    destruct (summaries_of py_repr ck (iter_library_items data))
      as [|s l] eqn:E using rev_ind.
    + simpl. split; [intros [v Hv]; discriminate Hv | congruence].
    + rewrite last_snoc. split; [|eauto].
      intros _ Hnil. now apply app_eq_nil in Hnil as [_ Hnil].
  - unfold PyDict.len, PyDict.keys. now rewrite length_map.
  - apply records_len_bound in Hloop. simpl in Hloop. exact Hloop.
Qed.

Lemma duplicate_warnings_In what index w :
  In w (duplicate_warnings py_repr what index)
  <-> exists key citekeys,
        In (key, citekeys) index
        /\ (1 < Datatypes.length citekeys)%nat
        /\ w = "Duplicate " +:+ what +:+ " index for " +:+ key +:+ ": "
                 +:+ py_repr (JList (map JStr citekeys)).
Proof.
  unfold duplicate_warnings, PyDict.items. rewrite in_flat_map. split.
  - intros ([key cks] & Hin & Hw).
    destruct (1 <? Datatypes.length cks)%nat eqn:E; [|contradiction].
    destruct Hw as [<-|[]]. apply Nat.ltb_lt in E. eauto.
  - intros (key & cks & Hin & Hlen & ->). exists (key, cks).
    split; [exact Hin|]. apply Nat.ltb_lt in Hlen. rewrite Hlen. now left.
Qed.

(** X4. The warnings of the index are exactly the collisions of the
    three reverse indexes: there is a warning for every key of [by_doi],
    [by_arxiv] or [by_url] that lists more than one citekey, naming the
    key and the citekeys, and there is no other warning. *)
Theorem collisions_are_the_warnings (data : json) (idx : LibraryIndex)
    (w : string) :
  build_library_index py_repr data = Ok idx ->
  In w (warnings idx)
  <-> exists what index key citekeys,
        In (what, index)
           [("DOI", by_doi idx); ("arXiv", by_arxiv idx);
            ("URL", by_url idx)]
        /\ PyDict.get key index = Some citekeys
        /\ (1 < Datatypes.length citekeys)%nat
        /\ w = "Duplicate " +:+ what +:+ " index for " +:+ key +:+ ": "
                 +:+ py_repr (JList (map JStr citekeys)).
Proof.
  intros H.
  apply build_library_index_tables in H
    as (tb & _ & [_ [Hd _] [Ha _] [Hu _] _ _] & _ & Ed & Ea & Eu & _ & _ & Ew).
  rewrite Ew, Ed, Ea, Eu, !in_app_iff, !duplicate_warnings_In. split.
  - intros [H|[H|H]]; destruct H as (key & cks & Hin & Hlen & ->).
    + exists "DOI", (t_by_doi tb), key, cks. simpl.
      split; [auto|]. split; [now apply In_get|auto].
    + exists "arXiv", (t_by_arxiv tb), key, cks. simpl.
      split; [auto|]. split; [now apply In_get|auto].
    + exists "URL", (t_by_url tb), key, cks. simpl.
      split; [auto 6|]. split; [now apply In_get|auto].
  - intros (what & index & key & cks & Hin & Hget & Hlen & ->).
    apply get_In in Hget.
    destruct Hin as [[= <- <-]|[[= <- <-]|[[= <- <-]|[]]]]; eauto 10.
Qed.

End WithRepr.
End LibraryFacts.

Module LibraryExamples.
Import Normalize BbtLibrary PipelineExamples LibraryFacts.

Lemma reverse_indexes_point_to_records_witness :
  Forall (fun index =>
            List.NoDup (PyDict.keys index)
            /\ forall k l, PyDict.get k index = Some l ->
                 k <> "" /\ l <> []
                 /\ forall ck, In ck l ->
                      exists r, PyDict.get ck (records library) = Some r
                                /\ citekey r = ck)
         [by_doi library; by_arxiv library; by_url library].
Proof.
  apply (reverse_indexes_point_to_records no_repr export library).
  vm_compute. reflexivity.
Defined.


Lemma records_hold_one_entry_per_citekey_witness :
  List.NoDup (PyDict.keys (records library))
  /\ (forall ck, In ck (PyDict.keys (records library))
                 <-> LibraryProps.summaries_of no_repr ck
                       (iter_library_items export) <> [])
  /\ indexed_items library = Datatypes.length (PyDict.keys (records library))
  /\ (indexed_items library <= total_items library)%nat.
Proof.
  apply (records_hold_one_entry_per_citekey no_repr export library).
  vm_compute. reflexivity.
Defined.

Lemma collisions_are_the_warnings_witness :
  In "Duplicate DOI index for 10.1000/dup: " (BbtLibrary.warnings library)
  <-> exists what index key citekeys,
        In (what, index)
           [("DOI", by_doi library); ("arXiv", by_arxiv library);
            ("URL", by_url library)]
        /\ PyDict.get key index = Some citekeys
        /\ (1 < Datatypes.length citekeys)%nat
        /\ "Duplicate DOI index for 10.1000/dup: "
           = "Duplicate " +:+ what +:+ " index for " +:+ key +:+ ": "
               +:+ no_repr (JList (map JStr citekeys)).
Proof.
  apply (collisions_are_the_warnings no_repr export library).
  vm_compute. reflexivity.
Defined.

End LibraryExamples.

(* ===================================================================== *)
(** * Properties: sorting with a key *)
(* ===================================================================== *)

Module SortFacts.
Import PySortProps.

Section Sort.
Context {A : Type} (lt : A -> A -> bool).
(** [le a b]: [a] is not above [b]; [P]: the key is comparable. *)
Context (le : A -> A -> Prop) (P : A -> Prop).
Hypothesis lt_true : forall a b, lt a b = true -> le a b.
Hypothesis lt_false : forall a b, lt a b = false -> le b a.
Hypothesis le_trans : forall a b c, P b -> le a b -> le b c -> le a c.

Lemma insert_keeps_sorted x l :
  Forall P l ->
  StronglySorted le l ->
  StronglySorted le (PySort.insert lt x l).
Proof.
  intros Hnum Hsorted. induction Hsorted as [|y l Hl IH Hy]; simpl.
  - repeat constructor.
  - inversion Hnum as [|? ? Hy_num Hl_num]; subst.
    destruct (lt x y) eqn:E.
    + constructor; [now constructor|].
      apply lt_true in E. constructor; [exact E|].
      eapply Forall_impl; [exact Hy|].
      intros z Hz. eapply le_trans; eauto.
    + constructor; [now apply IH|].
      apply lt_false in E.
      eapply Permutation_Forall; [symmetry; apply insert_perm|].
      now constructor.
Qed.

Lemma sort_from_keeps_sorted l : forall acc,
  Forall P l -> Forall P acc ->
  StronglySorted le acc ->
  StronglySorted le (fold_left (fun acc x => PySort.insert lt x acc) l acc).
Proof.
  induction l as [|x l IH]; intros acc Hl Hacc Hsorted; simpl;
    [exact Hsorted|].
  inversion Hl as [|? ? Hx Hl']; subst.
  apply IH; [exact Hl' | | now apply insert_keeps_sorted].
  eapply Permutation_Forall; [symmetry; apply insert_perm|].
  now constructor.
Qed.

Lemma sort_sorted l : Forall P l -> StronglySorted le (PySort.sort lt l).
Proof.
  intros Hl. unfold PySort.sort.
  apply sort_from_keeps_sorted; [exact Hl | constructor | constructor].
Qed.

End Sort.

Section Order.
Context {A : Type} (R : A -> A -> Prop).

Lemma sorted_app (l1 l2 : list A) :
  StronglySorted R (l1 ++ l2)
  <-> StronglySorted R l1 /\ StronglySorted R l2
      /\ forall a b, In a l1 -> In b l2 -> R a b.
Proof.
  induction l1 as [|x l1 IH]; simpl.
  - split; [intros H; repeat split; [constructor | exact H | contradiction]
           | now intros (_ & H & _)].
  - split.
    + intros H. inversion H as [|? ? Hrest Hx]; subst.
      apply IH in Hrest as (H1 & H2 & Hcross).
      rewrite List.Forall_forall in Hx. split; [|split].
      * constructor; [exact H1|]. apply List.Forall_forall.
        intros z Hz. apply Hx, in_or_app. now left.
      * exact H2.
      * intros a b [<-|Ha] Hb; [|now apply Hcross].
        apply Hx, in_or_app. now right.
    + intros (H1 & H2 & Hcross).
      inversion H1 as [|? ? Hrest Hx]; subst.
      rewrite List.Forall_forall in Hx.
      constructor.
      * apply IH. repeat split; auto.
      * apply List.Forall_forall. intros z Hz.
        apply in_app_or in Hz as [Hz|Hz]; auto.
Qed.

End Order.

Section Rev.
Context {A : Type} (R : A -> A -> Prop).

Lemma sorted_rev (l : list A) :
  StronglySorted R l -> StronglySorted (fun a b => R b a) (rev l).
Proof.
  induction 1 as [|x l Hl IH Hx]; simpl; [constructor|].
  apply sorted_app. split; [exact IH|]. split; [repeat constructor|].
  intros a b Ha [<-|[]]. apply in_rev in Ha.
  rewrite List.Forall_forall in Hx. auto.
Qed.

End Rev.
End SortFacts.

(* ===================================================================== *)
(** * Properties: lexical retrieval *)
(* ===================================================================== *)

Module RetrievalFacts.
Import BbtLibrary RetrievalTfidf ResultProps PySortProps SortFacts.

(** [a] does not score below [b]. *)
Definition not_below (a b : string * float) : Prop :=
  PrimFloat.ltb (snd a) (snd b) = false.

Lemma sort_reverse_scores (l : list (string * float)) :
  Forall (fun p => FloatOrder.is_number (snd p)) l ->
  StronglySorted not_below (PySort.sort_reverse score_lt l).
Proof.
  intros Hl. unfold PySort.sort_reverse.
  apply (sorted_rev (fun a b => not_below b a)).
  apply (sort_sorted score_lt (fun a b => not_below b a)
           (fun p => FloatOrder.is_number (snd p))).
  - intros a b. unfold score_lt, not_below. apply FloatOrder.ltb_asym.
  - intros a b. unfold score_lt, not_below. auto.
  - intros a b c Hb Hab Hbc. unfold not_below in *.
    eapply FloatOrder.not_ltb_trans; eauto.
  - eapply Permutation_Forall; [apply Permutation_rev | exact Hl].
Qed.

Lemma combine_numbers (cks : list string) : forall scores,
  Forall FloatOrder.is_number scores ->
  Forall (fun p : string * float => FloatOrder.is_number (snd p))
         (combine cks scores).
Proof.
  induction cks as [|ck cks IH]; intros [|s scores] H; simpl;
    try constructor.
  - now inversion H.
  - apply IH. now inversion H.
Qed.

Lemma In_firstn {A : Type} (n : nat) (l : list A) (x : A) :
  In x (firstn n l) -> In x l.
Proof.
  intros H. rewrite <- (firstn_skipn n l). apply in_or_app. now left.
Qed.

Section WithSklearn.
Variable M : Type.
Variable kernel_scores : M -> string -> result (list float).

(** What [retrieve_top_k] computes past its guard. *)
Lemma retrieve_top_k_cases (index : TfidfRetrievalIndex M) query top_k
    result :
  retrieve_top_k M kernel_scores index query top_k = Ok result ->
  result = []
  \/ exists m scores,
       matrix index = Some m
       /\ PyStr.strip query <> ""
       /\ kernel_scores m (PyStr.strip query) = Ok scores
       /\ result = firstn (Z.to_nat (Z.max 0 top_k))
                     (PySort.sort_reverse score_lt
                        (combine (citekeys index) scores)).
Proof.
  unfold retrieve_top_k.
  destruct (PyStr.truthy (PyStr.strip query)) eqn:Hq;
    [|intros [= <-]; now left].
  destruct (citekeys index) as [|ck cks] eqn:Hc; [intros [= <-]; now left|].
  destruct (matrix index) as [m|]; [|intros [= <-]; now left].
  intros H. apply bind_ok in H as (scores & Hs & [= <-]).
  right. exists m, scores. repeat split; auto.
  intros E. rewrite E in Hq. discriminate Hq.
Qed.

(** X5. [retrieve_top_k] returns at most [max(0, top_k)] pairs, each a
    citekey of the index with the score computed for it; when the scores
    are numbers the pairs come in descending order of score, and no pair
    left out scores above a pair returned. *)
Theorem retrieve_top_k_returns_the_best (index : TfidfRetrievalIndex M)
    (query : string) (top_k : Z) (result : list (string * float)) :
  retrieve_top_k M kernel_scores index query top_k = Ok result ->
  (Datatypes.length result <= Z.to_nat (Z.max 0 top_k))%nat
  /\ (forall ck s, In (ck, s) result -> In ck (citekeys index))
  /\ forall m scores,
       matrix index = Some m ->
       kernel_scores m (PyStr.strip query) = Ok scores ->
       PyStr.strip query <> "" ->
       exists rest,
         Permutation (result ++ rest) (combine (citekeys index) scores)
         /\ (Forall FloatOrder.is_number scores ->
             StronglySorted not_below result
             /\ forall a b, In a result -> In b rest -> not_below a b).
Proof.
  intros H. apply retrieve_top_k_cases in H as H'.
  destruct H' as [->|(m & scores & Hm & Hq & Hs & ->)].
  - split; [simpl; lia|]. split; [intros ck s []|].
    intros m scores Hm Hs Hq. unfold retrieve_top_k in H.
    apply String.eqb_neq in Hq. unfold PyStr.truthy in H. rewrite Hq in H.
    simpl in H. rewrite Hm in H.
    destruct (citekeys index) as [|ck cks] eqn:Hc.
    + exists []. simpl. split; [reflexivity|].
      intros _. split; [constructor | intros a b []].
    + rewrite Hs in H. cbn [bind_result] in H. injection H as H.
      exists (skipn (Z.to_nat (Z.max 0 top_k))
                (PySort.sort_reverse score_lt (combine (ck :: cks) scores))).
      rewrite <- H at 1. rewrite firstn_skipn.
      split; [apply sort_reverse_perm|].
      intros _. split; [constructor | intros a b []].
  - split; [rewrite length_firstn; lia|]. split.
    + intros ck s Hin. apply In_firstn in Hin.
      apply sort_reverse_In in Hin. now apply in_combine_l in Hin.
    + intros m' scores' Hm' Hs' _.
      rewrite Hm in Hm'. injection Hm' as <-.
      rewrite Hs in Hs'. injection Hs' as <-.
      set (full := PySort.sort_reverse score_lt
                     (combine (citekeys index) scores)).
      set (n := Z.to_nat (Z.max 0 top_k)).
      exists (skipn n full). rewrite firstn_skipn.
      split; [apply sort_reverse_perm|].
      intros Hnum.
      assert (Hsorted : StronglySorted not_below full).
      { apply sort_reverse_scores, combine_numbers, Hnum. }
      rewrite <- (firstn_skipn n full) in Hsorted.
      apply sorted_app in Hsorted as (H1 & _ & H2). auto.
Qed.

End WithSklearn.
End RetrievalFacts.

(* ===================================================================== *)
(** * Properties: the verdicts against a built library *)
(* ===================================================================== *)

Module PipelineFacts.
Import Normalize BbtLibrary RefsExtracted MatchDoc RetrievalTfidf.
Import MatchPipeline ResultProps PyDictFacts LibraryProps LibraryInvariants.
Import PySortProps PipelineProps.

(** The citekey has a record, filed under it. *)
Definition recorded (library : LibraryIndex) (ck : string) : Prop :=
  exists r, PyDict.get ck (records library) = Some r
            /\ citekey r = ck /\ PyStr.truthy ck = true.

(** The candidate was made from the record of its citekey. *)
Definition from_record (library : LibraryIndex) (c : Candidate) : Prop :=
  exists r, PyDict.get (c_citekey c) (records library) = Some r
            /\ c = _candidate_from_record r (c_score c)
            /\ PyStr.truthy (c_citekey c) = true.

Definition statuses : list string :=
  ["matched"; "needs_llm"; "needs_review"; "unmatched"].

Lemma hit_get key index l :
  hit key index = Some l -> exists k, PyDict.get k index = Some l.
Proof.
  unfold hit. destruct key as [k|]; [|discriminate].
  destruct (PyStr.truthy k); [eauto | discriminate].
Qed.

Lemma first_hit_entry ref library ty cks :
  first_hit ref library = Some (ty, cks) ->
  exists index k,
    In index [by_doi library; by_arxiv library; by_url library]
    /\ PyDict.get k index = Some cks.
Proof.
  unfold first_hit, identifier_hits. simpl.
  destruct (hit (normalize_doi _) _) as [l|] eqn:Ed.
  { intros [= _ <-]. apply hit_get in Ed as [k Hk].
    exists (by_doi library), k. auto. }
  destruct (hit (arxiv_norm_of _) _) as [l|] eqn:Ea.
  { intros [= _ <-]. apply hit_get in Ea as [k Hk].
    exists (by_arxiv library), k. auto. }
  destruct (hit (normalize_url _) _) as [l|] eqn:Eu; [|discriminate].
  intros [= _ <-]. apply hit_get in Eu as [k Hk].
  exists (by_url library), k. auto 6.
Qed.

Lemma det_candidates_recorded library cks :
  Forall (recorded library) cks ->
  map c_citekey (det_candidates library cks) = cks
  /\ Forall (from_record library) (det_candidates library cks)
  /\ Forall (fun c => c_score c = 1%float) (det_candidates library cks).
Proof.
  unfold det_candidates.
  induction 1 as [|ck cks (r & Hr & Hk & Ht) _ (IH1 & IH2 & IH3)]; simpl.
  - repeat split; constructor.
  - rewrite Hr. simpl. rewrite IH1, Hk. split; [reflexivity|].
    split; constructor; auto.
    exists r. simpl. rewrite Hk. auto.
Qed.

Section WithRepr.
Variable py_repr : json -> string.

(** The entries of the reverse indexes of a built library list
    recorded citekeys, and at least one. *)
Lemma built_entry data library index k cks :
  build_library_index py_repr data = Ok library ->
  In index [by_doi library; by_arxiv library; by_url library] ->
  PyDict.get k index = Some cks ->
  cks <> [] /\ Forall (recorded library) cks.
Proof.
  intros H Hin Hget.
  pose proof (build_library_index_keyed py_repr _ _ H) as Hkeyed.
  apply build_library_index_tables in H
    as (tb & _ & [_ Hd Ha Hu _ _] & Er & Ed & Ea & Eu & _).
  rewrite <- Er, <- Ed in Hd. rewrite <- Er, <- Ea in Ha.
  rewrite <- Er, <- Eu in Hu. clear Er Ed Ea Eu.
  assert (Hs : index_sound (records library) index).
  { destruct Hin as [<-|[<-|[<-|[]]]]; assumption. }
  destruct Hs as [_ Hs]. destruct (Hs _ _ Hget) as (_ & Hne & Hall).
  split; [exact Hne|]. apply List.Forall_forall. intros ck Hck.
  apply Hall, mem_get in Hck as [r Hr]. exists r.
  destruct (Hkeyed _ _ Hr) as [E Ht]. rewrite E in Ht. auto.
Qed.

Lemma boosted_candidates_from_record data params library ref retrieved :
  build_library_index py_repr data = Ok library ->
  Forall (from_record library)
         (boosted_candidates params library ref retrieved).
Proof.
  intros H.
  pose proof (build_library_index_keyed py_repr _ _ H) as Hkeyed.
  apply List.Forall_forall. intros c Hc.
  unfold boosted_candidates in Hc. apply in_flat_map in Hc
    as ([ck base] & _ & Hc).
  destruct (PyDict.get ck (records library)) as [r|] eqn:E; [|contradiction].
  destruct Hc as [<-|[]]. destruct (Hkeyed _ _ E) as [Hk Ht].
  exists r. simpl. rewrite Hk. rewrite Hk in Ht. auto.
Qed.

End WithRepr.

Lemma classify_status params top others :
  In (status (classify params top others))
     ["matched"; "needs_llm"; "needs_review"].
Proof.
  unfold classify.
  destruct (float_ge _ _ && float_ge _ _); simpl; [auto|].
  destruct (float_ge _ _); simpl; auto.
Qed.

Section WithSklearn.
Variable M : Type.
Variable fit_transform : list string -> result M.
Variable kernel_scores : M -> string -> result (list float).

Abbreviation resolve := (MatchPipeline.resolve M kernel_scores).

(** The status [resolve] gives is one of the four of the data model,
    whatever the library. *)
Lemma resolve_status params library index ref m candidates :
  resolve params library index ref = Ok (m, candidates) ->
  In (status m) statuses.
Proof.
  unfold MatchPipeline.resolve, statuses.
  rewrite deterministic_match_first_hit.
  destruct (first_hit ref library) as [[ty cks]|].
  - destruct cks as [|ck [|ck' cks]]; intros [= <- _]; cbn [status].
    + simpl. auto.
    + simpl. auto.
    + match goal with
      | |- In (match ?l with [] => _ | _ :: _ => _ end) _ => destruct l
      end; simpl; auto.
  - intros H. apply bind_ok in H as (retrieved & _ & H).
    destruct (PySort.sort_reverse cand_lt _) as [|top others];
      injection H as <- _; simpl; [auto 6|].
    pose proof (classify_status params top others) as Hc.
    simpl in Hc. simpl. tauto.
Qed.

(** The deterministic tier, for a reference with an identifier hit. *)
Definition det_verdict (library : LibraryIndex) (ty : string)
    (cks : list string) : Match :=
  match cks with
  | [ck] =>
      {| status := "matched";
         m_citekey := Some ck;
         m_itemKey := match PyDict.get ck (records library) with
                      | Some record => or_none (itemKey record)
                      | None => None
                      end;
         method := ty;
         confidence := det_confidence cks;
         reason := None |}
  | _ =>
      {| status := match det_candidates library cks with
                   | [] => "needs_review"
                   | _ => "needs_llm"
                   end;
         m_citekey := None;
         m_itemKey := None;
         method := ty;
         confidence := det_confidence cks;
         reason := None |}
  end.

Lemma resolve_deterministic params library index ref ty cks :
  first_hit ref library = Some (ty, cks) ->
  resolve params library index ref
  = Ok (det_verdict library ty cks, det_candidates library cks).
Proof.
  intros H. unfold MatchPipeline.resolve.
  rewrite deterministic_match_first_hit, H.
  destruct cks as [|ck [|ck' cks]]; reflexivity.
Qed.


(** X7. Against a library built by [build_library_index], the verdict of
    a reference agrees with its candidates: the status is one of the
    four of the data model; it is [unmatched] exactly when there is no
    candidate; a citekey is given exactly when the status is [matched],
    and then it is the citekey of one of the candidates, whose item key
    is the one given; and every candidate was made from the library
    record of its citekey. *)
Theorem verdict_agrees_with_candidates (py_repr : json -> string)
    (data : json) (params : MatchParams) (library : LibraryIndex)
    (index : TfidfRetrievalIndex M) (ref : Reference) (m : Match)
    (candidates : list Candidate) :
  build_library_index py_repr data = Ok library ->
  resolve params library index ref = Ok (m, candidates) ->
  In (status m) statuses
  /\ (status m = "unmatched" <-> candidates = [])
  /\ (status m = "matched" <-> m_citekey m <> None)
  /\ (forall ck, m_citekey m = Some ck ->
        exists c, In c candidates /\ c_citekey c = ck
                  /\ m_itemKey m = or_none (c_itemKey c))
  /\ Forall (from_record library) candidates.
Proof.
  intros Hlib Hres.
  split; [eapply resolve_status; eauto|].
  destruct (first_hit ref library) as [[ty cks]|] eqn:Hhit.
  - destruct (first_hit_entry _ _ _ _ Hhit) as (ix & k & Hix & Hget).
    destruct (built_entry py_repr _ _ _ _ _ Hlib Hix Hget) as [Hne Hrec].
    destruct (det_candidates_recorded _ _ Hrec) as (Hmap & Hfrom & _).
    rewrite (resolve_deterministic _ _ _ _ _ _ Hhit) in Hres.
    injection Hres as <- <-.
    assert (Hcands : det_candidates library cks <> []).
    { intros E. rewrite E in Hmap. simpl in Hmap. congruence. }
    unfold det_verdict.
    destruct cks as [|ck [|ck' cks]]; [congruence| |];
      cbn [status m_citekey m_itemKey].
    + split; [split; [discriminate | intros E; now rewrite E in Hcands]|].
      split; [split; [discriminate | reflexivity]|].
      split; [|exact Hfrom].
      intros ck0 [= <-]. inversion Hrec as [|? ? (r & Hr & Hk & Ht) _]; subst.
      exists (_candidate_from_record r 1).
      unfold det_candidates. simpl. rewrite Hr. simpl.
      repeat split; auto.
    + split.
      { destruct (det_candidates library (ck :: ck' :: cks)) eqn:E;
          [congruence|]. split; discriminate. }
      split.
      { destruct (det_candidates library (ck :: ck' :: cks)) eqn:E;
          [congruence|]. split; [discriminate | congruence]. }
      split; [discriminate | exact Hfrom].
  - destruct (resolve_lexical _ _ _ _ _ _ _ _ Hhit Hres)
      as (retrieved & Hc & ->).
    assert (Hfrom : Forall (from_record library) candidates).
    { rewrite Hc. eapply Permutation_Forall;
        [symmetry; apply sort_reverse_perm|].
      eapply boosted_candidates_from_record; eauto. }
    destruct candidates as [|top others].
    + simpl. repeat split; auto; try discriminate; congruence.
    + inversion Hfrom as [|? ? (r & Hr & Ec & Ht) _]; subst.
      pose proof (classify_status params top others) as Hst.
      unfold classify in *.
      destruct (float_ge _ _ && float_ge _ _); cbn [status m_citekey m_itemKey] in *.
      * unfold or_none at 1 2. rewrite Ht.
        split; [split; discriminate|].
        split; [split; [discriminate | reflexivity]|].
        split; [|exact Hfrom].
        intros ck [= <-]. exists top. split; [now left | auto].
      * destruct (float_ge _ _); cbn [status m_citekey m_itemKey] in *.
        -- split; [split; discriminate|].
           split; [split; [discriminate | congruence]|].
           split; [discriminate | exact Hfrom].
        -- split; [split; discriminate|].
           split; [split; [discriminate | congruence]|].
           split; [discriminate | exact Hfrom].
Qed.

End WithSklearn.
End PipelineFacts.

(* ===================================================================== *)
(** * Properties: the match result as a whole *)
(* ===================================================================== *)

Module MatchResultFacts.
Import Normalize BbtLibrary RefsExtracted MatchDoc RetrievalTfidf.
Import MatchPipeline ResultProps PipelineProps PipelineFacts.

(** An input reference and the entry emitted for it. *)
Definition carried (ref : Reference) (out : MatchRef) : Prop :=
  r_ref_id out = ref_id ref
  /\ r_raw_text out = raw_text ref
  /\ r_parsed out = parsed ref
  /\ r_line_start out = (if (line_start ref =? 0)%Z then (-1)%Z
                         else line_start ref)
  /\ r_line_end out = (if (line_end ref =? 0)%Z then (-1)%Z
                       else line_end ref)
  /\ exists m, r_match out = Some m /\ In (status m) statuses.

Lemma zero_stats_of : zero_stats = ApplyProps.stats_of 0 0 0 0 0.
Proof. reflexivity. Qed.

Lemma current_status_emit ref m candidates :
  In (status m) statuses ->
  ApplyProps.current_status (emit ref m candidates) = status m
  /\ ApplyProps.current_status (emit ref m candidates) <> "total".
Proof.
  unfold ApplyProps.current_status, ApplyLlmDecisions.status_or_unmatched.
  simpl. intros [<-|[<-|[<-|[<-|[]]]]]; simpl; split;
    (reflexivity || discriminate).
Qed.

(** The counters the loop bumps for a reference are those
    [_recompute_stats] bumps for the entry emitted. *)
Lemma bump_is_tally ref m candidates t a b c d :
  In (status m) statuses ->
  bump (status m) (bump "total" (ApplyProps.stats_of t a b c d))
  = ApplyLlmDecisions.tally (ApplyProps.stats_of t a b c d)
                            (emit ref m candidates).
Proof.
  intros Hst. rewrite ApplyProps.tally_by_status.
  destruct (current_status_emit ref m candidates Hst) as [-> _].
  rewrite ApplyProps.bump_total, ApplyProps.lookup_stats_of.
  destruct Hst as [<-|[<-|[<-|[<-|[]]]]]; reflexivity.
Qed.

Section WithSklearn.
Variable M : Type.
Variable fit_transform : list string -> result M.
Variable kernel_scores : M -> string -> result (list float).

Abbreviation resolve := (MatchPipeline.resolve M kernel_scores).
Abbreviation resolve_ref := (MatchPipeline.resolve_ref M kernel_scores).
Abbreviation build_initial_match_result :=
  (MatchPipeline.build_initial_match_result M fit_transform kernel_scores).

Lemma emitted_carried params library index ref out :
  emitted M kernel_scores params library index ref out -> carried ref out.
Proof.
  intros (m & candidates & Hres & ->). unfold carried, emit, or_minus_one.
  simpl. repeat split. exists m. split; [reflexivity|].
  eapply resolve_status; eauto.
Qed.

(** X8. The match result has one entry per input reference, in the
    order of the input: the entry carries the reference's id, raw text
    and parsed fields unchanged, its line numbers with 0 replaced by -1,
    and a match whose status is one of the four of the data model. *)
Theorem references_are_carried_in_order (py_repr : json -> string)
    (params : MatchParams) (refs_extracted : RefsExtracted)
    (library_data : json) (res : MatchResult) :
  build_initial_match_result py_repr params refs_extracted library_data
  = Ok res ->
  Forall2 carried (RefsExtracted.refs refs_extracted)
          (MatchPipeline.refs res).
Proof.
  intros H.
  apply build_initial_match_result_refs in H as (library & index & _ & _ & H).
  eapply Forall2_impl; [exact H|].
  intros ref out. apply emitted_carried.
Qed.

(** The loop keeps the counters equal to the recount of the entries
    emitted so far. *)
Definition counted (acc : list MatchRef * gmap string nat) : Prop :=
  snd acc = ApplyLlmDecisions._recompute_stats (fst acc)
  /\ Forall (fun r => In (ApplyProps.current_status r) statuses) (fst acc).

Lemma statuses_not_total (refs : list MatchRef) :
  Forall (fun r => In (ApplyProps.current_status r) statuses) refs ->
  Forall (fun r => ApplyProps.current_status r <> "total") refs.
Proof.
  intros H. eapply Forall_impl; [exact H|]. simpl.
  intros r [<-|[<-|[<-|[<-|[]]]]]; discriminate.
Qed.

Lemma resolve_ref_counted params library index acc ref acc' :
  counted acc ->
  resolve_ref params library index acc ref = Ok acc' ->
  counted acc'.
Proof.
  destruct acc as [refs_out stats0]. intros [Hs Hall] H. simpl in Hs, Hall.
  unfold MatchPipeline.resolve_ref in H.
  apply bind_ok in H as ([m candidates] & Hres & [= <-]).
  apply resolve_status in Hres.
  destruct (current_status_emit ref m candidates Hres) as [Hcur _].
  unfold counted. simpl. split.
  - unfold ApplyLlmDecisions._recompute_stats in *.
    rewrite fold_left_app. simpl. rewrite <- Hs.
    rewrite Hs, zero_stats_of, ApplyProps.tally_all
      by now apply statuses_not_total.
    apply bump_is_tally. exact Hres.
  - apply Forall_app. split; [exact Hall|]. constructor; [|constructor].
    now rewrite Hcur.
Qed.

(** X9. The [stats] of the match result are what [_recompute_stats] of
    apply_llm_decisions.py computes from its references: [total] is the
    number of references and each of the four statuses counts the
    references with that status. *)
Theorem stats_count_the_references (py_repr : json -> string)
    (params : MatchParams) (refs_extracted : RefsExtracted)
    (library_data : json) (res : MatchResult) :
  build_initial_match_result py_repr params refs_extracted library_data
  = Ok res ->
  MatchPipeline.stats res
  = ApplyLlmDecisions._recompute_stats (MatchPipeline.refs res)
  /\ MatchPipeline.stats res
     = ApplyProps.stats_of
         (Datatypes.length (RefsExtracted.refs refs_extracted))
         (ApplyProps.count_status "matched" (MatchPipeline.refs res))
         (ApplyProps.count_status "needs_llm" (MatchPipeline.refs res))
         (ApplyProps.count_status "needs_review" (MatchPipeline.refs res))
         (ApplyProps.count_status "unmatched" (MatchPipeline.refs res)).
Proof.
  intros H.
  assert (Hlen : Datatypes.length (MatchPipeline.refs res)
                 = Datatypes.length (RefsExtracted.refs refs_extracted)).
  { apply build_initial_match_result_refs in H
      as (library & index & _ & _ & H).
    symmetry. eapply Forall2_length; eauto. }
  unfold MatchPipeline.build_initial_match_result in H.
  apply bind_ok in H as (library & _ & H).
  apply bind_ok in H as (index & _ & H).
  apply bind_ok in H as ([refs_out stats0] & Hloop & [= <-]).
  simpl in *.
  assert (Hc : counted (refs_out, stats0)).
  { eapply (for_each_invariant counted); [| |exact Hloop].
    - intros s x s'. apply resolve_ref_counted.
    - split; [reflexivity | constructor]. }
  destruct Hc as [Hs Hall]. simpl in Hs, Hall.
  split; [exact Hs|].
  rewrite Hs, (ApplyProps.recompute_stats_is_tally _
                 (statuses_not_total _ Hall)).
  unfold ApplyProps.tally_from_scratch. rewrite Hlen. f_equal.
  unfold ApplyProps.count_unmatched, ApplyProps.count_status.
  f_equal. apply filter_ext_in. intros r Hr.
  rewrite List.Forall_forall in Hall. specialize (Hall r Hr). simpl in Hall.
  destruct Hall as [<-|[<-|[<-|[<-|[]]]]]; reflexivity.
Qed.

(** The titles [build_tfidf_index] hands to the vectorizer. *)
Definition library_titles (library : LibraryIndex) : list string :=
  map (fun '(_, r) => title r) (PyDict.items (records library)).

(** Scoring against the matrix of [index], if it has one, raises
    nothing. *)
Definition scores_any_query (index : TfidfRetrievalIndex M) : Prop :=
  forall m, matrix index = Some m -> forall q, is_ok (kernel_scores m q).

Lemma retrieve_top_k_returns (index : TfidfRetrievalIndex M) query top_k :
  scores_any_query index ->
  is_ok (retrieve_top_k M kernel_scores index query top_k).
Proof.
  intros Hk. unfold retrieve_top_k.
  destruct (PyStr.truthy _); [|exact I].
  destruct (citekeys index); [exact I|].
  destruct (matrix index) as [m|] eqn:Hm; [|exact I].
  specialize (Hk m Hm (PyStr.strip query)).
  destruct (kernel_scores m _); [exact I | contradiction].
Qed.

Lemma resolve_returns params library index ref :
  scores_any_query index ->
  is_ok (resolve params library index ref).
Proof.
  intros Hk. unfold MatchPipeline.resolve.
  rewrite deterministic_match_first_hit.
  destruct (first_hit ref library) as [[ty cks]|].
  - destruct cks as [|ck [|ck' cks]]; exact I.
  - pose proof (retrieve_top_k_returns index (_select_query_text ref)
                  (top_k params) Hk) as Hr.
    destruct (retrieve_top_k _ _ _ _ _) as [retrieved|]; [|contradiction].
    simpl. destruct (PySort.sort_reverse _ _); exact I.
Qed.

Lemma build_tfidf_index_returns (library : LibraryIndex) :
  (library_titles library <> [] ->
   exists m, fit_transform (library_titles library) = Ok m
             /\ forall q, is_ok (kernel_scores m q)) ->
  exists index,
    build_tfidf_index M fit_transform (records library) = Ok index
    /\ scores_any_query index.
Proof.
  unfold build_tfidf_index. fold (library_titles library).
  destruct (library_titles library) as [|t ts]; intros Hfit.
  - eexists. split; [reflexivity|]. intros m Hm. discriminate Hm.
  - destruct Hfit as (m & -> & Hk); [discriminate|].
    eexists. split; [reflexivity|]. intros m' [= <-]. exact Hk.
Qed.

(** X10. [build_initial_match_result] returns a match result whenever
    every item of the export can be summarized and, unless the library
    built from the export has no record, scikit-learn fits the titles of
    its records without raising and then scores any query against them
    without raising; the result has an entry for every input
    reference. *)
Theorem match_result_is_returned (py_repr : json -> string)
    (params : MatchParams) (refs_extracted : RefsExtracted)
    (library_data : json) :
  Forall (fun it => is_ok (summarize_item py_repr it))
         (iter_library_items library_data) ->
  (forall library,
     build_library_index py_repr library_data = Ok library ->
     library_titles library <> [] ->
     exists m, fit_transform (library_titles library) = Ok m
               /\ forall q, is_ok (kernel_scores m q)) ->
  exists res,
    build_initial_match_result py_repr params refs_extracted library_data
    = Ok res
    /\ Datatypes.length (MatchPipeline.refs res)
       = Datatypes.length (RefsExtracted.refs refs_extracted).
Proof.
  intros Hitems Hfit.
  assert (Hlib : is_ok (build_library_index py_repr library_data)).
  { unfold build_library_index.
    assert (Htot : is_ok (for_each (index_item py_repr)
                            (iter_library_items library_data) no_tables)).
    { apply for_each_total. eapply Forall_impl; [exact Hitems|].
      intros it Hit tb. unfold index_item. simpl in Hit.
      destruct (summarize_item py_repr it) as [[s|]|]; simpl; auto. }
    destruct (for_each _ _ _); [exact I | contradiction]. }
  destruct (MatchPipeline.build_initial_match_result M fit_transform
              kernel_scores py_repr params refs_extracted library_data)
    as [res|e] eqn:E.
  - exists res. split; [reflexivity|].
    apply build_initial_match_result_refs in E
      as (library & index & _ & _ & H).
    symmetry. eapply Forall2_length; eauto.
  - exfalso. unfold MatchPipeline.build_initial_match_result in E.
    destruct (build_library_index py_repr library_data) as [library|]
      eqn:Hlibrary; [|contradiction].
    cbn [bind_result] in E.
    destruct (build_tfidf_index_returns library (Hfit library eq_refl))
      as (index & Hindex & Hk).
    rewrite Hindex in E. cbn [bind_result] in E.
    assert (Hloop : is_ok (for_each (resolve_ref params library index)
                             (RefsExtracted.refs refs_extracted)
                             ([], zero_stats))).
    { apply for_each_total. apply List.Forall_forall.
      intros ref _ [refs_out stats0]. unfold MatchPipeline.resolve_ref.
      pose proof (resolve_returns params library index ref Hk) as Hr.
      destruct (resolve params library index ref) as [[m c]|];
        [exact I | contradiction]. }
    destruct (for_each _ _ _) as [[refs_out stats0]|];
      [discriminate E | contradiction].
Qed.

End WithSklearn.
End MatchResultFacts.

(* ===================================================================== *)
(** * The verdicts and the match result on a small library *)
(* ===================================================================== *)

Module MatchExamples.
Import Normalize BbtLibrary RefsExtracted MatchDoc RetrievalTfidf.
Import MatchPipeline ResultProps PipelineProps PipelineExamples.
Import RetrievalFacts PipelineFacts MatchResultFacts.

Definition top_two : list (string * float) :=
  [("smith2020", 0.95%float); ("jones2019", 0.91%float)].

Lemma retrieve_top_k_returns_the_best_witness :
  (Datatypes.length top_two <= Z.to_nat (Z.max 0 2))%nat
  /\ (forall ck s, In (ck, s) top_two -> In ck (citekeys index))
  /\ forall m scores0,
       matrix index = Some m ->
       scores m (PyStr.strip "deep ") = Ok scores0 ->
       PyStr.strip "deep " <> "" ->
       exists rest,
         Permutation (top_two ++ rest) (combine (citekeys index) scores0)
         /\ (Forall FloatOrder.is_number scores0 ->
             StronglySorted not_below top_two
             /\ forall a b, In a top_two -> In b rest -> not_below a b).
Proof.
  apply (retrieve_top_k_returns_the_best unit scores index "deep " 2 top_two).
  vm_compute. reflexivity.
Defined.

Definition dup_cands : list Candidate :=
  [_candidate_from_record
     (summary "jones2019" "Deep learning of citations" None "10.1000/dup") 1;
   _candidate_from_record
     (summary "lee2018" "Shallow learning" None
              "https://doi.org/10.1000/DUP") 1].


Lemma verdict_agrees_with_candidates_witness :
  In (status plain_verdict) statuses
  /\ (status plain_verdict = "unmatched"
      <-> [first_cand; second_cand; third_cand] = [])
  /\ (status plain_verdict = "matched" <-> m_citekey plain_verdict <> None)
  /\ (forall ck, m_citekey plain_verdict = Some ck ->
        exists c, In c [first_cand; second_cand; third_cand]
                  /\ c_citekey c = ck
                  /\ m_itemKey plain_verdict = or_none (c_itemKey c))
  /\ Forall (from_record library) [first_cand; second_cand; third_cand].
Proof.
  apply (verdict_agrees_with_candidates unit scores no_repr export
           default_params library index ref_plain);
    vm_compute; reflexivity.
Defined.

(** The match result for [ref_abc] and [ref_plain] against [export]. *)
Definition abc_verdict : Match :=
  {| status := "matched"; m_citekey := Some "smith2020"; m_itemKey := None;
     method := "doi"; confidence := 0.99; reason := None |}.

Definition abc_cand : Candidate :=
  _candidate_from_record
    (summary "smith2020" "Deep learning for citations" (Some "2020")
             "10.1000/abc") 1.

Definition match_result : MatchResult :=
  {| meta_warnings := ["Duplicate DOI index for 10.1000/dup: "];
     library_item_count := 3;
     library_total_item_count := 3;
     MatchPipeline.refs :=
       [emit ref_abc abc_verdict [abc_cand];
        emit ref_plain plain_verdict [first_cand; second_cand; third_cand]];
     MatchPipeline.stats := ApplyProps.stats_of 2 1 1 0 0 |}.

Lemma match_result_built :
  build_initial_match_result unit fit scores no_repr default_params
    two_refs export = Ok match_result.
Proof. vm_compute. reflexivity. Qed.

Lemma references_are_carried_in_order_witness :
  Forall2 carried (RefsExtracted.refs two_refs)
          (MatchPipeline.refs match_result).
Proof.
  apply (references_are_carried_in_order unit fit scores no_repr
           default_params two_refs export match_result).
  vm_compute. reflexivity.
Defined.

Lemma stats_count_the_references_witness :
  MatchPipeline.stats match_result
  = ApplyLlmDecisions._recompute_stats (MatchPipeline.refs match_result)
  /\ MatchPipeline.stats match_result
     = ApplyProps.stats_of
         (Datatypes.length (RefsExtracted.refs two_refs))
         (ApplyProps.count_status "matched" (MatchPipeline.refs match_result))
         (ApplyProps.count_status "needs_llm"
            (MatchPipeline.refs match_result))
         (ApplyProps.count_status "needs_review"
            (MatchPipeline.refs match_result))
         (ApplyProps.count_status "unmatched"
            (MatchPipeline.refs match_result)).
Proof.
  apply (stats_count_the_references unit fit scores no_repr default_params
           two_refs export match_result).
  vm_compute. reflexivity.
Defined.

(** A stand-in for scikit-learn that, like [TfidfVectorizer], refuses
    titles none of which holds a word; the score of a title is 1 when it
    is the query up to letter case and 0 otherwise. *)
Definition fit_titles (titles : list string) : result (list string) :=
  if forallb (fun t => negb (PyStr.truthy (PyStr.strip t))) titles
  then Raise SklearnError
  else Ok titles.

Definition same_title_scores (fitted : list string) (query : string)
  : result (list float) :=
  Ok (map (fun t => if String.eqb (PyStr.lower t) (PyStr.lower query)
                    then 1%float else 0%float)
          fitted).

Example no_vocabulary_is_refused :
  fit_titles [""; "  "] = Raise SklearnError.
Proof. reflexivity. Qed.

Lemma match_result_is_returned_witness :
  exists res,
    build_initial_match_result (list string) fit_titles same_title_scores
      no_repr default_params two_refs export = Ok res
    /\ Datatypes.length (MatchPipeline.refs res)
       = Datatypes.length (RefsExtracted.refs two_refs).
Proof.
  apply (match_result_is_returned (list string) fit_titles
           same_title_scores no_repr default_params two_refs export).
  - repeat constructor.
  - intros library0 Hlibrary _.
    assert (Hsame : library0 = library).
    { assert (H : build_library_index no_repr export = Ok library)
        by (vm_compute; reflexivity).
      rewrite H in Hlibrary. now injection Hlibrary. }
    subst library0.
    exists (library_titles library). split.
    + vm_compute. reflexivity.
    + intros q. exact I.
Defined.

End MatchExamples.

(* ===================================================================== *)
(** * Properties: the merge of the decisions as a whole *)
(* ===================================================================== *)

Module ApplyFacts.
Import MatchDoc ApplyLlmDecisions ResultProps ApplyProps.







(** ** What the merge changes *)

(** Everything of a reference but its match. *)
Definition rest_of (ref : MatchRef)
  : string * Z * Z * string * RefsExtracted.Parsed * list Candidate :=
  (r_ref_id ref, r_line_start ref, r_line_end ref, r_raw_text ref,
   r_parsed ref, r_candidates ref).




Lemma rest_of_frame ref ref' :
  rest_of ref' = rest_of ref -> frame ref' = frame ref.
Proof. unfold rest_of, frame. intros [= -> _ _ _ _ ->]. reflexivity. Qed.



Section WithBuiltins.
Variable py_repr : json -> string.
Variable py_float : json -> option float.

Abbreviation step := (apply_decision py_repr py_float).
Abbreviation apply_llm_decisions :=
  (ApplyLlmDecisions.apply_llm_decisions py_repr py_float).







(** ** When the merge returns *)





(** ** The warnings *)





End WithBuiltins.
End ApplyFacts.

Module MergeExamples.
Import MatchDoc ApplyLlmDecisions ApplyProps ApplyExamples ApplyFacts.


(** Three decisions: one without an id, one for an id no reference has,
    one that is placed. *)
Definition three_decisions : list json :=
  [decision "  " JNull; decision "r9" JNull;
   decision "r1" (JStr "jones2019")].

Definition merged_three : ApplyResult :=
  Eval vm_compute in
    match apply_llm_decisions no_repr no_float doc
            (decisions_doc three_decisions) with
    | Ok res => res
    | Raise _ => {| updated := doc; warnings := [] |}
    end.


Example merged_three_warnings :
  warnings merged_three
  = ["Skipped decision with empty ref_id";
     "Decision ref_id not found in match_result.json: r9"].
Proof. reflexivity. Qed.

End MergeExamples.

(* ===================================================================== *)
(** * Properties: strings *)
(* ===================================================================== *)

Module PyStrFacts.

Lemma chars_str (l : list ascii) : PyStr.chars (PyStr.str l) = l.
Proof. apply list_ascii_of_string_of_list_ascii. Qed.

Lemma str_chars (s : string) : PyStr.str (PyStr.chars s) = s.
Proof. apply string_of_list_ascii_of_string. Qed.

Lemma truthy_ne (s : string) : PyStr.truthy s = true <-> s <> "".
Proof.
  unfold PyStr.truthy. destruct (String.eqb_spec s ""); simpl;
    split; congruence.
Qed.

Lemma or_none_some (s t : string) :
  or_none s = Some t -> t = s /\ s <> "".
Proof.
  unfold or_none. destruct (PyStr.truthy s) eqn:E; [|discriminate].
  intros [= <-]. split; [reflexivity | now apply truthy_ne].
Qed.

Section Strip.
Variable p : ascii -> bool.

(** The list does not begin with a character of the class. *)
Definition clear_head (l : list ascii) : Prop :=
  match l with c :: _ => p c = false | [] => True end.

(** The list does not end with a character of the class. *)
Definition clear_last (l : list ascii) : Prop := clear_head (rev l).

Lemma dropwhile_clear l : clear_head (PyStr.dropwhile p l).
Proof.
  induction l as [|c l IH]; simpl; [exact I|].
  destruct (p c) eqn:E; [exact IH | exact E].
Qed.

Lemma dropwhile_id l : clear_head l -> PyStr.dropwhile p l = l.
Proof. destruct l as [|c l]; simpl; [reflexivity | now intros ->]. Qed.

Lemma dropwhile_suffix l :
  exists a, l = a ++ PyStr.dropwhile p l /\ Forall (fun c => p c = true) a.
Proof.
  induction l as [|c l (a & Ha & Hp)]; simpl.
  - exists []. split; [reflexivity | constructor].
  - destruct (p c) eqn:E.
    + exists (c :: a). simpl. split; [now f_equal | now constructor].
    + exists []. split; [reflexivity | constructor].
Qed.

Lemma dropwhile_snoc_clear l c :
  p c = false ->
  exists t, PyStr.dropwhile p (l ++ [c]) = t ++ [c].
Proof.
  intros Hc. induction l as [|a l (t & Ht)]; simpl.
  - rewrite Hc. now exists [].
  - destruct (p a); [eauto|]. now exists (a :: l).
Qed.

Lemma rstrip_clear_last l : clear_last (PyStr.rstrip_by p l).
Proof.
  unfold clear_last, PyStr.rstrip_by. rewrite rev_involutive.
  apply dropwhile_clear.
Qed.

Lemma rstrip_keeps_head l : clear_head l -> clear_head (PyStr.rstrip_by p l).
Proof.
  unfold PyStr.rstrip_by. destruct l as [|c l]; simpl; [auto|].
  intros Hc. destruct (dropwhile_snoc_clear (rev l) c Hc) as (t & ->).
  rewrite rev_app_distr. simpl. exact Hc.
Qed.

Lemma rstrip_id l : clear_last l -> PyStr.rstrip_by p l = l.
Proof.
  unfold clear_last, PyStr.rstrip_by. intros H.
  rewrite dropwhile_id by exact H. apply rev_involutive.
Qed.

Lemma rstrip_prefix l :
  exists b, l = PyStr.rstrip_by p l ++ b /\ Forall (fun c => p c = true) b.
Proof.
  unfold PyStr.rstrip_by.
  destruct (dropwhile_suffix (rev l)) as (a & Ha & Hp).
  exists (rev a). split.
  - rewrite <- rev_app_distr, <- Ha. symmetry. apply rev_involutive.
  - apply Forall_rev. exact Hp.
Qed.

Lemma strip_clear l :
  clear_head (PyStr.strip_by p l) /\ clear_last (PyStr.strip_by p l).
Proof.
  unfold PyStr.strip_by, PyStr.lstrip_by. split.
  - apply rstrip_keeps_head, dropwhile_clear.
  - apply rstrip_clear_last.
Qed.

Lemma strip_id l :
  clear_head l -> clear_last l -> PyStr.strip_by p l = l.
Proof.
  intros Hh Hl. unfold PyStr.strip_by, PyStr.lstrip_by.
  rewrite dropwhile_id by exact Hh. now apply rstrip_id.
Qed.

Lemma strip_by_idem l :
  PyStr.strip_by p (PyStr.strip_by p l) = PyStr.strip_by p l.
Proof. apply strip_id; apply strip_clear. Qed.

(** The stripped list is a segment of the list. *)
Lemma strip_segment l :
  exists a b, l = a ++ PyStr.strip_by p l ++ b
              /\ Forall (fun c => p c = true) a
              /\ Forall (fun c => p c = true) b.
Proof.
  unfold PyStr.strip_by, PyStr.lstrip_by.
  destruct (dropwhile_suffix l) as (a & Ha & Hpa).
  destruct (rstrip_prefix (PyStr.dropwhile p l)) as (b & Hb & Hpb).
  exists a, b. split; [|auto]. rewrite <- Hb. exact Ha.
Qed.

End Strip.

Lemma strip_idem (s : string) : PyStr.strip (PyStr.strip s) = PyStr.strip s.
Proof. unfold PyStr.strip. now rewrite chars_str, strip_by_idem. Qed.

(** ASCII text: every character has a code below 128.  On such text the
    classes of the model ([isspace], [isdigit], [isword], the letters
    [lower] and [re.IGNORECASE] fold) are those of Python's [str] and
    [re], which beyond ASCII follow the Unicode database. *)
Definition ascii_text (s : string) : bool :=
  forallb (fun c => (PyStr.code c <? 128)%nat) (PyStr.chars s).

End PyStrFacts.

(* ===================================================================== *)
(** * Properties: the references as loaded *)
(* ===================================================================== *)

Module RefsFacts.
Import Normalize RefsExtracted RefsProps PyStrFacts.

Definition trimmed (s : string) : Prop := PyStr.strip s = s.

(** A field is absent, or a trimmed text that is not empty. *)
Definition field_ok (o : option string) : Prop :=
  forall s, o = Some s -> s <> "" /\ trimmed s.

Definition well_formed (ref : Reference) : Prop :=
  raw_text ref <> "" /\ trimmed (raw_text ref) /\ trimmed (ref_id ref)
  /\ Forall field_ok
       [p_doi (parsed ref); p_url (parsed ref); p_arxiv (parsed ref);
        p_year (parsed ref); p_title_guess (parsed ref);
        p_author_guess (parsed ref)].

Definition refs_keys : list string := ["refs"; "references"; "items"].

Section WithRepr.
Variable py_repr : json -> string.

Lemma clean_ok v : field_ok (clean py_repr v).
Proof.
  intros s. unfold clean.
  destruct v; try discriminate;
    intros H; apply or_none_some in H as [-> Hne];
    (split; [exact Hne | apply strip_idem]).
Qed.

Lemma normalize_parsed_ok raw p :
  Forall field_ok
    [p_doi (_normalize_parsed py_repr raw p);
     p_url (_normalize_parsed py_repr raw p);
     p_arxiv (_normalize_parsed py_repr raw p);
     p_year (_normalize_parsed py_repr raw p);
     p_title_guess (_normalize_parsed py_repr raw p);
     p_author_guess (_normalize_parsed py_repr raw p)].
Proof.
  unfold _normalize_parsed. simpl.
  repeat (apply List.Forall_cons; [apply clean_ok|]). apply List.Forall_nil.
Qed.

Lemma stripped_or_empty_trimmed v : trimmed (stripped_or_empty py_repr v).
Proof.
  unfold stripped_or_empty, trimmed.
  destruct v; try apply strip_idem. reflexivity.
Qed.

Lemma normalize_ref_well_formed entry warnings ref warnings' :
  _normalize_ref py_repr entry warnings = (Some ref, warnings') ->
  well_formed ref.
Proof.
  unfold _normalize_ref. destruct entry as [| | | |s| |obj]; try discriminate.
  - destruct (PyStr.truthy (PyStr.strip s)) eqn:E; simpl; [|discriminate].
    intros [= <- _]. split; [now apply truthy_ne|].
    split; [apply strip_idem|]. split; [reflexivity|].
    apply normalize_parsed_ok.
  - destruct (PyStr.truthy (stripped_or_empty py_repr
                              (raw_text_of py_repr obj))) eqn:E; simpl;
      [|discriminate].
    destruct (_extract_line_range obj warnings) as [[ls le] w].
    intros [= <- _]. split; [now apply truthy_ne|].
    split; [apply stripped_or_empty_trimmed|].
    split; [apply stripped_or_empty_trimmed|].
    apply normalize_parsed_ok.
Qed.

Lemma kept_well_formed entries :
  Forall well_formed (kept py_repr entries)
  /\ (Datatypes.length (kept py_repr entries)
      <= Datatypes.length entries)%nat.
Proof.
  induction entries as [|e entries [IH1 IH2]].
  - split; [constructor | reflexivity].
  - change (e :: entries) with ([e] ++ entries).
    rewrite kept_app, length_app. unfold kept at 1 3. simpl.
    destruct (_normalize_ref py_repr e []) as [[r|] w] eqn:E; simpl.
    + split; [|lia]. constructor; [|exact IH1].
      eapply normalize_ref_well_formed; eauto.
    + split; [exact IH1 | lia].
Qed.

Lemma load_refs_kept data :
  refs (load_refs_extracted py_repr data)
  = kept py_repr (fst (refs_list (snd (fst (select_refs data)))
                                 (snd (select_refs data)))).
Proof.
  unfold load_refs_extracted.
  destruct (select_refs data) as [[meta raw] w0]. simpl.
  destruct (refs_list raw w0) as [l w1]. simpl.
  rewrite normalize_all_from. simpl.
  destruct (normalize_all py_repr l [] []); reflexivity.
Qed.

(** X15. Every reference [load_refs_extracted] returns has a raw text
    that is trimmed and not empty, a trimmed id, and parsed fields each
    of which is absent or a trimmed text that is not empty; and there are
    no more references than entries under the first of the keys [refs],
    [references], [items] the document has. *)
Theorem loaded_references_are_well_formed (data : json) :
  Forall well_formed (refs (load_refs_extracted py_repr data))
  /\ forall m entries,
       data = JObj m ->
       _first_present m refs_keys = JList entries ->
       (Datatypes.length (refs (load_refs_extracted py_repr data))
        <= Datatypes.length entries)%nat.
Proof.
  rewrite load_refs_kept. split; [apply kept_well_formed|].
  intros m entries -> Hm. unfold select_refs. cbn [fst snd].
  unfold refs_keys in Hm. rewrite Hm. cbn [refs_list fst].
  apply kept_well_formed.
Qed.

(** X16. A document that holds no list under the first of the keys
    [refs], [references], [items] it has gives no reference and says
    why: a document that is not an object is warned about by its type and
    as having no refs, a missing or null value as having no refs, any
    other value as not being a list.  The first key present decides: a
    null [refs] hides a list under [references]. *)
Theorem document_without_a_list_gives_no_references (data : json) :
  (forall m entries,
     data = JObj m -> _first_present m refs_keys <> JList entries) ->
  refs (load_refs_extracted py_repr data) = []
  /\ RefsExtracted.warnings (load_refs_extracted py_repr data)
     = match data with
       | JObj m =>
           match _first_present m refs_keys with
           | JNull => [no_refs_warning]
           | v => ["refs is not a list (got " +:+ type_name v
                     +:+ "); treating as empty"]
           end
       | _ => ["Unexpected top-level JSON type: " +:+ type_name data;
               no_refs_warning]
       end.
Proof.
  intros Hno. unfold load_refs_extracted, select_refs.
  destruct data as [| | | | | |m]; try (split; reflexivity).
  specialize (Hno m). unfold refs_keys in *.
  destruct (_first_present m ["refs"; "references"; "items"])
    as [| | | | |l|]; try (split; reflexivity).
  exfalso. now apply (Hno l).
Qed.

End WithRepr.
End RefsFacts.

Module RefsExamples.
Import RefsExtracted RefsProps RefsFacts.

(** A null [refs] beside a list under [references]. *)
Definition shadowed : json :=
  JObj [("refs", JNull); ("references", JList [JStr "Smith 2019"])].

Lemma document_without_a_list_gives_no_references_witness :
  refs (load_refs_extracted no_repr shadowed) = []
  /\ RefsExtracted.warnings (load_refs_extracted no_repr shadowed)
     = [no_refs_warning].
Proof.
  apply (document_without_a_list_gives_no_references no_repr shadowed).
  intros m entries [= <-]. discriminate.
Defined.

End RefsExamples.

(* ===================================================================== *)
(** * Properties: the warnings from the references to the match result *)
(* ===================================================================== *)

Module WarningFacts.
Import BbtLibrary RefsExtracted MatchDoc RetrievalTfidf MatchPipeline.
Import ResultProps PyDictProps.

Definition nonblank (w : string) : bool := PyStr.truthy (PyStr.strip w).

Section WithSklearn.
Variable M : Type.
Variable fit_transform : list string -> result M.
Variable kernel_scores : M -> string -> result (list float).
Variable py_repr : json -> string.

(** The [warnings] member of the meta ends with the warnings added. *)
Lemma with_warnings_get meta ws :
  exists old,
    Json.get "warnings" (with_warnings meta ws) = JList (old ++ map JStr ws).
Proof.
  unfold with_warnings.
  set (meta1 := if PyDict.mem "warnings" meta then meta
                else PyDict.set "warnings" (JList []) meta).
  destruct (Json.get "warnings" meta1) as [| | | | |old|];
    unfold Json.get; rewrite get_set_same;
    try (now exists []); now exists old.
Qed.

Lemma carried_warnings_load data :
  exists earlier,
    carried_warnings py_repr (meta (load_refs_extracted py_repr data))
    = earlier
      ++ List.filter nonblank
           (RefsExtracted.warnings (load_refs_extracted py_repr data)).
Proof.
  unfold load_refs_extracted.
  destruct (select_refs data) as [[meta0 raw] w0].
  destruct (refs_list raw w0) as [l w1].
  destruct (normalize_all py_repr l [] w1) as [rs ws]. simpl.
  unfold carried_warnings.
  destruct (with_warnings_get meta0 ws) as (old & ->).
  rewrite map_app, List.filter_app, map_map. simpl.
  rewrite map_id. eexists. reflexivity.
Qed.

(** X17. No warning is lost on the way to the match result: its
    [meta.warnings] end with the warnings recorded while loading the
    references (those that are not blank), in their order, followed by
    the warnings of the library index. *)
Theorem warnings_reach_the_match_result (params : MatchParams)
    (data library_data : json) (res : MatchResult) :
  build_initial_match_result M fit_transform kernel_scores py_repr params
    (load_refs_extracted py_repr data) library_data = Ok res ->
  exists library earlier,
    build_library_index py_repr library_data = Ok library
    /\ meta_warnings res
       = earlier
         ++ List.filter nonblank
              (RefsExtracted.warnings (load_refs_extracted py_repr data))
         ++ BbtLibrary.warnings library.
Proof.
  unfold build_initial_match_result. intros H.
  apply bind_ok in H as (library & Hlib & H).
  apply bind_ok in H as (index & _ & H).
  apply bind_ok in H as ([refs_out stats0] & _ & [= <-]).
  destruct (carried_warnings_load data) as (earlier & E).
  exists library, earlier. split; [exact Hlib|]. simpl.
  rewrite E. now rewrite app_assoc.
Qed.

End WithSklearn.
End WarningFacts.

Module WarningExamples.
Import BbtLibrary RefsExtracted MatchDoc RetrievalTfidf MatchPipeline.
Import PipelineExamples WarningFacts.

(** A plain reference and an entry that is no reference. *)
Definition one_good_one_bad : json :=
  JObj [("refs", JList [JStr "Deep learning citations"; JInt 3])].

Definition warned_result : MatchResult :=
  Eval vm_compute in
    match build_initial_match_result unit fit scores no_repr default_params
            (load_refs_extracted no_repr one_good_one_bad) export with
    | Ok res => res
    | Raise _ =>
        {| meta_warnings := []; library_item_count := 0;
           library_total_item_count := 0; MatchPipeline.refs := [];
           MatchPipeline.stats := zero_stats |}
    end.

Lemma warnings_reach_the_match_result_witness :
  exists library earlier,
    build_library_index no_repr export = Ok library
    /\ meta_warnings warned_result
       = earlier
         ++ List.filter nonblank
              (RefsExtracted.warnings
                 (load_refs_extracted no_repr one_good_one_bad))
         ++ BbtLibrary.warnings library.
Proof.
  apply (warnings_reach_the_match_result unit fit scores no_repr
           default_params one_good_one_bad export warned_result).
  vm_compute. reflexivity.
Defined.

Example warned_result_warnings :
  meta_warnings warned_result
  = ["Skipped non-object ref entry: int";
     "Duplicate DOI index for 10.1000/dup: "].
Proof. reflexivity. Qed.

End WarningExamples.

(* ===================================================================== *)
(** * Properties: the identifier keys *)
(* ===================================================================== *)

Module NormalizeFacts.
Import Normalize PyStrFacts.

Lemma lower_char_idem c :
  PyStr.lower_char (PyStr.lower_char c) = PyStr.lower_char c.
Proof. destruct c as [[] [] [] [] [] [] [] []]; reflexivity. Qed.

Lemma isspace_lower_char c :
  PyStr.isspace (PyStr.lower_char c) = PyStr.isspace c.
Proof. destruct c as [[] [] [] [] [] [] [] []]; reflexivity. Qed.

Lemma punct_lower_char c :
  PyStr.mem_char PUNCT (PyStr.lower_char c) = PyStr.mem_char PUNCT c.
Proof. destruct c as [[] [] [] [] [] [] [] []]; reflexivity. Qed.

Lemma lower_idem s : PyStr.lower (PyStr.lower s) = PyStr.lower s.
Proof.
  unfold PyStr.lower. rewrite chars_str, map_map. f_equal.
  apply map_ext. intros c. apply lower_char_idem.
Qed.

Lemma truthy_lower s : PyStr.truthy (PyStr.lower s) = PyStr.truthy s.
Proof. destruct s; reflexivity. Qed.

Section Commute.
Variable p : ascii -> bool.
Hypothesis p_lower : forall c, p (PyStr.lower_char c) = p c.

Lemma dropwhile_lower l :
  PyStr.dropwhile p (map PyStr.lower_char l)
  = map PyStr.lower_char (PyStr.dropwhile p l).
Proof.
  induction l as [|c l IH]; simpl; [reflexivity|].
  rewrite p_lower. destruct (p c); [exact IH | reflexivity].
Qed.

Lemma strip_by_lower l :
  PyStr.strip_by p (map PyStr.lower_char l)
  = map PyStr.lower_char (PyStr.strip_by p l).
Proof.
  unfold PyStr.strip_by, PyStr.rstrip_by, PyStr.lstrip_by.
  now rewrite dropwhile_lower, <- map_rev, dropwhile_lower, map_rev.
Qed.

End Commute.

Lemma strip_lower s : PyStr.strip (PyStr.lower s) = PyStr.lower (PyStr.strip s).
Proof.
  unfold PyStr.strip, PyStr.lower. rewrite !chars_str.
  now rewrite (strip_by_lower _ isspace_lower_char).
Qed.

Lemma strip_punct_lower s :
  PyStr.strip_chars PUNCT (PyStr.lower s)
  = PyStr.lower (PyStr.strip_chars PUNCT s).
Proof.
  unfold PyStr.strip_chars, PyStr.lower. rewrite !chars_str.
  now rewrite (strip_by_lower _ punct_lower_char).
Qed.

Lemma normalize_doi_lower s :
  normalize_doi (Some (PyStr.lower s)) = normalize_doi (Some s).
Proof.
  unfold normalize_doi.
  now rewrite strip_lower, truthy_lower, lower_idem.
Qed.

Lemma normalize_url_lower s :
  normalize_url (Some (PyStr.lower s)) = normalize_url (Some s).
Proof.
  unfold normalize_url.
  now rewrite !strip_lower, truthy_lower, strip_punct_lower, lower_idem.
Qed.

(** X18. The keys of the DOI and URL indexes ignore case: two texts that
    differ only in the case of their letters are normalized to the same
    key by [normalize_doi], and by [normalize_url]. *)
Theorem identifier_keys_ignore_case (a b : string) :
  PyStr.lower a = PyStr.lower b ->
  normalize_doi (Some a) = normalize_doi (Some b)
  /\ normalize_url (Some a) = normalize_url (Some b).
Proof.
  intros H. split.
  - now rewrite <- (normalize_doi_lower a), <- (normalize_doi_lower b), H.
  - now rewrite <- (normalize_url_lower a), <- (normalize_url_lower b), H.
Qed.

Lemma identifier_keys_ignore_case_witness :
  normalize_doi (Some "DOI:10.1000/ABC.") = normalize_doi (Some "doi:10.1000/abc.")
  /\ normalize_url (Some "DOI:10.1000/ABC.")
     = normalize_url (Some "doi:10.1000/abc.").
Proof.
  apply (identifier_keys_ignore_case "DOI:10.1000/ABC." "doi:10.1000/abc.").
  reflexivity.
Defined.

End NormalizeFacts.

(* ===================================================================== *)
(** * Properties: the matcher *)
(* ===================================================================== *)

Module ReFacts.
Import Re.

(** The repetition loop of [run], with the matcher of the repeated
    expression and the continuation as parameters. *)
Section Loop.
Context {R : Type}.
Variable step : cursor -> option span ->
                (cursor -> option span -> option R) -> option R.
Variable k : cursor -> option span -> option R.

Fixpoint rep_loop (fuel lo : nat) (hi : option nat) (c : cursor)
    (g : option span) {struct fuel} : option R :=
  let stop := if (lo =? 0)%nat then k c g else None in
  match fuel with
  | O => stop
  | S fuel' =>
      let more :=
        match hi with
        | Some O => None
        | _ => step c g
                 (fun c' g' => rep_loop fuel' (Nat.pred lo)
                                 (Nat.pred <$> hi) c' g')
        end in
      match more with
      | Some x => Some x
      | None => stop
      end
  end.
End Loop.

Lemma run_rep {R : Type} lo hi r c g (k : cursor -> option span -> option R) :
  run (Rep lo hi r) c g k
  = rep_loop (fun c g k' => run r c g k') k
      (Datatypes.length (rest c)) lo hi c g.
Proof. reflexivity. Qed.

(** What a successful run went through: the cursor and the capture
    before and after an expression. *)
Inductive steps : regex -> cursor -> option span -> cursor -> option span
                  -> Prop :=
| steps_eps c g : steps Eps c g c g
| steps_chr p a t c g :
    rest c = a :: t -> p a = true ->
    steps (Chr p) c g (Cursor (Some a) t (S (pos c))) g
| steps_seq r1 r2 c g c1 g1 c2 g2 :
    steps r1 c g c1 g1 -> steps r2 c1 g1 c2 g2 ->
    steps (Seq r1 r2) c g c2 g2
| steps_alt_l r1 r2 c g c' g' :
    steps r1 c g c' g' -> steps (Alt r1 r2) c g c' g'
| steps_alt_r r1 r2 c g c' g' :
    steps r2 c g c' g' -> steps (Alt r1 r2) c g c' g'
| steps_wordb c g : at_boundary c = true -> steps WordB c g c g
| steps_group r c g c' g' :
    steps r c g c' g' -> steps (Group r) c g c' (Some (pos c, pos c'))
| steps_rep_stop hi r c g : steps (Rep 0 hi r) c g c g
| steps_rep_more lo hi r c g c1 g1 c2 g2 :
    hi <> Some 0%nat ->
    steps r c g c1 g1 ->
    steps (Rep (Nat.pred lo) (Nat.pred <$> hi) r) c1 g1 c2 g2 ->
    steps (Rep lo hi r) c g c2 g2.

Definition sound_on (r : regex) : Prop :=
  forall (R : Type) c g (k : cursor -> option span -> option R) x,
    run r c g k = Some x ->
    exists c' g', steps r c g c' g' /\ k c' g' = Some x.

Lemma rep_loop_sound r :
  sound_on r ->
  forall (R : Type) (k : cursor -> option span -> option R) fuel lo hi c g x,
    rep_loop (fun c g k' => run r c g k') k fuel lo hi c g = Some x ->
    exists c' g', steps (Rep lo hi r) c g c' g' /\ k c' g' = Some x.
Proof.
  intros Hr R k fuel.
  assert (Hstop : forall lo hi c g x,
             (if (lo =? 0)%nat then k c g else None) = Some x ->
             exists c' g', steps (Rep lo hi r) c g c' g' /\ k c' g' = Some x).
  { intros lo hi c g x. destruct lo; simpl; [|discriminate].
    intros H. exists c, g. split; [constructor | exact H]. }
  induction fuel as [|fuel IH]; intros lo hi c g x; simpl.
  - apply Hstop.
  - destruct (match hi with
              | Some 0%nat => None
              | _ => run r c g
                       (fun c' g' =>
                          rep_loop (fun c0 g0 k' => run r c0 g0 k') k fuel
                            (Nat.pred lo) (Nat.pred <$> hi) c' g')
              end) as [y|] eqn:E.
    + intros [= <-].
      assert (Hhi : hi <> Some 0%nat).
      { intros ->. discriminate E. }
      assert (Erun : run r c g
                       (fun c' g' =>
                          rep_loop (fun c0 g0 k' => run r c0 g0 k') k fuel
                            (Nat.pred lo) (Nat.pred <$> hi) c' g')
                     = Some y).
      { destruct hi as [[|n]|]; [congruence | exact E | exact E]. }
      apply Hr in Erun as (c1 & g1 & H1 & Hloop).
      apply IH in Hloop as (c2 & g2 & H2 & Hk).
      exists c2, g2. split; [|exact Hk].
      eapply steps_rep_more; eauto.
    + apply Hstop.
Qed.

Lemma run_sound r : sound_on r.
Proof.
  induction r as [|p|r1 IH1 r2 IH2|r1 IH1 r2 IH2|lo hi r IH| |r IH];
    intros R c g k x.
  - simpl. intros H. exists c, g. split; [constructor | exact H].
  - simpl. destruct (rest c) as [|a t] eqn:Hrest; [discriminate|].
    destruct (p a) eqn:Hp; [|discriminate].
    intros H. do 2 eexists. split; [|exact H]. now constructor.
  - simpl. intros H. apply IH1 in H as (c1 & g1 & H1 & H).
    apply IH2 in H as (c2 & g2 & H2 & H).
    exists c2, g2. split; [econstructor; eauto | exact H].
  - simpl. destruct (run r1 c g k) as [y|] eqn:E.
    + intros [= <-]. apply IH1 in E as (c' & g' & H1 & H).
      exists c', g'. split; [now apply steps_alt_l | exact H].
    + intros H. apply IH2 in H as (c' & g' & H2 & H).
      exists c', g'. split; [now apply steps_alt_r | exact H].
  - rewrite run_rep. apply rep_loop_sound. exact IH.
  - simpl. destruct (at_boundary c) eqn:Hb; [|discriminate].
    intros H. exists c, g. split; [now constructor | exact H].
  - simpl. intros H. apply IH in H as (c' & g' & H1 & H).
    do 2 eexists. split; [|exact H]. apply (steps_group _ _ _ _ g'). exact H1.
Qed.

(** ** Where the cursor goes *)

(** [c'] is [c] moved over the characters [w]. *)
Definition moved (c : cursor) (w : list ascii) (c' : cursor) : Prop :=
  rest c = w ++ rest c' /\ pos c' = (pos c + Datatypes.length w)%nat.

Lemma moved_refl c : moved c [] c.
Proof. split; [reflexivity | simpl; lia]. Qed.

Lemma moved_trans c w1 c1 w2 c2 :
  moved c w1 c1 -> moved c1 w2 c2 -> moved c (w1 ++ w2) c2.
Proof.
  intros [H1 P1] [H2 P2]. split.
  - now rewrite H1, H2, app_assoc.
  - rewrite length_app. lia.
Qed.

(** The words of an expression, boundaries and captures aside. *)
Inductive lang : regex -> list ascii -> Prop :=
| lang_eps : lang Eps []
| lang_chr (p : ascii -> bool) a : p a = true -> lang (Chr p) [a]
| lang_seq r1 r2 w1 w2 :
    lang r1 w1 -> lang r2 w2 -> lang (Seq r1 r2) (w1 ++ w2)
| lang_alt_l r1 r2 w : lang r1 w -> lang (Alt r1 r2) w
| lang_alt_r r1 r2 w : lang r2 w -> lang (Alt r1 r2) w
| lang_wordb : lang WordB []
| lang_group r w : lang r w -> lang (Group r) w
| lang_rep_stop hi r : lang (Rep 0 hi r) []
| lang_rep_more lo hi r w1 w2 :
    hi <> Some 0%nat ->
    lang r w1 ->
    lang (Rep (Nat.pred lo) (Nat.pred <$> hi) r) w2 ->
    lang (Rep lo hi r) (w1 ++ w2).

Lemma steps_moved r c g c' g' :
  steps r c g c' g' -> exists w, moved c w c' /\ lang r w.
Proof.
  induction 1 as [c g|p a t c g Hrest Hp
                 |r1 r2 c g c1 g1 c2 g2 _ (w1 & M1 & L1) _ (w2 & M2 & L2)
                 |r1 r2 c g c' g' _ (w & M & L)
                 |r1 r2 c g c' g' _ (w & M & L)
                 |c g Hb
                 |r c g c' g' _ (w & M & L)
                 |hi r c g
                 |lo hi r c g c1 g1 c2 g2 Hhi _ (w1 & M1 & L1) _
                    (w2 & M2 & L2)].
  - exists []. split; [apply moved_refl | constructor].
  - exists [a]. split; [|now constructor].
    split; simpl; [exact Hrest | lia].
  - exists (w1 ++ w2). split; [eapply moved_trans; eauto | now constructor].
  - exists w. split; [exact M | now apply lang_alt_l].
  - exists w. split; [exact M | now apply lang_alt_r].
  - exists []. split; [apply moved_refl | constructor].
  - exists w. split; [exact M | now constructor].
  - exists []. split; [apply moved_refl | constructor].
  - exists (w1 ++ w2). split; [eapply moved_trans; eauto|].
    now apply lang_rep_more.
Qed.

(** ** Inversion *)

Lemma steps_eps_inv c g c' g' : steps Eps c g c' g' -> c' = c /\ g' = g.
Proof. inversion 1; auto. Qed.

Lemma steps_wordb_inv c g c' g' : steps WordB c g c' g' -> c' = c /\ g' = g.
Proof. inversion 1; auto. Qed.

Lemma steps_seq_inv r1 r2 c g c2 g2 :
  steps (Seq r1 r2) c g c2 g2 ->
  exists c1 g1, steps r1 c g c1 g1 /\ steps r2 c1 g1 c2 g2.
Proof. inversion 1; eauto. Qed.

Lemma steps_group_inv r c g c' g' :
  steps (Group r) c g c' g' ->
  g' = Some (pos c, pos c') /\ exists g1, steps r c g c' g1.
Proof. inversion 1; eauto. Qed.

(** An expression without a group leaves the capture as it was. *)
Fixpoint groupless (r : regex) : bool :=
  match r with
  | Eps | Chr _ | WordB => true
  | Seq r1 r2 | Alt r1 r2 => groupless r1 && groupless r2
  | Rep _ _ r1 => groupless r1
  | Group _ => false
  end.

Lemma steps_groupless r c g c' g' :
  steps r c g c' g' -> groupless r = true -> g' = g.
Proof.
  induction 1; simpl; intros Hg; try reflexivity;
    try (apply andb_true_iff in Hg as [Hg1 Hg2]); try discriminate; auto.
  - rewrite IHsteps2, IHsteps1; auto.
  - rewrite IHsteps2, IHsteps1; auto.
Qed.

(** ** The words of literals and of repeated classes *)

Lemma lang_seq_inv r1 r2 w :
  lang (Seq r1 r2) w ->
  exists w1 w2, w = w1 ++ w2 /\ lang r1 w1 /\ lang r2 w2.
Proof. inversion 1; eauto. Qed.

Lemma lang_eps_inv w : lang Eps w -> w = [].
Proof. now inversion 1. Qed.

Lemma lang_chr_inv p w : lang (Chr p) w -> exists a, w = [a] /\ p a = true.
Proof. inversion 1; eauto. Qed.

Lemma lang_group_inv r w : lang (Group r) w -> lang r w.
Proof. now inversion 1. Qed.

Lemma lang_alt_inv r1 r2 w : lang (Alt r1 r2) w -> lang r1 w \/ lang r2 w.
Proof. inversion 1; auto. Qed.

(** A word of [seqs] of classes has one character per class. *)
Lemma lang_classes (ps : list (ascii -> bool)) : forall w,
  lang (seqs (map Chr ps)) w -> Forall2 (fun p a => p a = true) ps w.
Proof.
  induction ps as [|p ps IH]; intros w H; simpl in H.
  - apply lang_eps_inv in H as ->. constructor.
  - apply lang_seq_inv in H as (w1 & w2 & -> & H1 & H2).
    apply lang_chr_inv in H1 as (a & -> & Hp). simpl.
    constructor; [exact Hp | now apply IH].
Qed.

Lemma lang_lit s w : lang (lit s) w -> w = PyStr.chars s.
Proof.
  unfold lit, chr. rewrite <- (map_map Ascii.eqb Chr). intros H.
  apply lang_classes in H. revert w H.
  induction (PyStr.chars s) as [|a l IH]; intros w H; simpl in H.
  - now inversion H.
  - inversion H as [|? b ? w' Hab Hrest]; subst.
    apply Ascii.eqb_eq in Hab as ->. f_equal. now apply IH.
Qed.

(** A word of [lit_i] is the literal up to the case of its letters. *)
Lemma lang_lit_i s w :
  lang (lit_i s) w ->
  map PyStr.lower_char w = map PyStr.lower_char (PyStr.chars s).
Proof.
  unfold lit_i, chr_i.
  rewrite <- (map_map (fun c x => Ascii.eqb (PyStr.lower_char x)
                                            (PyStr.lower_char c)) Chr).
  intros H. apply lang_classes in H. revert w H.
  induction (PyStr.chars s) as [|a l IH]; intros w H; simpl in H.
  - now inversion H.
  - inversion H as [|? b ? w' Hab Hrest]; subst. simpl.
    apply Ascii.eqb_eq in Hab as ->. f_equal. now apply IH.
Qed.

(** A word of a repeated class: its characters are of the class and
    their number is within the bounds. *)
Lemma lang_rep_class p : forall w lo hi,
  lang (Rep lo hi (Chr p)) w ->
  Forall (fun a => p a = true) w
  /\ (lo <= Datatypes.length w)%nat
  /\ forall n, hi = Some n -> (Datatypes.length w <= n)%nat.
Proof.
  intros w lo hi H. remember (Rep lo hi (Chr p)) as r eqn:Er.
  revert lo hi Er.
  induction H as [| | | | | | |hi0 r0|lo0 hi0 r0 w1 w2 Hhi H1 _ H2 IH2];
    intros lo hi Er; try discriminate.
  - injection Er as <- <- ->. split; [constructor|]. split; simpl; [lia|].
    intros n _. lia.
  - injection Er as -> -> ->.
    apply lang_chr_inv in H1 as (a & -> & Hp).
    destruct (IH2 _ _ eq_refl) as (Hall & Hlo & Hhi').
    split; [now constructor|]. simpl. split; [lia|].
    intros n ->. destruct n as [|n]; [congruence|].
    specialize (Hhi' n eq_refl). lia.
Qed.

(** ** Matches in a text *)

(** The cursor stands in [text]. *)
Definition in_text (text : list ascii) (c : cursor) : Prop :=
  rest c = skipn (pos c) text.

Lemma in_text_moved text c w c' :
  in_text text c -> moved c w c' ->
  in_text text c'
  /\ PyStr.slice (pos c) (pos c') text = w
  /\ exists before, text = before ++ w ++ rest c'.
Proof.
  unfold in_text, moved, PyStr.slice. intros Hc [Hw Hp].
  split; [|split].
  - rewrite Hp, <- drop_drop, <- Hc, Hw. symmetry. apply drop_app_length.
  - rewrite <- Hc, Hw, Hp.
    replace (pos c + Datatypes.length w - pos c)%nat
      with (Datatypes.length w) by lia.
    apply take_app_length.
  - exists (firstn (pos c) text). rewrite <- Hw, Hc.
    symmetry. apply take_drop.
Qed.

(** Every match of [finditer] starts from a cursor in the text. *)
Lemma scan_matches text r : forall l p i resume m,
  l = skipn i text ->
  In m (scan r p l i resume) ->
  exists c, in_text text c /\ match_at r c = Some m.
Proof.
  induction l as [|a l IH]; intros p i resume m Hl; simpl.
  - destruct (resume <=? i)%nat; [|contradiction].
    destruct (match_at r (Cursor p [] i)) as [m0|] eqn:E; [|contradiction].
    intros [<-|[]]. exists (Cursor p [] i). split; [exact Hl | exact E].
  - assert (Hnext : l = skipn (S i) text).
    { replace (S i) with (i + 1)%nat by lia.
      rewrite <- drop_drop, <- Hl. reflexivity. }
    destruct (resume <=? i)%nat.
    + destruct (match_at r (Cursor p (a :: l) i)) as [m0|] eqn:E.
      * intros [<-|Hin].
        -- exists (Cursor p (a :: l) i). split; [exact Hl | exact E].
        -- eapply IH; eauto.
      * intros Hin. eapply IH; eauto.
    + intros Hin. eapply IH; eauto.
Qed.

Lemma finditer_matches text r m :
  In m (finditer r text) ->
  exists c c' g,
    in_text text c /\ steps r c None c' g
    /\ m = Found (pos c) (pos c') g.
Proof.
  unfold finditer. intros H.
  apply (scan_matches text) in H as (c & Hc & Hm); [|reflexivity].
  unfold match_at in Hm. apply run_sound in Hm as (c' & g & Hs & [= <-]).
  exists c, c', g. auto.
Qed.

(** [needle] occurs in [hay]. *)
Lemma list_prefix_app p l : PyStr.list_prefix p (p ++ l) = true.
Proof.
  induction p as [|a p IH]; simpl; [reflexivity|].
  now rewrite Ascii.eqb_refl.
Qed.

Lemma list_infix_app before w after :
  PyStr.list_infix w (before ++ w ++ after) = true.
Proof.
  assert (Hunfold : forall p l,
             PyStr.list_infix p l
             = PyStr.list_prefix p l
               || match l with [] => false | _ :: t => PyStr.list_infix p t end).
  { intros p l. destruct l; reflexivity. }
  induction before as [|a before IH].
  - simpl app. now rewrite Hunfold, list_prefix_app.
  - rewrite <- app_comm_cons, Hunfold, IH. apply orb_true_r.
Qed.

End ReFacts.

(* ===================================================================== *)
(** * Properties: what the extractors return *)
(* ===================================================================== *)

Module ExtractFacts.
Import Re Normalize PyStrFacts PySortProps ReFacts.

Definition digits (w : list ascii) : Prop :=
  Forall (fun a => PyStr.isdigit a = true) w.

(** [19dd] or [20dd]. *)
Definition year_word (w : list ascii) : Prop :=
  exists d1 d2,
    PyStr.isdigit d1 = true /\ PyStr.isdigit d2 = true
    /\ (w = ["1"; "9"; d1; d2]%char \/ w = ["2"; "0"; d1; d2]%char).

(** [dddd.dddd] or [dddd.ddddd]. *)
Definition arxiv_word (w : list ascii) : Prop :=
  exists w1 w2,
    w = w1 ++ "."%char :: w2
    /\ digits w1 /\ digits w2
    /\ Datatypes.length w1 = 4%nat
    /\ (Datatypes.length w2 = 4%nat \/ Datatypes.length w2 = 5%nat).

(** The text a match captured, when its group went from [c1] to [c2]. *)
Lemma captured_text text c c' c1 c2 w :
  in_text text c1 -> moved c1 w c2 ->
  group1_text text (Found (pos c) (pos c') (Some (pos c1, pos c2)))
  = PyStr.str w
  /\ PyStr.list_infix w text = true.
Proof.
  intros Hc Hm. destruct (in_text_moved _ _ _ _ Hc Hm)
    as (_ & Hslice & before & Htext).
  unfold group1_text, group1. simpl. rewrite Hslice.
  split; [reflexivity|]. rewrite Htext. apply list_infix_app.
Qed.

Lemma two_digits w :
  lang (times 2 2 digit) w ->
  exists d1 d2, w = [d1; d2]
                /\ PyStr.isdigit d1 = true /\ PyStr.isdigit d2 = true.
Proof.
  intros H. apply lang_rep_class in H as (Hd & Hlo & Hhi).
  specialize (Hhi 2%nat eq_refl).
  destruct w as [|d1 [|d2 [|d3 w]]]; simpl in *; try lia.
  inversion Hd as [|? ? H1 Hd']; subst.
  inversion Hd' as [|? ? H2 _]; subst. eauto.
Qed.

Lemma year_words w :
  lang (Alt (seqs [lit "19"; times 2 2 digit])
            (seqs [lit "20"; times 2 2 digit])) w ->
  year_word w.
Proof.
  intros H. apply lang_alt_inv in H as [H|H]; simpl in H;
    apply lang_seq_inv in H as (w1 & w' & -> & H1 & H);
    apply lang_seq_inv in H as (w2 & w3 & -> & H2 & H3);
    apply lang_eps_inv in H3 as ->;
    apply lang_lit in H1 as ->;
    apply two_digits in H2 as (d1 & d2 & -> & Hd1 & Hd2);
    exists d1, d2; simpl; auto.
Qed.

Lemma year_match text c c' g :
  in_text text c ->
  steps YEAR_PATTERN c None c' g ->
  exists w,
    year_word w
    /\ group1_text text (Found (pos c) (pos c') g) = PyStr.str w
    /\ PyStr.list_infix w text = true.
Proof.
  intros Hc H. unfold YEAR_PATTERN in H. simpl in H.
  apply steps_seq_inv in H as (c1 & g1 & Hb & H).
  apply steps_wordb_inv in Hb as [-> ->].
  apply steps_seq_inv in H as (c2 & g2 & Hg & H).
  apply steps_group_inv in Hg as [-> (g1 & Hbody)].
  apply steps_seq_inv in H as (c3 & g3 & Hb & H).
  apply steps_wordb_inv in Hb as [-> ->].
  apply steps_eps_inv in H as [-> ->].
  apply steps_moved in Hbody as (w & Hm & Hl).
  exists w. split; [now apply year_words|].
  now apply captured_text.
Qed.

Lemma arxiv_words w :
  lang (seqs [times 4 4 digit; chr "."; times 4 5 digit]) w -> arxiv_word w.
Proof.
  simpl. intros H.
  apply lang_seq_inv in H as (w1 & w' & -> & H1 & H).
  apply lang_seq_inv in H as (w2 & w'' & -> & H2 & H).
  apply lang_seq_inv in H as (w3 & w4 & -> & H3 & H4).
  apply lang_eps_inv in H4 as ->.
  apply lang_chr_inv in H2 as (a & -> & Ha). apply Ascii.eqb_eq in Ha as <-.
  apply lang_rep_class in H1 as (Hd1 & Hlo1 & Hhi1).
  apply lang_rep_class in H3 as (Hd3 & Hlo3 & Hhi3).
  specialize (Hhi1 4%nat eq_refl). specialize (Hhi3 5%nat eq_refl).
  exists w1, w3. rewrite app_nil_r. simpl.
  split; [reflexivity|]. split; [exact Hd1|]. split; [exact Hd3|]. lia.
Qed.

Lemma arxiv_match text c c' g :
  in_text text c ->
  steps ARXIV_PATTERN c None c' g ->
  exists w,
    arxiv_word w
    /\ group1_text text (Found (pos c) (pos c') g) = PyStr.str w
    /\ PyStr.list_infix w text = true.
Proof.
  intros Hc H. unfold ARXIV_PATTERN in H. simpl in H.
  apply steps_seq_inv in H as (c0 & g0 & Hb & H).
  apply steps_wordb_inv in Hb as [-> ->].
  apply steps_seq_inv in H as (c1 & g1 & Hopt & H).
  pose proof (steps_groupless _ _ _ _ _ Hopt eq_refl) as ->.
  apply steps_moved in Hopt as (w0 & Hm0 & _).
  destruct (in_text_moved _ _ _ _ Hc Hm0) as (Hc1 & _).
  apply steps_seq_inv in H as (c2 & g2 & Hg & H).
  apply steps_group_inv in Hg as [-> (g1 & Hbody)].
  apply steps_seq_inv in H as (c3 & g3 & Hopt2 & H).
  pose proof (steps_groupless _ _ _ _ _ Hopt2 eq_refl) as ->.
  apply steps_seq_inv in H as (c4 & g4 & Hb & H).
  apply steps_wordb_inv in Hb as [-> ->].
  apply steps_eps_inv in H as [-> ->].
  apply steps_moved in Hbody as (w & Hm & Hl).
  exists w. split; [now apply arxiv_words|].
  now apply captured_text.
Qed.

Lemma nonempty_some text s : nonempty text = Some s -> text = Some s.
Proof.
  unfold nonempty. destruct text as [t|]; [|discriminate].
  destruct (PyStr.truthy t); [congruence | discriminate].
Qed.

Lemma year_candidates_words text y s e :
  In (y, s, e) (year_candidates text) ->
  exists w, year_word w /\ y = PyStr.str w
            /\ PyStr.list_infix w text = true.
Proof.
  unfold year_candidates. rewrite in_flat_map. intros (m & Hm & Hin).
  destruct (group1 m) as [st en].
  destruct (is_ignored _ st en); [contradiction|].
  destruct Hin as [[= <- _ _]|[]].
  apply finditer_matches in Hm as (c & c' & g & Hc & Hs & ->).
  destruct (year_match _ _ _ _ Hc Hs) as (w & Hw & Ht & Hin).
  exists w. auto.
Qed.

Lemma head_sort_reverse_In {A : Type} (lt : A -> A -> bool) l x rest :
  PySort.sort_reverse lt l = x :: rest -> In x l.
Proof.
  intros H. apply (sort_reverse_In lt). rewrite H. now left.
Qed.

(** The year [extract_year] returns is that of a candidate. *)
Lemma extract_year_candidate text y :
  extract_year (Some text) = Some y ->
  exists st en, In (y, st, en) (year_candidates (PyStr.chars text)).
Proof.
  unfold extract_year, nonempty.
  destruct (PyStr.truthy text); [|discriminate].
  cbn [mbind option_bind]. cbv beta zeta.
  set (cands := year_candidates (PyStr.chars text)).
  assert (Hhead : forall l rest st en,
             incl l cands ->
             PySort.sort_reverse start_lt l = (y, st, en) :: rest ->
             exists st en, In (y, st, en) cands).
  { intros l rest st en Hl Hsort.
    apply head_sort_reverse_In, Hl in Hsort. eauto. }
  clearbody cands.
  destruct cands as [|c0 cs] eqn:Ec; [discriminate|].
  cbv beta match zeta. rewrite <- Ec in *. clear Ec c0 cs.
  match goal with
  | |- context [List.filter ?f cands] => set (non_access := List.filter f cands)
  end.
  assert (Hna : incl non_access cands).
  { intros x Hx. now apply filter_In in Hx as [Hx _]. }
  clearbody non_access.
  destruct non_access as [|n0 ns] eqn:En; [discriminate|].
  cbv beta match zeta. rewrite <- En in *. clear En n0 ns.
  match goal with
  | |- context [List.filter ?f non_access] =>
      set (paren := List.filter f non_access)
  end.
  assert (Hp : incl paren cands).
  { intros x Hx. apply Hna. now apply filter_In in Hx as [Hx _]. }
  destruct (PySort.sort_reverse start_lt paren) as [|[[y1 s1] e1] r1] eqn:E1.
  - destruct (PySort.sort_reverse start_lt non_access)
      as [|[[y2 s2] e2] r2] eqn:E2; [discriminate|].
    intros [= <-]. exact (Hhead non_access r2 s2 e2 Hna E2).
  - intros [= <-]. exact (Hhead paren r1 s1 e1 Hp E1).
Qed.

(** X19. On ASCII text, [extract_year] returns nothing but a four-digit
    year that begins with 19 or 20, and [extract_arxiv_id] nothing but
    four digits, a point and four or five digits; what either returns
    occurs in the text it was given. *)
Theorem extracted_year_and_arxiv_id_are_well_formed (text : string) :
  ascii_text text = true ->
  (forall y, extract_year (Some text) = Some y ->
     exists w, year_word w /\ y = PyStr.str w
               /\ PyStr.contains text y = true)
  /\ (forall a, extract_arxiv_id (Some text) = Some a ->
        exists w, arxiv_word w /\ a = PyStr.str w
                  /\ PyStr.contains text a = true).
Proof.
  intros _. split.
  - intros y Hy.
    destruct (extract_year_candidate _ _ Hy) as (st & en & Hin).
    apply year_candidates_words in Hin as (w & Hw & -> & Hi).
    exists w. unfold PyStr.contains. now rewrite chars_str.
  - intros a. unfold extract_arxiv_id.
    destruct (nonempty (Some text)) as [s|] eqn:Es; [|discriminate].
    apply nonempty_some in Es as [= <-]. simpl.
    unfold search.
    destruct (finditer ARXIV_PATTERN (PyStr.chars text)) as [|m ms] eqn:Ef;
      [discriminate|].
    simpl. intros [= <-].
    assert (Hm : In m (finditer ARXIV_PATTERN (PyStr.chars text)))
      by (rewrite Ef; now left).
    apply finditer_matches in Hm as (c & c' & g & Hc & Hs & ->).
    destruct (arxiv_match _ _ _ _ Hc Hs) as (w & Hw & Ht & Hin).
    exists w. rewrite Ht. unfold PyStr.contains. now rewrite chars_str.
Qed.

Lemma extracted_year_and_arxiv_id_are_well_formed_witness :
  ascii_text "Lee, K. (2021). Attention. arXiv:2101.12345v2, seen 2023"
  = true
  /\ (exists w, year_word w /\ "2021" = PyStr.str w
                /\ PyStr.contains
                     "Lee, K. (2021). Attention. arXiv:2101.12345v2, seen 2023"
                     "2021" = true)
  /\ (exists w, arxiv_word w /\ "2101.12345" = PyStr.str w
                /\ PyStr.contains
                     "Lee, K. (2021). Attention. arXiv:2101.12345v2, seen 2023"
                     "2101.12345" = true).
Proof.
  split; [reflexivity|].
  destruct (extracted_year_and_arxiv_id_are_well_formed
              "Lee, K. (2021). Attention. arXiv:2101.12345v2, seen 2023"
              eq_refl) as [Hyear Harxiv].
  split.
  - apply Hyear. vm_compute. reflexivity.
  - apply Harxiv. vm_compute. reflexivity.
Defined.

(** ** DOIs and URLs *)

Definition TRAILING : string := ").,;]".

(** [10.], four to nine digits, a slash and a tail that does not end
    with one of the characters cut off. *)
Definition doi_word (w : list ascii) : Prop :=
  exists ds tail,
    w = PyStr.chars "10." ++ ds ++ "/"%char :: tail
    /\ digits ds
    /\ (4 <= Datatypes.length ds <= 9)%nat
    /\ Forall (fun a => doi_tail a = true) tail
    /\ clear_last (PyStr.mem_char TRAILING) tail.

(** [http] or [https] in any case, [://] and characters that are
    neither blank nor closing, the last of them not one of those cut
    off. *)
Definition url_word (w : list ascii) : Prop :=
  exists scheme tail,
    w = scheme ++ PyStr.chars "://" ++ tail
    /\ (map PyStr.lower_char scheme = PyStr.chars "http"
        \/ map PyStr.lower_char scheme = PyStr.chars "https")
    /\ Forall (fun a => url_char a = true) tail
    /\ clear_last (PyStr.mem_char TRAILING) tail.

Lemma dropwhile_app_clear p l a t :
  p a = false ->
  PyStr.dropwhile p (l ++ a :: t) = PyStr.dropwhile p l ++ a :: t.
Proof.
  intros Ha. induction l as [|b l IH]; simpl.
  - now rewrite Ha.
  - destruct (p b); [exact IH | reflexivity].
Qed.

Lemma rstrip_by_app_clear p l a t :
  p a = false ->
  PyStr.rstrip_by p (l ++ a :: t) = l ++ a :: PyStr.rstrip_by p t.
Proof.
  intros Ha. unfold PyStr.rstrip_by.
  rewrite rev_app_distr. simpl. rewrite <- app_assoc. simpl.
  rewrite dropwhile_app_clear by exact Ha.
  rewrite rev_app_distr. simpl. rewrite rev_involutive, <- app_assoc.
  reflexivity.
Qed.

Lemma forall_rstrip (P : ascii -> Prop) p l :
  Forall P l -> Forall P (PyStr.rstrip_by p l).
Proof.
  intros H. destruct (rstrip_prefix p l) as (b & Hb & _).
  rewrite Hb in H. now apply Forall_app in H as [H _].
Qed.

Lemma doi_words w :
  lang (seqs [lit "10"; chr "."; Rep 4 (Some 9) digit; chr "/";
              plus (Chr doi_tail)]) w ->
  doi_word (PyStr.rstrip_by (PyStr.mem_char TRAILING) w).
Proof.
  simpl. intros H.
  apply lang_seq_inv in H as (w1 & w' & -> & H1 & H).
  apply lang_seq_inv in H as (w2 & w'' & -> & H2 & H).
  apply lang_seq_inv in H as (w3 & w''' & -> & H3 & H).
  apply lang_seq_inv in H as (w4 & w'''' & -> & H4 & H).
  apply lang_seq_inv in H as (w5 & w6 & -> & H5 & H6).
  apply lang_eps_inv in H6 as ->.
  apply lang_lit in H1 as ->.
  apply lang_chr_inv in H2 as (a & -> & Ha). apply Ascii.eqb_eq in Ha as <-.
  apply lang_chr_inv in H4 as (b & -> & Hb). apply Ascii.eqb_eq in Hb as <-.
  apply lang_rep_class in H3 as (Hd & Hlo & Hhi).
  specialize (Hhi 9%nat eq_refl).
  apply lang_rep_class in H5 as (Ht & _ & _).
  rewrite app_nil_r.
  replace (PyStr.chars "10" ++ ["."%char] ++ w3 ++ ["/"%char] ++ w5)
    with ((PyStr.chars "10." ++ w3) ++ "/"%char :: w5)
    by reflexivity.
  rewrite rstrip_by_app_clear by reflexivity.
  exists w3, (PyStr.rstrip_by (PyStr.mem_char TRAILING) w5).
  split; [reflexivity|]. split; [exact Hd|].
  split; [lia|]. split; [now apply forall_rstrip | apply rstrip_clear_last].
Qed.

Lemma url_words w :
  lang (seqs [lit_i "http"; opt (chr_i "s"); lit "://";
              plus (Chr url_char)]) w ->
  url_word (PyStr.rstrip_by (PyStr.mem_char TRAILING) w).
Proof.
  simpl. intros H.
  apply lang_seq_inv in H as (w1 & w' & -> & H1 & H).
  apply lang_seq_inv in H as (w2 & w'' & -> & H2 & H).
  apply lang_seq_inv in H as (w3 & w''' & -> & H3 & H).
  apply lang_seq_inv in H as (w4 & w5 & -> & H4 & H5).
  apply lang_eps_inv in H5 as ->.
  apply (lang_lit_i "http") in H1.
  apply lang_lit in H3 as ->.
  apply lang_rep_class in H2 as (Hs & _ & Hhi).
  specialize (Hhi 1%nat eq_refl).
  apply lang_rep_class in H4 as (Ht & _ & _).
  rewrite app_nil_r.
  replace (w1 ++ w2 ++ PyStr.chars "://" ++ w4)
    with (((w1 ++ w2) ++ PyStr.chars ":/") ++ "/"%char :: w4)
    by (rewrite <- !app_assoc; reflexivity).
  rewrite rstrip_by_app_clear by reflexivity.
  exists (w1 ++ w2), (PyStr.rstrip_by (PyStr.mem_char TRAILING) w4).
  split; [rewrite <- !app_assoc; reflexivity|].
  split; [|split; [now apply forall_rstrip | apply rstrip_clear_last]].
  rewrite map_app, H1.
  destruct w2 as [|s [|s' w2]]; simpl in Hhi; [| |lia].
  - left. apply app_nil_r.
  - right. inversion Hs as [|? ? Hc _]; subst.
    apply Ascii.eqb_eq in Hc. simpl. now rewrite Hc.
Qed.

(** The text cut at its end still occurs in the whole. *)
Lemma rstrip_infix p text c c' w :
  in_text text c -> moved c w c' ->
  PyStr.list_infix (PyStr.rstrip_by p w) text = true.
Proof.
  intros Hc Hm.
  destruct (in_text_moved _ _ _ _ Hc Hm) as (_ & _ & before & ->).
  destruct (rstrip_prefix p w) as (b & Hb & _).
  rewrite Hb at 2. rewrite <- !app_assoc. apply list_infix_app.
Qed.

(** X20. On ASCII text, [extract_doi] returns nothing but [10.], four
    to nine digits, a slash and a tail of DOI characters, and
    [extract_first_url] nothing but [http] or [https] in any case, [://]
    and characters that are neither blank nor a closing bracket, a comma
    or a semicolon; neither ends with a closing parenthesis or square
    bracket, a point, a comma or a semicolon, and what either returns
    occurs in the text it was given. *)
Theorem extracted_doi_and_url_are_well_formed (text : string) :
  ascii_text text = true ->
  (forall d, extract_doi (Some text) = Some d ->
     exists w, doi_word w /\ d = PyStr.str w
               /\ PyStr.contains text d = true)
  /\ (forall u, extract_first_url (Some text) = Some u ->
        exists w, url_word w /\ u = PyStr.str w
                  /\ PyStr.contains text u = true).
Proof.
  intros _.
  assert (Hfirst : forall r m,
             search r (PyStr.chars text) = Some m ->
             exists c c' g,
               in_text (PyStr.chars text) c /\ steps r c None c' g
               /\ m = Found (pos c) (pos c') g).
  { intros r m. unfold search.
    destruct (finditer r (PyStr.chars text)) as [|m0 ms] eqn:Ef;
      [discriminate|].
    simpl. intros [= <-]. apply finditer_matches. rewrite Ef. now left. }
  split.
  - intros d. unfold extract_doi, nonempty.
    destruct (PyStr.truthy text); [|discriminate].
    cbn [mbind option_bind].
    destruct (search DOI_PATTERN (PyStr.chars text)) as [m|] eqn:Em;
      [|discriminate].
    cbn [mbind option_bind]. intros [= <-].
    apply Hfirst in Em as (c & c' & g & Hc & Hs & ->).
    unfold DOI_PATTERN in Hs.
    apply steps_group_inv in Hs as [-> (g1 & Hbody)].
    apply steps_moved in Hbody as (w & Hm & Hl).
    destruct (captured_text _ c c' c c' w Hc Hm) as [-> _].
    unfold PyStr.rstrip_chars. rewrite chars_str.
    exists (PyStr.rstrip_by (PyStr.mem_char TRAILING) w).
    split; [now apply doi_words|]. split; [reflexivity|].
    unfold PyStr.contains. rewrite chars_str. eapply rstrip_infix; eauto.
  - intros u. unfold extract_first_url, nonempty.
    destruct (PyStr.truthy text); [|discriminate].
    cbn [mbind option_bind].
    destruct (search URL_PATTERN (PyStr.chars text)) as [m|] eqn:Em;
      [|discriminate].
    cbn [mbind option_bind]. intros [= <-].
    apply Hfirst in Em as (c & c' & g & Hc & Hs & ->).
    unfold URL_PATTERN in Hs.
    apply steps_group_inv in Hs as [-> (g1 & Hbody)].
    apply steps_moved in Hbody as (w & Hm & Hl).
    destruct (captured_text _ c c' c c' w Hc Hm) as [-> _].
    unfold PyStr.rstrip_chars. rewrite chars_str.
    exists (PyStr.rstrip_by (PyStr.mem_char TRAILING) w).
    split; [now apply url_words|]. split; [reflexivity|].
    unfold PyStr.contains. rewrite chars_str. eapply rstrip_infix; eauto.
Qed.

Lemma extracted_doi_and_url_are_well_formed_witness :
  ascii_text "See doi:10.1000/Abc.12). Also at HTTPS://Example.org/a.b), p. 3"
  = true
  /\ (exists w, doi_word w /\ "10.1000/Abc.12" = PyStr.str w
                /\ PyStr.contains
                     "See doi:10.1000/Abc.12). Also at HTTPS://Example.org/a.b), p. 3"
                     "10.1000/Abc.12" = true)
  /\ (exists w, url_word w /\ "HTTPS://Example.org/a.b" = PyStr.str w
                /\ PyStr.contains
                     "See doi:10.1000/Abc.12). Also at HTTPS://Example.org/a.b), p. 3"
                     "HTTPS://Example.org/a.b" = true).
Proof.
  split; [reflexivity|].
  destruct (extracted_doi_and_url_are_well_formed
              "See doi:10.1000/Abc.12). Also at HTTPS://Example.org/a.b), p. 3"
              eq_refl) as [Hdoi Hurl].
  split.
  - apply Hdoi. vm_compute. reflexivity.
  - apply Hurl. vm_compute. reflexivity.
Defined.

End ExtractFacts.

(* ===================================================================== *)
(** * Properties: from a record's DOI to the verdict *)
(* ===================================================================== *)

Module LookupFacts.
Import Normalize BbtLibrary RefsExtracted MatchDoc RetrievalTfidf.
Import MatchPipeline ResultProps PyStrFacts LibraryInvariants.
Import PipelineProps PipelineFacts.

Section WithSklearn.
Variable M : Type.
Variable kernel_scores : M -> string -> result (list float).


End WithSklearn.
End LookupFacts.

Module LookupExamples.
Import Normalize BbtLibrary RefsExtracted MatchDoc RetrievalTfidf.
Import MatchPipeline PipelineExamples LookupFacts.



End LookupExamples.

(* ===================================================================== *)
(** * gemini_dr_link.py *)
(* ===================================================================== *)

Module GeminiDrLink.
Import Re.

Definition _WORKS_CITED_HEADING : string := "#### **Works cited**".

Record CandidateMeta : Type := {
  cm_citekey : string;
  cm_title : string;
  cm_year : option string;
  cm_authors : list string;
  cm_doi : option string;
  cm_url : option string
}.

(** The loop of [_find_works_cited_heading], from line [i] on. *)
Fixpoint find_heading (lines : list string) (i : nat) : option nat :=
  match lines with
  | [] => None
  | line :: rest =>
      if String.eqb (PyStr.strip line) _WORKS_CITED_HEADING then Some i
      else find_heading rest (S i)
  end.

Definition _find_works_cited_heading (lines : list string) : result nat :=
  match find_heading lines 0 with
  | Some i => Ok i
  | None =>
      Raise (ValueError
               "Works cited heading not found: '#### **Works cited**'")
  end.

(** [str.upper] on one character. *)
Definition upper_char (c : ascii) : ascii :=
  if PyStr.islower c then ascii_of_nat (PyStr.code c - 32) else c.

(** The non-empty pieces of [re.split] on runs of separators: the
    maximal runs of other characters.  [cur] holds the run being read,
    reversed. *)
Fixpoint fields_from (sep : ascii -> bool) (l cur : list ascii)
  : list (list ascii) :=
  match l with
  | [] => match cur with [] => [] | _ => [rev cur] end
  | c :: t =>
      if sep c then
        match cur with
        | [] => fields_from sep t []
        | _ => rev cur :: fields_from sep t []
        end
      else fields_from sep t (c :: cur)
  end.

Definition fields (sep : ascii -> bool) (l : list ascii)
  : list (list ascii) :=
  fields_from sep l [].

(** [text.split(",", 1)] when the text holds a comma. *)
Fixpoint split_comma (l : list ascii) : option (list ascii * list ascii) :=
  match l with
  | [] => None
  | c :: t =>
      if Ascii.eqb c "," then Some ([], t)
      else match split_comma t with
           | Some (a, b) => Some (c :: a, b)
           | None => None
           end
  end.

(** The loop over the tokens of the given names: the first letter of
    each token that has one, in capitals, with a point. *)
Definition initials_of (given : string) : string :=
  PyStr.str
    (flat_map (fun token =>
                 match List.filter PyStr.isalpha token with
                 | [] => []
                 | a :: _ => [upper_char a; "."%char]
                 end)
              (fields (fun c => PyStr.isspace c || Ascii.eqb c "-")
                      (PyStr.chars given))).

Definition _family_and_initials (author : string) : string * string :=
  let text := PyStr.strip author in
  if negb (PyStr.truthy text) then ("", "")
  else
    match split_comma (PyStr.chars text) with
    | Some (family, given) =>
        (PyStr.strip (PyStr.str family),
         initials_of (PyStr.strip (PyStr.str given)))
    | None =>
        let parts := fields PyStr.isspace (PyStr.chars text) in
        match rev parts with
        | [] => ("", "")
        | [only] => (PyStr.str only, "")
        | family :: before =>
            (PyStr.str family,
             initials_of (PyStr.join " " (map PyStr.str (rev before))))
        end
    end.

Definition fmt_one (fi : string * string) : string :=
  if PyStr.truthy (snd fi) then fst fi +:+ ", " +:+ snd fi else fst fi.

Definition _format_authors_harvard (authors : list string)
  : string * string :=
  let families_and_initials :=
    List.filter (fun fi => PyStr.truthy (fst fi))
                (map _family_and_initials authors) in
  match families_and_initials with
  | [] => ("Anon.", "anon.")
  | first :: others =>
      let first_sort_key := PyStr.lower (fst first) in
      match others with
      | [] => (fmt_one first, first_sort_key)
      | [second] =>
          (fmt_one first +:+ " and " +:+ fmt_one second, first_sort_key)
      | _ => (fmt_one first +:+ " et al.", first_sort_key)
      end
  end.

(** [int(year_text) if year_text.isdigit() else None] *)
Definition year_number (year_text : string) : option Z :=
  match PyStr.chars year_text with
  | [] => None
  | l => if forallb PyStr.isdigit l then PyStr.parse_digits l 0%Z true
         else None
  end.

(** The tuple [_format_reference_entry] returns. *)
Record Entry : Type := {
  e_line : string;
  e_author_sort : string;
  e_year_num : option Z;
  e_title_sort : string
}.

Definition _format_reference_entry (meta : CandidateMeta) : Entry :=
  let '(authors_text, author_sort) :=
    _format_authors_harvard (cm_authors meta) in
  let year_text :=
    match cm_year meta with
    | Some y => if PyStr.truthy y && PyStr.truthy (PyStr.strip y)
                then PyStr.strip y else "n.d."
    | None => "n.d."
    end in
  let title := if PyStr.truthy (PyStr.strip (cm_title meta))
               then PyStr.strip (cm_title meta) else "Untitled" in
  let year_num := year_number year_text in
  let head := authors_text +:+ " (" +:+ year_text +:+ ") '" +:+ title
                +:+ "'." in
  let with_url :=
    match cm_url meta with
    | Some u => if PyStr.truthy u
                then head +:+ " Available at: " +:+ u +:+ "."
                else head
    | None => head
    end in
  let body :=
    match cm_doi meta with
    | Some d => if PyStr.truthy d then head +:+ " doi: " +:+ d +:+ "."
                else with_url
    | None => with_url
    end in
  {| e_line := "- " +:+ body +:+ " [[" +:+ cm_citekey meta +:+ "]]";
     e_author_sort := author_sort;
     e_year_num := year_num;
     e_title_sort := PyStr.lower title |}.

(** [sort_key] of [_build_reference_section]. *)
Definition sort_key (item : Entry) : Z * string * Z * string :=
  let anon := if String.eqb (e_author_sort item) "anon." then 1%Z
              else 0%Z in
  let year_sort := match e_year_num item with
                   | Some y => y
                   | None => 9999%Z
                   end in
  (anon, e_author_sort item, year_sort, e_title_sort item).

(** [<] on the sort keys: the first components that differ decide. *)
Definition key_lt (a b : Z * string * Z * string) : bool :=
  let '(a1, a2, a3, a4) := a in
  let '(b1, b2, b3, b4) := b in
  if negb (a1 =? b1)%Z then (a1 <? b1)%Z
  else if negb (String.eqb a2 b2) then String.ltb a2 b2
  else if negb (a3 =? b3)%Z then (a3 <? b3)%Z
  else String.ltb a4 b4.

Definition entry_lt (a b : Entry) : bool := key_lt (sort_key a) (sort_key b).

Definition untitled (ck : string) : CandidateMeta :=
  {| cm_citekey := ck; cm_title := "Untitled"; cm_year := None;
     cm_authors := []; cm_doi := None; cm_url := None |}.

Definition _build_reference_section (unique_citekeys : list string)
    (meta_by_citekey : PyDict.t CandidateMeta) : list string :=
  let entries :=
    map (fun ck =>
           _format_reference_entry
             (match PyDict.get ck meta_by_citekey with
              | Some meta => meta
              | None => untitled ck
              end))
        unique_citekeys in
  let entries := PySort.sort entry_lt entries in
  ["#### **Reference**"; ""] ++ map e_line entries ++ [""].

(** [entry_re = ^\s*(\d{1,3})\.\s+], applied with [match]. *)
Definition entry_re : regex :=
  seqs [Rep 0 None (Chr PyStr.isspace); Group (times 1 3 digit); chr ".";
        plus (Chr PyStr.isspace)].

(** [m.group(1)] of [entry_re.match(line)], if the line matches. *)
Definition entry_id (line : string) : option string :=
  match match_at entry_re (Cursor None (PyStr.chars line) 0) with
  | Some m => Some (group1_text (PyStr.chars line) m)
  | None => None
  end.

(** The first loop of [_append_links_in_works_cited]. *)
Definition starts_after (lines : list string) (works_idx : nat)
  : list (nat * string) :=
  flat_map (fun i =>
              match lines !! i with
              | Some line =>
                  match entry_id line with
                  | Some ref_id => [(i, ref_id)]
                  | None => []
                  end
              | None => []
              end)
           (seq (works_idx + 1)
                (Datatypes.length lines - (works_idx + 1))).

(** The body of its second loop.  [next_i] is above [start_i], so
    [next_i - 1] is a line of the list. *)
Definition link_entry (matched : PyDict.t string) (lines : list string)
    (pair : (nat * string) * (nat * string)) : list string :=
  let '((start_i, ref_id), (next_i, _)) := pair in
  match PyDict.get ref_id matched with
  | Some citekey =>
      if negb (PyStr.truthy citekey) then lines
      else
        let end_i := (next_i - 1)%nat in
        if (end_i <? start_i)%nat then lines
        else
          match lines !! end_i with
          | Some line =>
              let marker := "[[" +:+ citekey +:+ "]]" in
              if PyStr.contains line marker then lines
              else <[end_i := PyStr.str (PyStr.rstrip_by PyStr.isspace
                                           (PyStr.chars line))
                              +:+ " " +:+ marker]> lines
          | None => lines
          end
  | None => lines
  end.

(** Returns the list as the call leaves it. *)
Definition _append_links_in_works_cited (lines : list string)
    (works_idx : nat) (matched : PyDict.t string) : list string :=
  match starts_after lines works_idx with
  | [] => lines
  | starts =>
      let starts := starts ++ [(Datatypes.length lines, "__END__")] in
      fold_left (link_entry matched) (combine starts (tl starts)) lines
  end.

(** The loop of [process_gemini_dr] over the items of [matched]. *)
Definition unique_citekeys (matched : PyDict.t string) : list string :=
  fold_left (fun unique '(_, citekey) =>
               if existsb (String.eqb citekey) unique then unique
               else unique ++ [citekey])
            (PyDict.items matched) [].

Section WithRepr.
Variable py_repr : json -> string.

Abbreviation str := (Json.str py_repr).

(** [str(v or "").strip()] *)
Definition text_of (v : json) : string :=
  PyStr.strip (str (Json.or_else v (JStr ""))).

(** What the loop of [_build_matched_map] files for an entry, if
    anything. *)
Definition matched_entry (r : json) : option (string * string) :=
  match r with
  | JObj r =>
      let ref_id := text_of (Json.get "ref_id" r) in
      match Json.get "match" r with
      | JObj m =>
          if negb (PyStr.truthy ref_id) then None
          else
            match Json.get "status" m with
            | JStr status =>
                if negb (String.eqb status "matched") then None
                else
                  let citekey := text_of (Json.get "citekey" m) in
                  if negb (PyStr.truthy citekey) then None
                  else Some (ref_id, citekey)
            | _ => None
            end
      | _ => None
      end
  | _ => None
  end.

Definition _build_matched_map (match_result : list (string * json))
  : result (PyDict.t string) :=
  match Json.get "refs" match_result with
  | JList refs =>
      Ok (fold_left (fun out r =>
                       match matched_entry r with
                       | Some (ref_id, citekey) =>
                           PyDict.set ref_id citekey out
                       | None => out
                       end)
                    refs [])
  | _ => Raise (ValueError "match_result.json missing refs[]")
  end.

Definition _iter_candidate_objects (match_result : list (string * json))
  : list (list (string * json)) :=
  match Json.get "refs" match_result with
  | JList refs =>
      flat_map (fun r =>
                  match r with
                  | JObj r =>
                      match Json.get "candidates" r with
                      | JList candidates =>
                          flat_map (fun c => match c with
                                             | JObj c => [c]
                                             | _ => []
                                             end)
                                   candidates
                      | _ => []
                      end
                  | _ => []
                  end)
               refs
  | _ => []
  end.

(** [str(v).strip() if v is not None and str(v).strip() else None] *)
Definition text_or_none (v : json) : option string :=
  match v with
  | JNull => None
  | _ => or_none (PyStr.strip (str v))
  end.

Definition meta_of (citekey : string) (c : list (string * json))
  : CandidateMeta :=
  {| cm_citekey := citekey;
     cm_title := text_of (Json.get "title" c);
     cm_year := text_or_none (Json.get "year" c);
     cm_authors :=
       match Json.get "authors" c with
       | JList authors_raw =>
           List.filter PyStr.truthy
                       (map (fun a => PyStr.strip (str a)) authors_raw)
       | _ => []
       end;
     cm_doi := text_or_none (Json.get "doi" c);
     cm_url := text_or_none (Json.get "url" c) |}.

Definition _build_candidate_meta_by_citekey
    (match_result : list (string * json)) : PyDict.t CandidateMeta :=
  fold_left (fun out c =>
               let citekey := text_of (Json.get "citekey" c) in
               if negb (PyStr.truthy citekey) || PyDict.mem citekey out
               then out
               else PyDict.set citekey (meta_of citekey c) out)
            (_iter_candidate_objects match_result) [].

End WithRepr.
End GeminiDrLink.

(* ===================================================================== *)
(** * Properties: the link tables of gemini_dr_link.py *)
(* ===================================================================== *)

Module GeminiFacts.
Import GeminiDrLink PyDictProps PyDictFacts PyStrFacts.

Section WithRepr.
Variable py_repr : json -> string.


(** The metadata of the candidates that carry [citekey], in order. *)
Definition carrying (citekey : string) (cands : list (list (string * json)))
  : list CandidateMeta :=
  flat_map (fun c =>
              if String.eqb (text_of py_repr (Json.get "citekey" c)) citekey
              then [meta_of py_repr citekey c] else [])
           cands.




Definition file_meta (out : PyDict.t CandidateMeta)
    (c : list (string * json)) : PyDict.t CandidateMeta :=
  let citekey := text_of py_repr (Json.get "citekey" c) in
  if negb (PyStr.truthy citekey) || PyDict.mem citekey out then out
  else PyDict.set citekey (meta_of py_repr citekey c) out.

Lemma meta_loop_first cands (citekey : string) : forall out,
  PyDict.get citekey (fold_left file_meta cands out)
  = match PyDict.get citekey out with
    | Some meta => Some meta
    | None => if PyStr.truthy citekey then head (carrying citekey cands)
              else None
    end.
Proof.
  induction cands as [|c cands IH]; intros out; simpl.
  - destruct (PyDict.get citekey out); [reflexivity|].
    destruct (PyStr.truthy citekey); reflexivity.
  - rewrite IH. unfold file_meta, carrying. simpl.
    fold (carrying citekey cands).
    destruct (String.eqb_spec (text_of py_repr (Json.get "citekey" c))
                citekey) as [E|E].
    + rewrite E. unfold PyDict.mem.
      destruct (PyDict.get citekey out) as [meta|] eqn:Eo.
      * rewrite orb_true_r, Eo. reflexivity.
      * destruct (PyStr.truthy citekey); simpl; [|now rewrite Eo].
        now rewrite get_set_same.
    + destruct (negb _ || PyDict.mem _ out); [reflexivity|].
      rewrite get_set_other by exact E. reflexivity.
Qed.

(** A metadata entry of the table was made from a candidate, for the
    key it is filed under. *)
Lemma link_tables_meta (match_result : list (string * json))
    (citekey : string) (meta : CandidateMeta) :
  PyDict.get citekey (_build_candidate_meta_by_citekey py_repr match_result)
  = Some meta ->
  exists c, meta = meta_of py_repr citekey c.
Proof.
  unfold _build_candidate_meta_by_citekey.
  change (fold_left _ (_iter_candidate_objects match_result) [])
    with (fold_left file_meta (_iter_candidate_objects match_result) []).
  rewrite meta_loop_first. simpl.
  destruct (PyStr.truthy citekey); [|discriminate].
  intros H.
  assert (Hin : In meta (carrying citekey
                           (_iter_candidate_objects match_result))).
  { destruct (carrying citekey _); [discriminate|].
    injection H as ->. now left. }
  unfold carrying in Hin. apply in_flat_map in Hin as (c & _ & Hc).
  destruct (String.eqb _ citekey); [|contradiction].
  destruct Hc as [<-|[]]. eauto.
Qed.


End WithRepr.
End GeminiFacts.

Module SectionFacts.
Import GeminiDrLink PyDictProps PyDictFacts PyStrFacts.

(** ** The reference section *)

Definition entry_of (metas : PyDict.t CandidateMeta) (ck : string) : Entry :=
  _format_reference_entry
    (match PyDict.get ck metas with
     | Some meta => meta
     | None => untitled ck
     end).

(** The entry is a list item that ends with the link to [ck]. *)
Definition links_to (ck : string) (e : Entry) : Prop :=
  exists text, e_line e = "- " +:+ text +:+ " [[" +:+ ck +:+ "]]".

Definition anonymous (e : Entry) : Prop := e_author_sort e = "anon.".

Lemma format_reference_entry_links meta :
  links_to (cm_citekey meta) (_format_reference_entry meta).
Proof.
  unfold links_to, _format_reference_entry.
  destruct (_format_authors_harvard (cm_authors meta)) as [a s].
  simpl. eexists. reflexivity.
Qed.

Lemma unique_loop items : forall unique,
  List.NoDup unique ->
  let out := fold_left (fun unique '(_, citekey) =>
                          if existsb (String.eqb citekey) unique then unique
                          else unique ++ [citekey])
                       items unique in
  List.NoDup out
  /\ forall ck, In ck out
                <-> In ck unique \/ exists id : string, In (id, ck) items.
Proof.
  induction items as [|[id ck0] items IH]; intros unique Hnd; simpl.
  - split; [exact Hnd|]. intros ck. split; [auto|].
    intros [H|[i []]]. exact H.
  - assert (Hex : existsb (String.eqb ck0) unique = true <-> In ck0 unique).
    { rewrite existsb_exists. split.
      - intros (x & Hx & E). apply String.eqb_eq in E. now subst.
      - intros H. exists ck0. split; [exact H | apply String.eqb_refl]. }
    destruct (existsb (String.eqb ck0) unique) eqn:E.
    + destruct (IH unique Hnd) as [Hn Hin]. split; [exact Hn|].
      intros ck. rewrite Hin. split.
      * intros [H|[i H]]; [auto | right; exists i; now right].
      * intros [H|[i [[= <- <-]|H]]]; [auto | | right; eauto].
        left. now apply Hex.
    + assert (Hnd' : List.NoDup (unique ++ [ck0])).
      { apply List.NoDup_app; [exact Hnd | repeat constructor; intros [] |].
        intros x Hx [<-|[]].
        apply Hex in Hx. congruence. }
      destruct (IH _ Hnd') as [Hn Hin]. split; [exact Hn|].
      intros ck. rewrite Hin, in_app_iff. simpl. split.
      * intros [[H|[<-|[]]]|[i H]]; [auto | | right; exists i; now right].
        right. exists id. now left.
      * intros [H|[i [[= <- <-]|H]]]; [auto | auto | right; eauto].
Qed.

Lemma entry_lt_anonymous a b :
  (entry_lt a b = true -> anonymous a -> anonymous b)
  /\ (entry_lt a b = false -> anonymous b -> anonymous a).
Proof.
  unfold entry_lt, sort_key, key_lt, anonymous.
  destruct (String.eqb_spec (e_author_sort a) "anon.") as [Ea|Ea];
    destruct (String.eqb_spec (e_author_sort b) "anon.") as [Eb|Eb];
    simpl; split; intros H; auto; try discriminate; try congruence.
Qed.

(** X23. The reference section built for the citekeys of the matched
    map holds, between its heading with a blank line and a closing
    blank line, exactly one list item per distinct citekey of the map,
    each ending with the link to its citekey; the items of entries
    without an author come after all others. *)
Theorem reference_section_lists_each_citekey_once
    (py_repr : json -> string) (match_result : list (string * json))
    (matched : PyDict.t string) :
  let metas := _build_candidate_meta_by_citekey py_repr match_result in
  let cks := unique_citekeys matched in
  List.NoDup cks
  /\ (forall ck, In ck cks <-> exists id : string, In (id, ck) matched)
  /\ exists entries,
       _build_reference_section cks metas
       = ["#### **Reference**"; ""] ++ map e_line entries ++ [""]
       /\ Permutation entries (map (entry_of metas) cks)
       /\ (forall ck, links_to ck (entry_of metas ck))
       /\ StronglySorted (fun a b => anonymous a -> anonymous b) entries.
Proof.
  intros metas cks.
  destruct (unique_loop (PyDict.items matched) [] (List.NoDup_nil _))
    as [Hnd Hin].
  split; [exact Hnd|]. split.
  { intros ck. unfold cks, unique_citekeys. rewrite (Hin ck).
    split; [intros [[]|H]; exact H | auto]. }
  exists (PySort.sort entry_lt (map (entry_of metas) cks)).
  split; [reflexivity|]. split; [|split].
  - unfold PySort.sort. rewrite PySortProps.sort_from_perm. reflexivity.
  - intros ck. unfold entry_of.
    destruct (PyDict.get ck metas) as [meta|] eqn:E.
    + assert (Hck : cm_citekey meta = ck).
      { unfold metas in E.
        destruct (GeminiFacts.link_tables_meta py_repr match_result ck meta E)
          as (c & ->). reflexivity. }
      rewrite <- Hck at 1. apply format_reference_entry_links.
    + apply (format_reference_entry_links (untitled ck)).
  - apply (SortFacts.sort_sorted entry_lt
             (fun a b => anonymous a -> anonymous b) (fun _ => True)).
    + intros a b. apply entry_lt_anonymous.
    + intros a b. apply entry_lt_anonymous.
    + intros a b c _ Hab Hbc Ha. auto.
    + apply List.Forall_forall. intros. exact I.
Qed.

End SectionFacts.

(* ===================================================================== *)
(** * Properties: the links in the works cited *)
(* ===================================================================== *)

Module LinkFacts.
Import Re GeminiDrLink PyStrFacts ReFacts ExtractFacts.

(** One to three digits. *)
Definition entry_number (id : string) : Prop :=
  exists w, id = PyStr.str w /\ digits w
            /\ (1 <= Datatypes.length w <= 3)%nat.

Lemma entry_id_number line id :
  entry_id line = Some id -> entry_number id.
Proof.
  unfold entry_id.
  destruct (match_at entry_re (Cursor None (PyStr.chars line) 0))
    as [m|] eqn:Em; [|discriminate].
  intros [= <-]. unfold match_at in Em.
  apply run_sound in Em as (c' & g & Hs & [= <-]).
  set (c := Cursor None (PyStr.chars line) 0) in *.
  assert (Hc : in_text (PyStr.chars line) c) by reflexivity.
  unfold entry_re in Hs. simpl in Hs.
  apply steps_seq_inv in Hs as (c1 & g1 & Hsp & Hs).
  pose proof (steps_groupless _ _ _ _ _ Hsp eq_refl) as ->.
  apply steps_moved in Hsp as (w0 & Hm0 & _).
  destruct (in_text_moved _ _ _ _ Hc Hm0) as (Hc1 & _).
  apply steps_seq_inv in Hs as (c2 & g2 & Hg & Hs).
  apply steps_group_inv in Hg as [-> (g1 & Hbody)].
  apply steps_seq_inv in Hs as (c3 & g3 & Hdot & Hs).
  pose proof (steps_groupless _ _ _ _ _ Hdot eq_refl) as ->.
  apply steps_seq_inv in Hs as (c4 & g4 & Hsp2 & Hs).
  pose proof (steps_groupless _ _ _ _ _ Hsp2 eq_refl) as ->.
  apply steps_eps_inv in Hs as [-> ->].
  apply steps_moved in Hbody as (w & Hm & Hl).
  destruct (captured_text _ c c4 c1 c2 w Hc1 Hm) as [Ht _].
  simpl pos at 1 in Ht. rewrite Ht.
  apply lang_rep_class in Hl as (Hd & Hlo & Hhi).
  specialize (Hhi 3%nat eq_refl).
  exists w. split; [reflexivity|]. split; [exact Hd | lia].
Qed.

Section Links.
Variable matched : PyDict.t string.

(** A line as the call leaves it: as it was, or with the link of a
    numbered entry at its end. *)
Definition linked (old new : string) : Prop :=
  new = old
  \/ exists id ck,
       PyDict.get id matched = Some ck /\ ck <> ""
       /\ entry_number id
       /\ PyStr.contains old ("[[" +:+ ck +:+ "]]") = false
       /\ new = PyStr.str (PyStr.rstrip_by PyStr.isspace (PyStr.chars old))
                  +:+ " " +:+ "[[" +:+ ck +:+ "]]".

(** The loop has not yet touched the lines from [bound] on, and never
    touches those before [lo]. *)
Definition progress (lines cur : list string) (lo bound : nat) : Prop :=
  Forall2 linked lines cur
  /\ (forall j, (bound <= j)%nat -> cur !! j = lines !! j)
  /\ (forall j, (j < lo)%nat -> cur !! j = lines !! j).

Lemma link_entry_progress lines cur lo a b :
  progress lines cur lo (fst a) ->
  (lo <= fst a)%nat -> (fst a < fst b)%nat -> entry_number (snd a) ->
  progress lines (link_entry matched cur (a, b)) lo (fst b).
Proof.
  destruct a as [start_i ref_id], b as [next_i other]. simpl.
  intros (Hall & Hafter & Hbefore) Hlo Hnext Hid.
  assert (Hkeep : progress lines cur lo next_i).
  { split; [exact Hall|]. split; [|exact Hbefore].
    intros j Hj. apply Hafter. lia. }
  destruct (PyDict.get ref_id matched) as [ck|] eqn:Hget; [|exact Hkeep].
  destruct (PyStr.truthy ck) eqn:Hck; simpl; [|exact Hkeep].
  destruct (next_i - 1 <? start_i)%nat eqn:Hend; [exact Hkeep|].
  apply Nat.ltb_ge in Hend.
  destruct (cur !! (next_i - 1)%nat) as [line|] eqn:Hline; [|exact Hkeep].
  destruct (PyStr.contains line ("[[" +:+ ck +:+ "]]")) eqn:Hmark;
    [exact Hkeep|].
  assert (Horig : lines !! (next_i - 1)%nat = Some line).
  { rewrite <- Hline. symmetry. now apply Hafter. }
  split; [|split].
  - rewrite <- (list_insert_id lines (next_i - 1)%nat line Horig).
    apply Forall2_insert; [exact Hall|].
    right. exists ref_id, ck.
    split; [exact Hget|]. split; [now apply truthy_ne|].
    split; [exact Hid|]. split; [exact Hmark | reflexivity].
  - intros j Hj. rewrite list_lookup_insert_ne by lia. apply Hafter. lia.
  - intros j Hj. rewrite list_lookup_insert_ne by lia. now apply Hbefore.
Qed.

(** The entries found: numbered, in the order of their lines, all
    after line [lo] and in the list. *)
Definition entries_at (lo len : nat) (starts : list (nat * string)) : Prop :=
  StronglySorted (fun p q => (fst p < fst q)%nat) starts
  /\ Forall (fun p => (lo <= fst p < len)%nat /\ entry_number (snd p)) starts.

Lemma link_loop_progress lines lo z : forall ss s0 cur,
  progress lines cur lo (fst s0) ->
  entries_at lo (fst z) (s0 :: ss) ->
  progress lines
    (fold_left (link_entry matched) (combine (s0 :: ss) (ss ++ [z])) cur)
    lo (fst z).
Proof.
  induction ss as [|s1 ss IH]; intros s0 cur Hp [Hs Hf].
  - simpl. inversion Hf as [|? ? [Hb Hid] _]; subst.
    apply link_entry_progress; auto; lia.
  - change (fold_left (link_entry matched)
              (combine (s0 :: s1 :: ss) ((s1 :: ss) ++ [z])) cur)
      with (fold_left (link_entry matched)
              (combine (s1 :: ss) (ss ++ [z]))
              (link_entry matched cur (s0, s1))).
    inversion Hs as [|? ? Hs' Hlt]; subst.
    inversion Hf as [|? ? [Hb Hid] Hf']; subst.
    inversion Hlt as [|? ? Hlt1 _]; subst.
    apply IH; [|split; assumption].
    apply link_entry_progress; auto; lia.
Qed.

End Links.

Lemma combine_shorter {A B : Type} (l1 extra : list A) (l2 : list B) :
  Datatypes.length l1 = Datatypes.length l2 ->
  combine (l1 ++ extra) l2 = combine l1 l2.
Proof.
  revert l2. induction l1 as [|a l1 IH]; intros [|b l2] H; simpl in *;
    try discriminate.
  - now destruct extra.
  - f_equal. apply IH. lia.
Qed.

Lemma starts_after_entries lines works_idx :
  entries_at (works_idx + 1) (Datatypes.length lines)
             (starts_after lines works_idx).
Proof.
  unfold starts_after.
  generalize (Datatypes.length lines - (works_idx + 1))%nat as k.
  generalize (works_idx + 1)%nat as n.
  intros n k. revert n.
  assert (Hgen : forall n,
             StronglySorted (fun p q : nat * string => (fst p < fst q)%nat)
               (flat_map
                  (fun i =>
                     match lines !! i with
                     | Some line =>
                         match entry_id line with
                         | Some ref_id => [(i, ref_id)]
                         | None => []
                         end
                     | None => []
                     end) (seq n k))
             /\ Forall (fun p : nat * string =>
                          (n <= fst p < Datatypes.length lines)%nat
                          /\ entry_number (snd p))
                  (flat_map
                     (fun i =>
                        match lines !! i with
                        | Some line =>
                            match entry_id line with
                            | Some ref_id => [(i, ref_id)]
                            | None => []
                            end
                        | None => []
                        end) (seq n k))).
  { induction k as [|k IH]; intros n; simpl.
    - split; constructor.
    - destruct (IH (S n)) as [Hs Hf].
      assert (Hf' : Forall (fun p : nat * string =>
                              (n <= fst p < Datatypes.length lines)%nat
                              /\ entry_number (snd p))
                      (flat_map
                         (fun i =>
                            match lines !! i with
                            | Some line =>
                                match entry_id line with
                                | Some ref_id => [(i, ref_id)]
                                | None => []
                                end
                            | None => []
                            end) (seq (S n) k))).
      { eapply Forall_impl; [exact Hf|]. simpl. intros p [Hp Hid].
        split; [lia | exact Hid]. }
      destruct (lines !! n) as [line|] eqn:Hline; [|split; assumption].
      destruct (entry_id line) as [id|] eqn:Hid; [|split; assumption].
      simpl. split.
      + constructor; [exact Hs|].
        eapply Forall_impl; [exact Hf|]. simpl. intros p [Hp _]. lia.
      + constructor; [|exact Hf'].
        simpl. split; [|eapply entry_id_number; eauto].
        apply lookup_lt_Some in Hline. lia. }
  intros n. apply Hgen.
Qed.

(** The call keeps the number of lines, every line is as it was or with
    a link of the matched map at its end, the lines up to the heading are
    as they were, and an empty map changes nothing. *)
Lemma links_frame (lines : list string)
    (works_idx : nat) (matched : PyDict.t string) :
  let out := _append_links_in_works_cited lines works_idx matched in
  Forall2 (linked matched) lines out
  /\ (forall j, (j <= works_idx)%nat -> out !! j = lines !! j)
  /\ (matched = [] -> out = lines).
Proof.
  intros out.
  assert (Hp : progress matched lines out (works_idx + 1)
                 (Datatypes.length lines)
               \/ out = lines).
  { unfold out, _append_links_in_works_cited.
    pose proof (starts_after_entries lines works_idx) as Hent.
    destruct (starts_after lines works_idx) as [|s0 ss]; [now right|].
    left.
    change (tl ((s0 :: ss) ++ [(Datatypes.length lines, "__END__")]))
      with (ss ++ [(Datatypes.length lines, "__END__")]).
    change ((s0 :: ss) ++ [(Datatypes.length lines, "__END__")])
      with ((s0 :: ss) ++ [(Datatypes.length lines, "__END__")]).
    rewrite combine_shorter
      by (simpl; rewrite length_app; simpl; lia).
    apply (link_loop_progress matched lines (works_idx + 1)
             (Datatypes.length lines, "__END__") ss s0 lines);
      [|exact Hent].
    split; [|split]; auto.
    clear. induction lines; constructor; [now left | assumption]. }
  assert (Hall : Forall2 (linked matched) lines out).
  { destruct Hp as [(H & _)| ->]; [exact H|].
    clear. induction lines; constructor; [now left | assumption]. }
  split; [exact Hall|]. split.
  - intros j Hj. destruct Hp as [(_ & _ & H)| ->]; [|reflexivity].
    apply H. lia.
  - intros ->. symmetry. clear Hp.
    induction Hall as [|l o ls os [->|(id & ck & Hget & _)] _ IH];
      [reflexivity | now f_equal | discriminate Hget].
Qed.

(** The number of the entry that line [i] starts, if it starts one. *)
Definition entry_at (lines : list string) (i : nat) : option string :=
  line ← lines !! i; entry_id line.

Definition entries_from (lines : list string) (n k : nat)
  : list (nat * string) :=
  flat_map (fun i => match entry_at lines i with
                     | Some id => [(i, id)]
                     | None => []
                     end)
           (seq n k).

Lemma starts_after_from lines works_idx :
  starts_after lines works_idx
  = entries_from lines (works_idx + 1)
      (Datatypes.length lines - (works_idx + 1)).
Proof.
  unfold starts_after, entries_from. apply flat_map_ext. intros i.
  unfold entry_at. destruct (lines !! i); reflexivity.
Qed.

Lemma entries_from_step lines n k :
  entries_from lines n (S k)
  = match entry_at lines n with
    | Some id => (n, id) :: entries_from lines (S n) k
    | None => entries_from lines (S n) k
    end.
Proof.
  unfold entries_from. simpl. destruct (entry_at lines n); reflexivity.
Qed.

(** The first entry found from line [n] on. *)
Lemma entries_from_first lines : forall k n,
  match entries_from lines n k with
  | [] => forall i, (n <= i < n + k)%nat -> entry_at lines i = None
  | (s, id) :: rest =>
      (n <= s < n + k)%nat /\ entry_at lines s = Some id
      /\ (forall i, (n <= i < s)%nat -> entry_at lines i = None)
      /\ rest = entries_from lines (S s) (n + k - S s)
  end.
Proof.
  induction k as [|k IH]; intros n.
  - simpl. intros i Hi. lia.
  - rewrite entries_from_step. destruct (entry_at lines n) as [id|] eqn:En.
    + split; [lia|]. split; [exact En|]. split; [intros i Hi; lia|].
      f_equal. lia.
    + specialize (IH (S n)).
      destruct (entries_from lines (S n) k) as [|[s id] rest].
      * intros i Hi. destruct (decide (i = n)) as [->|Hne]; [exact En|].
        apply IH. lia.
      * destruct IH as (Hs & He & Hnone & Hrest).
        split; [lia|]. split; [exact He|]. split.
        -- intros i Hi. destruct (decide (i = n)) as [->|Hne]; [exact En|].
           apply Hnone. lia.
        -- rewrite Hrest. f_equal. lia.
Qed.

Section Settled.
Variable lines : list string.
Variable works_idx : nat.
Variable matched : PyDict.t string.

(** Line [j] is the last line of the entry numbered [id] that starts at
    line [start], below the heading: no entry starts after [start] up to
    [j], and the list ends after [j] or an entry starts there. *)
Definition closes (j start : nat) (id : string) : Prop :=
  (works_idx < start <= j)%nat
  /\ entry_at lines start = Some id
  /\ (forall i, (start < i <= j)%nat -> entry_at lines i = None)
  /\ (S j = Datatypes.length lines \/ is_Some (entry_at lines (S j))).

Definition link_text (old ck : string) : string :=
  PyStr.str (PyStr.rstrip_by PyStr.isspace (PyStr.chars old))
    +:+ " " +:+ "[[" +:+ ck +:+ "]]".

(** [new] is line [j] with the link of its entry appended. *)
Definition links_to (j : nat) (old new : string) : Prop :=
  exists start id ck,
    closes j start id /\ entry_number id
    /\ PyDict.get id matched = Some ck /\ ck <> ""
    /\ PyStr.contains old ("[[" +:+ ck +:+ "]]") = false
    /\ new = link_text old ck.

(** Line [j] as the call leaves it: with the link appended where one
    is due, and as it was where none is. *)
Definition settled (j : nat) (old new : string) : Prop :=
  links_to j old new
  \/ (new = old /\ forall new', ~ links_to j old new').

Lemma closes_unique j start id start' id' :
  closes j start id -> closes j start' id' -> start = start' /\ id = id'.
Proof.
  intros (Hr & He & Hn & _) (Hr' & He' & Hn' & _).
  assert (start = start') as <-.
  { destruct (lt_eq_lt_dec start start') as [[Hlt|Heq]|Hgt]; [|exact Heq|].
    - rewrite (Hn start') in He' by lia. discriminate.
    - rewrite (Hn' start) in He by lia. discriminate. }
  split; [reflexivity | congruence].
Qed.

Lemma entry_at_number i id : entry_at lines i = Some id -> entry_number id.
Proof.
  unfold entry_at. destruct (lines !! i) as [line|]; [|discriminate].
  apply entry_id_number.
Qed.

(** One turn of the second loop settles the lines of its entry. *)
Lemma link_entry_settles cur start id next other :
  (works_idx < start < next)%nat ->
  (next <= Datatypes.length lines)%nat ->
  entry_at lines start = Some id ->
  (forall i, (start < i < next)%nat -> entry_at lines i = None) ->
  (next = Datatypes.length lines \/ is_Some (entry_at lines next)) ->
  (forall j, (start <= j)%nat -> cur !! j = lines !! j) ->
  (forall j, (j < start \/ next <= j)%nat ->
     link_entry matched cur ((start, id), (next, other)) !! j = cur !! j)
  /\ (forall j old, (start <= j < next)%nat -> lines !! j = Some old ->
        exists new,
          link_entry matched cur ((start, id), (next, other)) !! j = Some new
          /\ settled j old new).
Proof.
  intros Hr Hlen He Hnone Hnext Hcur.
  assert (Hcloses : closes (next - 1) start id).
  { split; [lia|]. split; [exact He|]. split.
    - intros i Hi. apply Hnone. lia.
    - replace (S (next - 1)) with next by lia.
      destruct Hnext as [->|H]; auto. }
  assert (Hinner : forall j old new',
             (start <= j < next - 1)%nat -> ~ links_to j old new').
  { intros j old new' Hj (s & i & ck & (Hs & Hes & Hns & Hend) & _).
    destruct Hend as [Hend|[x Hx]]; [lia|].
    assert (Hle : (s <= start)%nat).
    { destruct (le_lt_dec s start) as [H|H]; [exact H|].
      rewrite (Hnone s) in Hes by lia. discriminate. }
    rewrite (Hnone (S j)) in Hx by lia. discriminate. }
  assert (Hkeep : forall j old, (start <= j < next)%nat ->
             lines !! j = Some old ->
             (forall new', ~ links_to (next - 1) old new'
                           \/ j <> (next - 1)%nat) ->
             exists new, cur !! j = Some new /\ settled j old new).
  { intros j old Hj Hold Hno. exists old.
    split; [rewrite Hcur by lia; exact Hold|].
    right. split; [reflexivity|]. intros new' Hl.
    destruct (decide (j = next - 1)%nat) as [->|Hne].
    - destruct (Hno new') as [H|H]; [now apply H | now apply H].
    - apply (Hinner j old new'); [lia | exact Hl]. }
  assert (Hnolink : forall old,
             (forall ck, PyDict.get id matched = Some ck -> ck <> "" ->
                         PyStr.contains old ("[[" +:+ ck +:+ "]]") = true) ->
             forall new', ~ links_to (next - 1) old new').
  { intros old Hno new' (s & i & ck & Hc & _ & Hget & Hck & Hmark & _).
    destruct (closes_unique _ _ _ _ _ Hc Hcloses) as [-> ->].
    rewrite (Hno ck Hget Hck) in Hmark. discriminate. }
  unfold link_entry.
  destruct (PyDict.get id matched) as [ck|] eqn:Hget.
  2:{ split; [reflexivity|]. intros j old Hj Hold.
      apply Hkeep; auto. intros new'. left. apply Hnolink.
      intros ck H. discriminate H. }
  destruct (PyStr.truthy ck) eqn:Hck; simpl.
  2:{ split; [reflexivity|]. intros j old Hj Hold.
      apply Hkeep; auto. intros new'. left. apply Hnolink.
      intros ck' [= <-] Hne. exfalso. apply Hne.
      unfold PyStr.truthy in Hck. apply negb_false_iff in Hck.
      now apply String.eqb_eq in Hck. }
  destruct (next - 1 <? start)%nat eqn:Hend;
    [apply Nat.ltb_lt in Hend; lia|].
  assert (Hlast : is_Some (lines !! (next - 1)%nat))
    by (apply lookup_lt_is_Some; lia).
  destruct Hlast as [line Hline].
  rewrite (Hcur (next - 1)%nat) by lia. rewrite Hline.
  destruct (PyStr.contains line ("[[" +:+ ck +:+ "]]")) eqn:Hmark.
  { split; [reflexivity|]. intros j old Hj Hold.
    apply Hkeep; auto. intros new'.
    destruct (decide (j = next - 1)%nat) as [->|Hne]; [|now right].
    left. apply Hnolink. intros ck' [= <-] _. congruence. }
  split.
  - intros j Hj. apply list_lookup_insert_ne. lia.
  - intros j old Hj Hold.
    destruct (decide (j = next - 1)%nat) as [->|Hne].
    + exists (link_text line ck). split.
      * apply list_lookup_insert_eq.
        assert (H : is_Some (cur !! (next - 1)%nat))
          by (rewrite Hcur by lia; eauto).
        now apply lookup_lt_is_Some in H.
      * left. exists start, id, ck.
        assert (old = line) as -> by congruence.
        split; [exact Hcloses|]. split; [eapply entry_at_number; eauto|].
        split; [exact Hget|]. split; [now apply truthy_ne|].
        split; [exact Hmark | reflexivity].
    + rewrite list_lookup_insert_ne by lia.
      apply Hkeep; auto.
Qed.


(** The second loop settles every line from the open entry on, and
    leaves alone the lines before it. *)
Lemma link_loop_settles z :
  z = (Datatypes.length lines, "__END__") ->
  forall k n start id cur,
    (n + k)%nat = Datatypes.length lines ->
    (works_idx < start < n)%nat ->
    entry_at lines start = Some id ->
    (forall i, (start < i < n)%nat -> entry_at lines i = None) ->
    (forall j, (start <= j)%nat -> cur !! j = lines !! j) ->
    (forall j, (j < start)%nat ->
       fold_left (link_entry matched)
         (combine ((start, id) :: entries_from lines n k)
                  (entries_from lines n k ++ [z])) cur !! j
       = cur !! j)
    /\ (forall j old, (start <= j)%nat -> lines !! j = Some old ->
          exists new,
            fold_left (link_entry matched)
              (combine ((start, id) :: entries_from lines n k)
                       (entries_from lines n k ++ [z])) cur !! j
            = Some new
            /\ settled j old new).
Proof.
  intros ->. induction k as [|k IH]; intros n start id cur Hn Hr He Hnone Hcur.
  - simpl.
    assert (Hnone' : forall i, (start < i < Datatypes.length lines)%nat ->
               entry_at lines i = None)
      by (intros i Hi; apply Hnone; lia).
    destruct (link_entry_settles cur start id (Datatypes.length lines)
                "__END__" ltac:(lia) ltac:(lia) He Hnone'
                (or_introl eq_refl) Hcur) as [Hout Hin].
    split.
    + intros j Hj. apply Hout. lia.
    + intros j old Hj Hold. apply Hin; [|exact Hold].
      apply lookup_lt_Some in Hold. lia.
  - rewrite entries_from_step.
    destruct (entry_at lines n) as [id'|] eqn:En.
    + change (fold_left (link_entry matched)
                (combine ((start, id) :: (n, id') :: entries_from lines (S n) k)
                   (((n, id') :: entries_from lines (S n) k)
                      ++ [(Datatypes.length lines, "__END__")])) cur)
        with (fold_left (link_entry matched)
                (combine ((n, id') :: entries_from lines (S n) k)
                   (entries_from lines (S n) k
                      ++ [(Datatypes.length lines, "__END__")]))
                (link_entry matched cur ((start, id), (n, id')))).
      assert (Hnext : n = Datatypes.length lines
                      \/ is_Some (entry_at lines n))
        by (right; rewrite En; eauto).
      destruct (link_entry_settles cur start id n id'
                  ltac:(lia) ltac:(lia) He Hnone Hnext Hcur) as [Hout Hin].
      assert (Hnone' : forall i, (n < i < S n)%nat -> entry_at lines i = None)
        by (intros i Hi; lia).
      assert (Hcur' : forall j, (n <= j)%nat ->
                 link_entry matched cur ((start, id), (n, id')) !! j
                 = lines !! j).
      { intros j Hj. rewrite Hout by lia. apply Hcur. lia. }
      destruct (IH (S n) n id'
                  (link_entry matched cur ((start, id), (n, id')))
                  ltac:(lia) ltac:(lia) En Hnone' Hcur')
        as [Hbefore Hfrom].
      split.
      * intros j Hj. rewrite Hbefore by lia. apply Hout. lia.
      * intros j old Hj Hold.
        destruct (le_lt_dec n j) as [Hge|Hlt]; [now apply Hfrom|].
        rewrite Hbefore by lia. apply Hin; [lia | exact Hold].
    + apply IH; auto; try lia.
      intros i Hi. destruct (decide (i = n)) as [->|Hne]; [exact En|].
      apply Hnone. lia.
Qed.

(** No link is due on a line that no entry reaches. *)
Lemma no_entry_no_link j old new :
  (forall i, (works_idx < i <= j)%nat -> entry_at lines i = None) ->
  ~ links_to j old new.
Proof.
  intros Hnone (s & i & ck & (Hs & He & _) & _).
  rewrite (Hnone s) in He by lia. discriminate.
Qed.

Lemma append_links_settles j old :
  lines !! j = Some old ->
  exists new,
    _append_links_in_works_cited lines works_idx matched !! j = Some new
    /\ settled j old new.
Proof.
  intros Hold. pose proof (lookup_lt_Some _ _ _ Hold) as Hj.
  unfold _append_links_in_works_cited. rewrite starts_after_from.
  pose proof (entries_from_first lines
                (Datatypes.length lines - (works_idx + 1))
                (works_idx + 1)) as Hfirst.
  destruct (entries_from lines (works_idx + 1)
              (Datatypes.length lines - (works_idx + 1)))
    as [|[s id] rest] eqn:Hes.
  - exists old. split; [exact Hold|]. right. split; [reflexivity|].
    intros new'. apply no_entry_no_link. intros i Hi. apply Hfirst. lia.
  - destruct Hfirst as (Hs & He & Hnone & ->).
    set (rest := entries_from lines (S s) _).
    cbv beta iota zeta.
    change (tl (((s, id) :: rest) ++ [(Datatypes.length lines, "__END__")]))
      with (rest ++ [(Datatypes.length lines, "__END__")]).
    rewrite combine_shorter
      by (simpl; rewrite length_app; simpl; lia).
    subst rest.
    destruct (link_loop_settles (Datatypes.length lines, "__END__") eq_refl
                (works_idx + 1 + (Datatypes.length lines - (works_idx + 1))
                 - S s)
                (S s) s id lines) as [Hbefore Hfrom]; auto; try lia.
    destruct (le_lt_dec s j) as [Hge|Hlt]; [now apply Hfrom|].
    exists old. split; [rewrite Hbefore by lia; exact Hold|].
    right. split; [reflexivity|].
    intros new'. apply no_entry_no_link. intros i Hi. apply Hnone. lia.
Qed.

End Settled.

(** X24. On a document of ASCII lines, [_append_links_in_works_cited]
    keeps the number of lines and leaves every line up to the heading as
    it was.  A line after the heading gets a link exactly when it is the
    last line of a numbered entry (the entry starts at or before it, no
    other entry starts in between, and the list ends or the next entry
    starts right after it), the matched map holds a non-empty citekey for
    the number of that entry, and the line does not hold the link of that
    citekey already; the line then becomes its text without trailing
    blanks followed by a blank and the link.  Every other line is left as
    it was, and with an empty map nothing changes. *)
Theorem links_are_appended_to_numbered_entries (lines : list string)
    (works_idx : nat) (matched : PyDict.t string) :
  forallb ascii_text lines = true ->
  Datatypes.length (_append_links_in_works_cited lines works_idx matched)
  = Datatypes.length lines
  /\ (forall j, (j <= works_idx)%nat ->
        _append_links_in_works_cited lines works_idx matched !! j
        = lines !! j)
  /\ (forall j old, lines !! j = Some old ->
        exists new,
          _append_links_in_works_cited lines works_idx matched !! j
          = Some new
          /\ settled lines works_idx matched j old new)
  /\ (matched = [] ->
      _append_links_in_works_cited lines works_idx matched = lines).
Proof.
  intros _.
  destruct (links_frame lines works_idx matched) as (Hall & Hhead & Hempty).
  split; [symmetry; eapply Forall2_length; eauto|].
  split; [exact Hhead|]. split; [|exact Hempty].
  intros j old. apply append_links_settles.
Qed.

(** A list of two entries below its heading; the first runs over two
    lines, the second ends the document. *)
Definition cited : list string :=
  ["Body [1]."; "#### **Works cited**";
   "1. Smith, Deep learning,"; "   accessed 2024.  ";
   "12. Jones, Shallow learning"].

Lemma links_are_appended_to_numbered_entries_witness :
  forallb ascii_text cited = true
  /\ _append_links_in_works_cited cited 1 [("1", "smith2020")]
     = ["Body [1]."; "#### **Works cited**";
        "1. Smith, Deep learning,"; "   accessed 2024. [[smith2020]]";
        "12. Jones, Shallow learning"]
  /\ Datatypes.length
       (_append_links_in_works_cited cited 1 [("1", "smith2020")])
     = Datatypes.length cited
  /\ (forall j, (j <= 1)%nat ->
        _append_links_in_works_cited cited 1 [("1", "smith2020")] !! j
        = cited !! j)
  /\ (forall j old, cited !! j = Some old ->
        exists new,
          _append_links_in_works_cited cited 1 [("1", "smith2020")] !! j
          = Some new
          /\ settled cited 1 [("1", "smith2020")] j old new)
  /\ ([("1", "smith2020")] = [] ->
      _append_links_in_works_cited cited 1 [("1", "smith2020")] = cited).
Proof.
  split; [reflexivity|]. split; [vm_compute; reflexivity|].
  apply (links_are_appended_to_numbered_entries cited 1
           [("1", "smith2020")]).
  reflexivity.
Defined.

End LinkFacts.

(* ===================================================================== *)
(** * Properties: the heading and the author names *)
(* ===================================================================== *)

Module HeadingFacts.
Import GeminiDrLink PyStrFacts.




(** ** Author names *)

Section Fields.
Variable sep : ascii -> bool.




End Fields.






End HeadingFacts.

(* ===================================================================== *)
(** * Properties: the entries of the DOI and URL indexes *)
(* ===================================================================== *)

Module IndexFacts.
Import Normalize BbtLibrary ResultProps PyDictProps PyDictFacts PyStrFacts.
Import LibraryProps LibraryInvariants.

Section WithRepr.
Variable py_repr : json -> string.





End WithRepr.
End IndexFacts.

Module IndexExamples.
Import Normalize BbtLibrary PipelineExamples IndexFacts.


End IndexExamples.

(* ===================================================================== *)
(** * Properties: the records of the library *)
(* ===================================================================== *)

Module RecordFacts.
Import Re Normalize BbtLibrary ResultProps PyDictProps PyStrFacts.
Import ReFacts ExtractFacts LibraryProps.

(** The attachment passed one of the tests of [_is_pdf_attachment]. *)
Definition is_pdf (a : PdfAttachment) : Prop :=
  existsb (fun value => PyStr.endswith (PyStr.lower value) ".pdf")
          [att_path a; att_title a; att_url a] = true
  \/ PyStr.contains (PyStr.lower (att_url a)) "arxiv.org/pdf/" = true
  \/ PyStr.contains (PyStr.lower (att_url a)) "/pdf/" = true.

Definition text_ok (o : option string) : Prop :=
  forall s, o = Some s -> s <> "" /\ PyStr.strip s = s.

Definition record_ok (r : LibraryRecord) : Prop :=
  PyStr.strip (citekey r) <> ""
  /\ PyStr.strip (title r) = title r
  /\ text_ok (doi r) /\ text_ok (url r)
  /\ Forall (fun a => a <> "") (authors r)
  /\ Forall (fun t => t <> "" /\ PyStr.strip t = t) (zotero_tags r)
  /\ Forall is_pdf (pdf_attachments r).

(** The year is absent or [19dd] or [20dd]. *)
Definition year_ok (r : LibraryRecord) : Prop :=
  forall y, year r = Some y -> exists w, year_word w /\ y = PyStr.str w.

Lemma append_nonempty (s t : string) : s <> "" -> s +:+ t <> "".
Proof. destruct s; [congruence | discriminate]. Qed.

Lemma or_none_text_ok s : text_ok (or_none (PyStr.strip s)).
Proof.
  intros t H. apply or_none_some in H as [-> Hne].
  split; [exact Hne | apply strip_idem].
Qed.

Section WithRepr.
Variable py_repr : json -> string.

Lemma search_year_word text y :
  group1_text text <$> search YEAR_PATTERN text = Some y ->
  exists w, year_word w /\ y = PyStr.str w.
Proof.
  unfold search.
  destruct (finditer YEAR_PATTERN text) as [|m ms] eqn:Ef; [discriminate|].
  simpl. intros [= <-].
  assert (Hm : In m (finditer YEAR_PATTERN text)) by (rewrite Ef; now left).
  apply finditer_matches in Hm as (c & c' & g & Hc & Hs & ->).
  destruct (year_match _ _ _ _ Hc Hs) as (w & Hw & Ht & _).
  exists w. auto.
Qed.

Lemma extract_year_word v y :
  _extract_year py_repr v = Some y ->
  exists w, year_word w /\ y = PyStr.str w.
Proof.
  unfold _extract_year.
  destruct v; try discriminate; apply search_year_word.
Qed.

Lemma format_creator_nonempty c l :
  format_creator py_repr c = Ok l -> Forall (fun a => a <> "") l.
Proof.
  unfold format_creator. intros H. apply bind_ok in H as (ty & _ & H).
  destruct (negb _); [injection H as <-; constructor|].
  destruct (PyStr.truthy (PyStr.strip (Json.str py_repr
              (Json.or_else (Json.get "lastName" c) (JStr ""))))) eqn:El;
    destruct (PyStr.truthy (PyStr.strip (Json.str py_repr
                (Json.or_else (Json.get "firstName" c) (JStr ""))))) eqn:Ef;
    simpl in H; injection H as <-; repeat constructor.
  - apply append_nonempty. now apply truthy_ne.
  - now apply truthy_ne.
  - now apply truthy_ne.
Qed.

Lemma format_creators_nonempty creators l :
  _format_creators py_repr creators = Ok l -> Forall (fun a => a <> "") l.
Proof.
  unfold _format_creators.
  destruct creators as [| | | | |cs|]; try (intros [= <-]; constructor).
  apply (for_each_invariant (Forall (fun a => a <> ""))).
  - intros authors c authors' Hall H.
    apply bind_ok in H as (a & Ha & [= <-]).
    apply Forall_app. split; [exact Hall|].
    eapply format_creator_nonempty; eauto.
  - constructor.
Qed.

Lemma normalize_tags_ok tags :
  Forall (fun t => t <> "" /\ PyStr.strip t = t)
         (_normalize_tags py_repr tags).
Proof.
  unfold _normalize_tags. destruct tags as [| | | | |ts|]; try constructor.
  apply List.Forall_forall. intros t Ht.
  apply in_flat_map in Ht as (v & _ & Hv). unfold normalize_tag in Hv.
  destruct v; cbv beta match zeta in Hv;
    match type of Hv with
    | In _ (if PyStr.truthy ?s then _ else _) =>
        destruct (PyStr.truthy s) eqn:E; [|contradiction];
        destruct Hv as [<-|[]];
        split; [now apply truthy_ne | apply strip_idem]
    end.
Qed.

Lemma extract_pdf_attachments_ok attachments :
  Forall is_pdf (_extract_pdf_attachments py_repr attachments).
Proof.
  unfold _extract_pdf_attachments.
  destruct attachments as [| | | | |atts|]; try constructor.
  apply List.Forall_forall. intros a Ha.
  apply in_flat_map in Ha as (att & _ & Hatt).
  destruct (_is_pdf_attachment py_repr att) eqn:E; [|contradiction].
  destruct Hatt as [<-|[]]. unfold is_pdf, _is_pdf_attachment in *.
  cbn [att_path att_title att_url].
  destruct (existsb _ _); [now left|].
  destruct (PyStr.contains _ "arxiv.org/pdf/"); [right; now left|].
  destruct (PyStr.contains _ "/pdf/"); [right; now right | discriminate].
Qed.

(** The fields a year is read from are ASCII once converted to text. *)
Definition ascii_dates (it : item) : bool :=
  forallb (fun k => ascii_text (Json.str py_repr (Json.get k it)))
          ["date"; "issued"; "year"].

Lemma summarize_item_ok it s :
  summarize_item py_repr it = Ok (Some s) -> record_ok s /\ year_ok s.
Proof.
  unfold summarize_item.
  destruct (Json.get "citationKey" it) as [| | | |ck| |]; try discriminate.
  destruct (PyStr.truthy (PyStr.strip ck)) eqn:Hck; simpl; [|discriminate].
  intros H. apply bind_ok in H as (authors & Ha & [= <-]).
  unfold record_ok, year_ok.
  cbn [citekey title year doi url BbtLibrary.authors
       zotero_tags pdf_attachments].
  split.
  2:{ intros y Hy. unfold or_opt in Hy.
      repeat match type of Hy with
             | (if ?b then _ else _) = _ => destruct b
             end;
        eapply extract_year_word; eauto. }
  split; [now apply truthy_ne|]. split; [apply strip_idem|].
  split; [apply or_none_text_ok|]. split; [apply or_none_text_ok|].
  split; [eapply format_creators_nonempty; eauto|].
  split; [apply normalize_tags_ok | apply extract_pdf_attachments_ok].
Qed.

(** X28. Every record of the index [build_library_index] returns is
    well formed: its citekey is not blank and its title is trimmed; its
    DOI and its URL are absent or trimmed and not empty; none of its
    authors is empty and every tag is trimmed and not empty; and each
    attachment kept ends in [.pdf] in its path, title or URL, or has
    [/pdf/] in its URL.  When the [date], [issued] and [year] fields of
    the items of the export are ASCII text, its year is absent or four
    digits that begin with 19 or 20. *)
Theorem library_records_are_well_formed (data : json) (idx : LibraryIndex)
    (ck : string) (r : LibraryRecord) :
  build_library_index py_repr data = Ok idx ->
  PyDict.get ck (records idx) = Some r ->
  record_ok r
  /\ (Forall (fun it => ascii_dates it = true) (iter_library_items data) ->
      year_ok r).
Proof.
  unfold build_library_index. intros H.
  apply bind_ok in H as (tb & Htb & [= <-]). simpl. intros Hget.
  assert (Hok : record_ok r /\ year_ok r); [|tauto].
  revert ck r Hget.
  apply (for_each_invariant
           (fun tb => forall ck r, PyDict.get ck (t_records tb) = Some r ->
                                   record_ok r /\ year_ok r)
           (index_item py_repr) (iter_library_items data)) with (s := no_tables);
    [| |exact Htb].
  - intros tb0 it tb1 Hinv Hstep ck r Hget. unfold index_item in Hstep.
    apply bind_ok in Hstep as (o & Ho & Hstep).
    destruct o as [s|]; injection Hstep as <-; [|eauto].
    simpl in Hget. apply get_set_inv in Hget as [[_ ->]|[_ Hget]]; [|eauto].
    eapply summarize_item_ok; eauto.
  - intros ck r Hget. discriminate Hget.
Qed.

End WithRepr.

Lemma library_records_are_well_formed_witness :
  record_ok (PipelineExamples.summary "smith2020"
               "Deep learning for citations" (Some "2020") "10.1000/abc")
  /\ year_ok (PipelineExamples.summary "smith2020"
                "Deep learning for citations" (Some "2020") "10.1000/abc").
Proof.
  destruct (library_records_are_well_formed PipelineExamples.no_repr
              PipelineExamples.export PipelineExamples.library "smith2020"
              (PipelineExamples.summary "smith2020"
                 "Deep learning for citations" (Some "2020") "10.1000/abc"))
    as [Hrecord Hyear]; try (vm_compute; reflexivity).
  split; [exact Hrecord|]. apply Hyear.
  repeat constructor.
Defined.

End RecordFacts.

(* ===================================================================== *)
(** * Properties: the candidates of the lexical tier *)
(* ===================================================================== *)

Module LexicalFacts.
Import Normalize BbtLibrary RefsExtracted MatchDoc RetrievalTfidf.
Import MatchPipeline ResultProps PyDictFacts LibraryProps LibraryInvariants.
Import PySortProps PipelineProps PipelineFacts RetrievalFacts.

Lemma NoDup_combine_fst {A B : Type} (ks : list A) : forall (vs : list B),
  List.NoDup ks -> List.NoDup (map fst (combine ks vs)).
Proof.
  induction ks as [|k ks IH]; intros [|v vs] Hnd; simpl; try constructor.
  - apply List.NoDup_cons_iff in Hnd as [Hk _]. intros Hin. apply Hk.
    apply in_map_iff in Hin as ([k' v'] & <- & Hin).
    simpl. eapply in_combine_l; eauto.
  - apply IH. now apply List.NoDup_cons_iff in Hnd as [_ Hnd].
Qed.

Lemma NoDup_firstn {A : Type} (n : nat) (l : list A) :
  List.NoDup l -> List.NoDup (firstn n l).
Proof.
  intros H. rewrite <- (firstn_skipn n l) in H.
  eapply List.NoDup_app_remove_r; eauto.
Qed.

Section Boosted.
Variables (params : MatchParams) (library : LibraryIndex) (ref : Reference).
Hypothesis keyed : records_keyed (records library).

Lemma boosted_candidates_distinct retrieved :
  List.NoDup (map fst retrieved) ->
  List.NoDup (map c_citekey
                (boosted_candidates params library ref retrieved))
  /\ (forall c, In c (boosted_candidates params library ref retrieved) ->
                In (c_citekey c) (map fst retrieved))
  /\ (Datatypes.length (boosted_candidates params library ref retrieved)
      <= Datatypes.length retrieved)%nat.
Proof.
  unfold boosted_candidates.
  induction retrieved as [|[ck base] retrieved IH]; simpl; intros Hnd.
  - split; [constructor|]. split; [intros c []|lia].
  - apply List.NoDup_cons_iff in Hnd as [Hck Hnd].
    destruct (IH Hnd) as (IH1 & IH2 & IH3).
    destruct (PyDict.get ck (records library)) as [r|] eqn:E; simpl.
    + destruct (keyed _ _ E) as [Hk _].
      split; [|split; [|lia]].
      * constructor; [|exact IH1]. rewrite Hk. intros Hin. apply Hck.
        apply in_map_iff in Hin as (c & <- & Hc). now apply IH2.
      * intros c [<-|Hc]; [left; simpl; now rewrite Hk | right; auto].
    + split; [exact IH1|]. split; [|lia]. intros c Hc. right. auto.
Qed.

End Boosted.

Section WithSklearn.
Variable M : Type.
Variable fit_transform : list string -> result M.
Variable kernel_scores : M -> string -> result (list float).

(** X29. For a reference without an identifier hit, against the
    library and the retrieval index built from an export, the candidates
    are at most [max(0, top_k)], no two of them have the same citekey,
    and each is made from the library record of its citekey. *)
Theorem lexical_candidates_are_distinct_and_bounded
    (py_repr : json -> string) (data : json) (params : MatchParams)
    (library : LibraryIndex) (index : TfidfRetrievalIndex M)
    (ref : Reference) (m : Match) (candidates : list Candidate) :
  build_library_index py_repr data = Ok library ->
  build_tfidf_index M fit_transform (records library) = Ok index ->
  first_hit ref library = None ->
  MatchPipeline.resolve M kernel_scores params library index ref
  = Ok (m, candidates) ->
  (Datatypes.length candidates <= Z.to_nat (Z.max 0 (top_k params)))%nat
  /\ List.NoDup (map c_citekey candidates)
  /\ Forall (from_record library) candidates.
Proof.
  intros Hlib Hix Hhit Hres.
  pose proof (build_library_index_keyed py_repr _ _ Hlib) as Hkeyed.
  assert (Hkeys : List.NoDup (citekeys index)).
  { unfold build_tfidf_index in Hix.
    apply bind_ok in Hix as (mx & _ & [= <-]). simpl.
    apply build_library_index_tables in Hlib
      as (tb & _ & [Hk _ _ _ _ _] & -> & _). exact Hk. }
  unfold MatchPipeline.resolve in Hres.
  rewrite deterministic_match_first_hit, Hhit in Hres.
  apply bind_ok in Hres as (retrieved & Hret & Hres).
  assert (Hr : List.NoDup (map fst retrieved)
               /\ (Datatypes.length retrieved
                   <= Z.to_nat (Z.max 0 (top_k params)))%nat).
  { apply retrieve_top_k_cases in Hret
      as [->|(mx & scores & _ & _ & _ & ->)].
    - split; [constructor | simpl; lia].
    - split; [|rewrite length_firstn; lia].
      rewrite <- firstn_map. apply NoDup_firstn.
      eapply Permutation_NoDup;
        [symmetry; apply Permutation_map, sort_reverse_perm|].
      now apply NoDup_combine_fst. }
  destruct Hr as [Hnd Hlen].
  destruct (boosted_candidates_distinct params library ref Hkeyed
              retrieved Hnd) as (Hd & _ & Hl).
  assert (Hperm : Permutation candidates
                    (boosted_candidates params library ref retrieved)).
  { rewrite <- (sort_reverse_perm cand_lt
                  (boosted_candidates params library ref retrieved)).
    destruct (PySort.sort_reverse cand_lt _) as [|top others];
      injection Hres as _ <-; reflexivity. }
  split; [|split].
  - rewrite (Permutation_length Hperm). lia.
  - eapply Permutation_NoDup;
      [symmetry; apply Permutation_map; exact Hperm | exact Hd].
  - eapply Permutation_Forall; [symmetry; exact Hperm|].
    eapply boosted_candidates_from_record; eauto.
Qed.

End WithSklearn.
End LexicalFacts.

Module LexicalExamples.
Import Normalize BbtLibrary RefsExtracted MatchDoc RetrievalTfidf.
Import MatchPipeline PipelineFacts PipelineExamples LexicalFacts.

Lemma lexical_candidates_are_distinct_and_bounded_witness :
  (Datatypes.length [first_cand; second_cand; third_cand]
   <= Z.to_nat (Z.max 0 (top_k default_params)))%nat
  /\ List.NoDup (map c_citekey [first_cand; second_cand; third_cand])
  /\ Forall (from_record library) [first_cand; second_cand; third_cand].
Proof.
  apply (lexical_candidates_are_distinct_and_bounded unit fit scores
           no_repr export default_params library index ref_plain
           plain_verdict);
    vm_compute; reflexivity.
Defined.

End LexicalExamples.

(* ===================================================================== *)
(** * gemini_dr_link.py on a small document *)
(* ===================================================================== *)

Module GeminiExamples.
Import GeminiDrLink.

Definition no_repr : json -> string := fun _ => "".

Definition candidate (ck title_ year_ : string) (authors_ : list string)
  : json :=
  JObj [("citekey", JStr ck); ("title", JStr title_); ("year", JStr year_);
        ("authors", JList (map JStr authors_)); ("doi", JNull);
        ("url", JStr "https://example.org/x")].

Definition entry (id : json) (status_ ck : string) (cs : list json) : json :=
  JObj [("ref_id", id);
        ("match", JObj [("status", JStr status_); ("citekey", JStr ck)]);
        ("candidates", JList cs)].

(** Three references: the first and the third are matched, the third
    to a citekey without a candidate. *)
Definition result_doc : list (string * json) :=
  [("refs",
    JList [entry (JInt 1) "matched" "smith2020"
             [candidate "smith2020" "Deep learning" "2020"
                ["Smith, John Paul"; "Lee, Ann"]];
           entry (JStr "2") "needs_llm" ""
             [candidate "jones2019" "Shallow" "2019" ["Mary Jones"]];
           entry (JStr " 3 ") "matched" "anon2001" []])].

Definition report : list string :=
  ["See 1, 2."; " #### **Works cited** "; "1. Smith, Deep learning.";
   "   second line  "; "2. Jones."; "3. Unknown."].

Definition links : PyDict.t string :=
  [("1", "smith2020"); ("3", "anon2001")].

Example matched_map_of_result_doc :
  _build_matched_map no_repr result_doc = Ok links
  /\ _find_works_cited_heading report = Ok 1%nat.
Proof. split; vm_compute; reflexivity. Qed.

Example links_in_report :
  _append_links_in_works_cited report 1 links
  = ["See 1, 2."; " #### **Works cited** "; "1. Smith, Deep learning.";
     "   second line [[smith2020]]"; "2. Jones.";
     "3. Unknown. [[anon2001]]"].
Proof. vm_compute. reflexivity. Qed.

Example section_of_result_doc :
  _build_reference_section (unique_citekeys links)
    (_build_candidate_meta_by_citekey no_repr result_doc)
  = ["#### **Reference**"; "";
     "- Smith, J.P. and Lee, A. (2020) 'Deep learning'. Available at: https://example.org/x. [[smith2020]]";
     "- Anon. (n.d.) 'Untitled'. [[anon2001]]"; ""].
Proof. vm_compute. reflexivity. Qed.

Example family_and_initials_of_names :
  _family_and_initials "Jean-Paul van der Berg" = ("Berg", "J.P.V.D.")
  /\ _family_and_initials "Smith, John paul" = ("Smith", "J.P.").
Proof. split; vm_compute; reflexivity. Qed.

Example extracted_identifiers :
  Normalize.extract_doi (Some "see doi:10.1000/abc.).") = Some "10.1000/abc"
  /\ Normalize.extract_first_url (Some "at HTTPS://Example.org/a.b). more")
     = Some "HTTPS://Example.org/a.b"
  /\ Normalize.extract_arxiv_id (Some "arXiv:2101.12345v2 [cs]")
     = Some "2101.12345".
Proof. repeat split; vm_compute; reflexivity. Qed.

End GeminiExamples.

(* ===================================================================== *)
(** * Text beyond ASCII: [refs_extracted.py] over code points *)
(* ===================================================================== *)

(** The functions of [refs_extracted.py], and those of [normalize.py] they
    call, once more, with a [str] as the sequence of its code points and
    with the character classes of Python left open: which characters are
    whitespace, decimal digits or word characters, and which letters
    [re.IGNORECASE] identifies, is decided by the Unicode database, which
    is a parameter here.  Everything else is as in the modules above. *)
Module Unicode.

(** A [str]: its code points. *)
Definition text : Type := list N.

(** A string literal of the program. *)
Definition txt (s : string) : text := map N_of_ascii (PyStr.chars s).
Definition cp (c : ascii) : N := N_of_ascii c.

Fixpoint text_eqb (a b : text) : bool :=
  match a, b with
  | [], [] => true
  | x :: a', y :: b' => N.eqb x y && text_eqb a' b'
  | _, _ => false
  end.

(** Truth value of a [str]. *)
Definition truthy (s : text) : bool :=
  match s with [] => false | _ :: _ => true end.

Definition truthy_opt (o : option text) : bool :=
  match o with Some s => truthy s | None => false end.
Definition or_opt (a b : option text) : option text :=
  if truthy_opt a then a else b.
Definition or_none (s : text) : option text :=
  if truthy s then Some s else None.

Fixpoint dropwhile (p : N -> bool) (l : text) : text :=
  match l with
  | [] => []
  | c :: t => if p c then dropwhile p t else l
  end.

Definition mem_char (set : string) (c : N) : bool :=
  existsb (N.eqb c) (txt set).

(** [s.rstrip(set)] *)
Definition rstrip_chars (set : string) (s : text) : text :=
  rev (dropwhile (mem_char set) (rev s)).

(** [sep.join(parts)] *)
Fixpoint join (sep : text) (parts : list text) : text :=
  match parts with
  | [] => []
  | [p] => p
  | p :: ps => p ++ sep ++ join sep ps
  end.

(** [text[a:b]], for [a <= b]. *)
Definition slice (a b : nat) (l : text) : text := firstn (b - a) (skipn a l).

(** [str(n)] for an [int]. *)
Definition of_Z (n : Z) : text := txt (PyStr.of_Z n).

(** A value read by [json.load]. *)
#[warnings="-register-all"]
Inductive json : Type :=
| JNull
| JBool (b : bool)
| JInt (n : Z)
| JFloat (f : float)
| JStr (s : text)
| JList (l : list json)
| JObj (members : list (text * json)).

(** An insertion-ordered [dict] with [str] keys. *)
Module Dict.
Section Dict.
Context {V : Type}.

Definition t : Type := list (text * V).

Fixpoint get (k : text) (d : t) : option V :=
  match d with
  | [] => None
  | (k', v) :: d' => if text_eqb k k' then Some v else get k d'
  end.

Definition mem (k : text) (d : t) : bool :=
  match get k d with Some _ => true | None => false end.

Fixpoint set (k : text) (v : V) (d : t) : t :=
  match d with
  | [] => [(k, v)]
  | (k', v') :: d' =>
      if text_eqb k k' then (k', v) :: d' else (k', v') :: set k v d'
  end.
End Dict.
Arguments t V : clear implicits.
End Dict.

(** [mapping.get(k)] for a key of the program. *)
Definition get (k : string) (members : list (text * json)) : json :=
  match Dict.get (txt k) members with
  | Some v => v
  | None => JNull
  end.

Definition is_null (v : json) : bool :=
  match v with JNull => true | _ => false end.

(** [bool(v)] *)
Definition truthy_value (v : json) : bool :=
  match v with
  | JNull => false
  | JBool b => b
  | JInt n => negb (n =? 0)%Z
  | JFloat f => negb (PrimFloat.eqb f 0%float)
  | JStr s => truthy s
  | JList l => match l with [] => false | _ => true end
  | JObj m => match m with [] => false | _ => true end
  end.

(** [a or b] *)
Definition or_else (a b : json) : json := if truthy_value a then a else b.

(** ** The fragment of [re] used by [normalize.py] *)

Inductive regex : Type :=
| Eps
| Chr (p : N -> bool)
| Seq (r1 r2 : regex)
| Alt (r1 r2 : regex)
| Rep (lo : nat) (hi : option nat) (r : regex)
| WordB
| Group (r : regex).

Record cursor : Type := Cursor {
  prev : option N;
  rest : text;
  pos : nat
}.

Definition span : Type := (nat * nat)%type.

Record found : Type := Found {
  m_start : nat;
  m_end : nat;
  m_group : option span
}.

(** [m.start(1)], [m.end(1)] and [m.group(1)]. *)
Definition group1 (m : found) : span :=
  match m_group m with Some sp => sp | None => (m_start m, m_start m) end.
Definition group1_text (subject : text) (m : found) : text :=
  slice (fst (group1 m)) (snd (group1 m)) subject.

Definition seqs (rs : list regex) : regex := fold_right Seq Eps rs.
Definition alts (r : regex) (rs : list regex) : regex :=
  fold_left Alt rs r.
Definition plus (r : regex) : regex := Rep 1 None r.
Definition opt (r : regex) : regex := Rep 0 (Some 1) r.
Definition times (lo hi : nat) (r : regex) : regex := Rep lo (Some hi) r.
(** A character of the pattern that has no case. *)
Definition chr (c : ascii) : regex := Chr (N.eqb (cp c)).
Definition lit (s : string) : regex := seqs (map chr (PyStr.chars s)).

(** The letters [A] to [Z]. *)
Definition CAPITALS : list N := map N.of_nat (seq 65 26).

(** [type(ref).__name__] *)
Definition type_name (v : json) : text :=
  match v with
  | JNull => txt "NoneType"
  | JBool _ => txt "bool"
  | JInt _ => txt "int"
  | JFloat _ => txt "float"
  | JStr _ => txt "str"
  | JList _ => txt "list"
  | JObj _ => txt "dict"
  end.

Definition json_of_opt (o : option text) : json :=
  match o with Some s => JStr s | None => JNull end.

(** The [parsed] dict of a normalized reference. *)
Record Parsed : Type := {
  p_doi : option text;
  p_url : option text;
  p_arxiv : option text;
  p_year : option text;
  p_title_guess : option text;
  p_author_guess : option text
}.

(** The dict [_normalize_ref] returns. *)
Record Reference : Type := {
  ref_id : text;
  line_start : Z;
  line_end : Z;
  raw_text : text;
  parsed : Parsed
}.

Record RefsExtracted : Type := {
  meta : list (text * json);
  refs : list Reference;
  warnings : list text
}.

Fixpoint _first_present (mapping : list (text * json))
    (keys : list string) : json :=
  match keys with
  | [] => JNull
  | k :: ks =>
      if Dict.mem (txt k) mapping then get k mapping
      else _first_present mapping ks
  end.

Definition both_null (a b : json) : bool := is_null a && is_null b.

Definition range_from_keys (obj : list (text * json)) : json * json :=
  (_first_present obj ["line_start"; "start_line"; "startLine"; "lineStart"],
   _first_present obj ["line_end"; "end_line"; "endLine"; "lineEnd"]).

Definition range_from_pair (obj : list (text * json)) (r : json * json)
  : json * json :=
  if both_null (fst r) (snd r) then
    match or_else (get "line_range" obj) (get "lineRange" obj) with
    | JList [a; b] => (a, b)
    | _ => r
    end
  else r.

Definition range_from_lines (obj : list (text * json)) (r : json * json)
  : json * json :=
  if both_null (fst r) (snd r) then
    match get "lines" obj with
    | JObj lines =>
        (_first_present lines ["start"; "line_start"; "start_line"],
         _first_present lines ["end"; "line_end"; "end_line"])
    | _ => r
    end
  else r.

Definition range_from_single (obj : list (text * json)) (r : json * json)
  : json * json :=
  if both_null (fst r) (snd r) then
    match get "line" obj with
    | JNull => r
    | single => (single, single)
    end
  else r.

Definition swapped_warning (start_i end_i : Z) : text :=
  txt "Swapped line range: start=" ++ of_Z start_i
    ++ txt " end=" ++ of_Z end_i.

Definition start_lt (a b : text * nat * nat) : bool :=
  (snd (fst a) <? snd (fst b))%nat.

Definition is_ignored (spans : list span) (start end_ : nat) : bool :=
  existsb (fun '(s, e) => (start <? e)%nat && (s <? end_)%nat) spans.

Section Tables.
(** The Unicode database, as Python reads it.
    - [isspace c]: [c] is whitespace, for [str.strip], [str.isspace] and
      the class [\s];
    - [decimal c]: the value of [c] when it is a decimal digit, for the
      class [\d] and for [int];
    - [isword c]: [c] is a word character, for the class [\w] and the
      boundary [\b];
    - [same_letter a c]: under [re.IGNORECASE] the character [c] of the
      text matches the letter [a] of the pattern. *)
Variable isspace : N -> bool.
Variable decimal : N -> option Z.
Variable isword : N -> bool.
Variable same_letter : N -> N -> bool.
(** [repr] of a string, a float, a list or a dict. *)
Variable py_repr : json -> text.

Definition isdecimal (c : N) : bool :=
  match decimal c with Some _ => true | None => false end.

(** [s.strip()] *)
Definition strip (s : text) : text :=
  rev (dropwhile isspace (rev (dropwhile isspace s))).

(** [str(v)] *)
Definition str (v : json) : text :=
  match v with
  | JNull => txt "None"
  | JBool true => txt "True"
  | JBool false => txt "False"
  | JInt n => of_Z n
  | JStr s => s
  | JFloat _ | JList _ | JObj _ => py_repr v
  end.

(** [int(s)] for an already stripped [s]: an optional sign, then decimal
    digits, single underscores allowed between digits. *)
Fixpoint parse_digits (l : text) (acc : Z) (need_digit : bool)
  : option Z :=
  match l with
  | [] => if need_digit then None else Some acc
  | c :: t =>
      match decimal c with
      | Some d => parse_digits t (10 * acc + d)%Z false
      | None =>
          if N.eqb c (cp "_") then
            if need_digit then None else parse_digits t acc true
          else None
      end
  end.

Definition to_Z (s : text) : option Z :=
  match s with
  | c :: t =>
      if N.eqb c (cp "-") then Z.opp <$> parse_digits t 0%Z true
      else if N.eqb c (cp "+") then parse_digits t 0%Z true
      else parse_digits s 0%Z true
  | [] => None
  end.

Definition is_word_opt (o : option N) : bool :=
  match o with Some c => isword c | None => false end.

(** [\b]: exactly one side is a word character. *)
Definition at_boundary (c : cursor) : bool :=
  xorb (is_word_opt (prev c)) (is_word_opt (head (rest c))).

(** The backtracking matcher, as in the module [Re]. *)
Fixpoint run {R : Type} (r : regex) (c : cursor) (g : option span)
    (k : cursor -> option span -> option R) {struct r} : option R :=
  match r with
  | Eps => k c g
  | Chr p =>
      match rest c with
      | a :: t => if p a then k (Cursor (Some a) t (S (pos c))) g else None
      | [] => None
      end
  | Seq r1 r2 => run r1 c g (fun c' g' => run r2 c' g' k)
  | Alt r1 r2 =>
      match run r1 c g k with
      | Some x => Some x
      | None => run r2 c g k
      end
  | WordB => if at_boundary c then k c g else None
  | Group r1 => run r1 c g (fun c' _ => k c' (Some (pos c, pos c')))
  | Rep lo hi r1 =>
      (fix loop (fuel lo : nat) (hi : option nat) (c : cursor)
           (g : option span) {struct fuel} : option R :=
         let stop := if (lo =? 0)%nat then k c g else None in
         match fuel with
         | O => stop
         | S fuel' =>
             let more :=
               match hi with
               | Some O => None
               | _ => run r1 c g
                        (fun c' g' => loop fuel' (Nat.pred lo)
                                        (Nat.pred <$> hi) c' g')
               end in
             match more with
             | Some x => Some x
             | None => stop
             end
         end) (Datatypes.length (rest c)) lo hi c g
  end.

Definition match_at (r : regex) (c : cursor) : option found :=
  run r c None (fun c' g => Some (Found (pos c) (pos c') g)).

(** [pattern.finditer(text)] *)
Fixpoint scan (r : regex) (p : option N) (l : text)
    (i resume : nat) : list found :=
  let here := if (resume <=? i)%nat then match_at r (Cursor p l i)
              else None in
  match l with
  | [] => match here with Some m => [m] | None => [] end
  | a :: t =>
      match here with
      | Some m => m :: scan r (Some a) t (S i) (Nat.max (m_end m) (S i))
      | None => scan r (Some a) t (S i) resume
      end
  end.

Definition finditer (r : regex) (subject : text) : list found :=
  scan r None subject 0 0.

(** [pattern.search(text)] *)
Definition search (r : regex) (subject : text) : option found :=
  head (finditer r subject).

(** A letter of a pattern compiled with [re.IGNORECASE], and [\d]. *)
Definition chr_i (c : ascii) : regex := Chr (same_letter (cp c)).
Definition lit_i (s : string) : regex := seqs (map chr_i (PyStr.chars s)).
Definition digit : regex := Chr isdecimal.

(** [DOI_PATTERN = (10\.\d{4,9}/[-._;()/:A-Z0-9]+)], [re.IGNORECASE]:
    the class holds the characters listed, the digits [0] to [9], and
    whatever [re.IGNORECASE] identifies with a letter from [A] to [Z]. *)
Definition doi_tail (c : N) : bool :=
  mem_char "-._;()/:" c
  || existsb (fun a => same_letter a c) CAPITALS
  || ((cp "0" <=? c)%N && (c <=? cp "9")%N).

Definition DOI_PATTERN : regex :=
  Group (seqs [lit "10"; chr "."; Rep 4 (Some 9) digit; chr "/";
               plus (Chr doi_tail)]).

(** [ARXIV_PATTERN = \b(?:arxiv:)?(\d{4}\.\d{4,5})(?:v\d+)?\b],
    [re.IGNORECASE] *)
Definition ARXIV_PATTERN : regex :=
  seqs [WordB; opt (seqs [lit_i "arxiv"; chr ":"]);
        Group (seqs [times 4 4 digit; chr "."; times 4 5 digit]);
        opt (seqs [chr_i "v"; plus digit]); WordB].

(** [YEAR_PATTERN = \b(19\d{2}|20\d{2})\b] *)
Definition YEAR_PATTERN : regex :=
  seqs [WordB;
        Group (Alt (seqs [lit "19"; times 2 2 digit])
                   (seqs [lit "20"; times 2 2 digit]));
        WordB].

(** [URL_PATTERN = (https?://[^\s\)\]\}>,;]+)], [re.IGNORECASE] *)
Definition url_char (c : N) : bool :=
  negb (isspace c || mem_char ")]}>,;" c).

Definition URL_PATTERN : regex :=
  Group (seqs [lit_i "http"; opt (chr_i "s"); lit "://";
               plus (Chr url_char)]).

(** [ACCESS_YEAR_CONTEXT_PATTERN = \b(accessed|retrieved|visited)\b],
    [re.IGNORECASE] *)
Definition ACCESS_YEAR_CONTEXT_PATTERN : regex :=
  seqs [WordB;
        Group (alts (lit_i "accessed") [lit_i "retrieved"; lit_i "visited"]);
        WordB].

(** [if not text: return None] on a [str | None]. *)
Definition nonempty (s : option text) : option text :=
  match s with
  | Some s => if truthy s then Some s else None
  | None => None
  end.

Definition extract_first_url (s : option text) : option text :=
  s ← nonempty s;
  m ← search URL_PATTERN s;
  Some (rstrip_chars ").,;]" (group1_text s m)).

Definition extract_doi (s : option text) : option text :=
  s ← nonempty s;
  m ← search DOI_PATTERN s;
  Some (rstrip_chars ").,;]" (group1_text s m)).

Definition extract_arxiv_id (s : option text) : option text :=
  s ← nonempty s;
  m ← search ARXIV_PATTERN s;
  Some (group1_text s m).

(** A year candidate: [(m.group(1), m.start(1), m.end(1))]. *)
Definition year_cand : Type := (text * nat * nat)%type.

Definition ignore_spans (s : text) : list span :=
  flat_map (fun pattern =>
              map (fun m => (m_start m, m_end m)) (finditer pattern s))
           [URL_PATTERN; DOI_PATTERN; ARXIV_PATTERN].

Definition year_candidates (s : text) : list year_cand :=
  let spans := ignore_spans s in
  flat_map (fun m =>
              let '(start, end_) := group1 m in
              if is_ignored spans start end_ then []
              else [(group1_text s m, start, end_)])
           (finditer YEAR_PATTERN s).

Definition is_access_year (s : text) (start : nat) : bool :=
  let window_start := (start - 80)%nat in
  let window := slice window_start start s in
  match last (finditer ACCESS_YEAR_CONTEXT_PATTERN window) with
  | None => false
  | Some m => (Datatypes.length window - m_start m <=? 50)%nat
  end.

Definition in_parentheses (s : text) (start end_ : nat) : bool :=
  let before := dropwhile isspace (rev (firstn start s)) in
  let after := dropwhile isspace (skipn end_ s) in
  match before, after with
  | i :: _, j :: _ => N.eqb i (cp "(") && N.eqb j (cp ")")
  | _, _ => false
  end.

Definition extract_year (s : option text) : option text :=
  s ← nonempty s;
  let candidates := year_candidates s in
  match candidates with
  | [] => None
  | _ =>
      let non_access :=
        List.filter (fun '(_, st, _) => negb (is_access_year s st))
                    candidates in
      match non_access with
      | [] => None
      | _ =>
          let paren :=
            List.filter (fun '(_, st, e) => in_parentheses s st e)
                        non_access in
          match PySort.sort_reverse start_lt paren with
          | (y, _, _) :: _ => Some y
          | [] =>
              match PySort.sort_reverse start_lt non_access with
              | (y, _, _) :: _ => Some y
              | [] => None
              end
          end
      end
  end.

(** [coerce_int] *)
Definition coerce_int (value : json) (default : Z) : Z :=
  match value with
  | JNull => default
  | JBool _ => default
  | JInt n => n
  | JStr s =>
      match to_Z (strip s) with
      | Some n => n
      | None => default
      end
  | JFloat _ | JList _ | JObj _ => default
  end.

(** ** [refs_extracted.py] *)

Definition _extract_line_range (obj : list (text * json))
    (warnings : list text) : (Z * Z) * list text :=
  let r := range_from_single obj
             (range_from_lines obj
                (range_from_pair obj (range_from_keys obj))) in
  let start_i := coerce_int (fst r) (-1) in
  let end_i := coerce_int (snd r) (-1) in
  if (0 <=? start_i)%Z && (0 <=? end_i)%Z && (end_i <? start_i)%Z then
    ((end_i, start_i), warnings ++ [swapped_warning start_i end_i])
  else ((start_i, end_i), warnings).

(** [str(v) if v else ""] *)
Definition str_if_true (v : json) : text :=
  if truthy_value v then str v else [].

Definition clean (value : json) : option text :=
  match value with
  | JNull => None
  | _ => or_none (strip (str value))
  end.

Definition _normalize_parsed (raw_text : text) (parsed : json) : Parsed :=
  let parsed := match parsed with JObj m => m | _ => [] end in
  let doi := get "doi" parsed in
  let url := get "url" parsed in
  let arxiv := get "arxiv" parsed in
  let year := get "year" parsed in
  let title_guess := get "title_guess" parsed in
  let author_guess := get "author_guess" parsed in
  let doi := if truthy_value doi then doi
             else json_of_opt (extract_doi (Some raw_text)) in
  let url := if truthy_value url then url
             else json_of_opt (extract_first_url (Some raw_text)) in
  let arxiv :=
    if truthy_value arxiv then arxiv
    else json_of_opt
           (or_opt (or_opt (extract_arxiv_id (Some raw_text))
                           (extract_arxiv_id (Some (str_if_true doi))))
                   (extract_arxiv_id (Some (str_if_true url)))) in
  let year := if truthy_value year then year
              else json_of_opt (extract_year (Some raw_text)) in
  {| p_doi := clean doi;
     p_url := clean url;
     p_arxiv := clean arxiv;
     p_year := clean year;
     p_title_guess := clean title_guess;
     p_author_guess := clean author_guess |}.

(** ["\n".join(str(x) for x in raw_lines if str(x).strip())] *)
Definition join_raw_lines (raw_lines : list json) : text :=
  join [10%N]
    (List.filter (fun s => truthy (strip s)) (map str raw_lines)).

Definition raw_text_of (ref : list (text * json)) : json :=
  match _first_present ref ["raw_text"; "rawText"; "text"; "raw"] with
  | JNull =>
      match _first_present ref
              ["raw_lines"; "rawLines"; "lines_raw"; "rawLinesText"] with
      | JList raw_lines => JStr (join_raw_lines raw_lines)
      | _ => JNull
      end
  | raw_text => raw_text
  end.

(** [str(v).strip() if v is not None else ""] *)
Definition stripped_or_empty (v : json) : text :=
  match v with
  | JNull => []
  | _ => strip (str v)
  end.

(** Returns the reference, if the entry is kept, and the warnings list
    after the call. *)
Definition _normalize_ref (ref : json) (warnings : list text)
  : option Reference * list text :=
  match ref with
  | JStr ref =>
      let raw_text := strip ref in
      if negb (truthy raw_text) then (None, warnings)
      else
        let parsed := _normalize_parsed raw_text (JObj []) in
        (Some {| ref_id := [];
                 line_start := (-1);
                 line_end := (-1);
                 raw_text := raw_text;
                 parsed := parsed |},
         warnings)
  | JObj ref =>
      let ref_id :=
        _first_present ref ["ref_id"; "id"; "refId"; "number"] in
      let ref_id_str := stripped_or_empty ref_id in
      let raw_text_str := stripped_or_empty (raw_text_of ref) in
      if negb (truthy raw_text_str) then
        (None,
         warnings ++ [txt "Skipped ref with no raw_text (ref_id="
                        ++ py_repr (JStr ref_id_str) ++ txt ")"])
      else
        let '((line_start, line_end), warnings) :=
          _extract_line_range ref warnings in
        let parsed :=
          _normalize_parsed raw_text_str (get "parsed" ref) in
        (Some {| ref_id := ref_id_str;
                 line_start := line_start;
                 line_end := line_end;
                 raw_text := raw_text_str;
                 parsed := parsed |},
         warnings)
  | _ =>
      (None,
       warnings ++ [txt "Skipped non-object ref entry: " ++ type_name ref])
  end.

(** The loop of [load_refs_extracted] over the raw entries. *)
Fixpoint normalize_all (refs_raw : list json) (refs : list Reference)
    (warnings : list text) : list Reference * list text :=
  match refs_raw with
  | [] => (refs, warnings)
  | r :: rest =>
      match _normalize_ref r warnings with
      | (Some normalized, warnings) =>
          normalize_all rest (refs ++ [normalized]) warnings
      | (None, warnings) => normalize_all rest refs warnings
      end
  end.

(** What [load_refs_extracted] selects from the document. *)
Definition select_refs (data : json)
  : list (text * json) * json * list text :=
  match data with
  | JObj m =>
      let meta := match get "meta" m with
                  | JObj meta_raw => meta_raw
                  | _ => []
                  end in
      (meta, _first_present m ["refs"; "references"; "items"], [])
  | _ =>
      ([], JNull,
       [txt "Unexpected top-level JSON type: " ++ type_name data])
  end.

Definition no_refs_warning : text :=
  txt "No refs found in refs_extracted.json (expected one of: refs/references/items)".

Definition refs_list (refs_raw : json) (warnings : list text)
  : list json * list text :=
  let '(refs_raw, warnings) :=
    match refs_raw with
    | JNull => (JList [], warnings ++ [no_refs_warning])
    | _ => (refs_raw, warnings)
    end in
  match refs_raw with
  | JList l => (l, warnings)
  | _ =>
      ([], warnings ++ [txt "refs is not a list (got " ++ type_name refs_raw
                          ++ txt "); treating as empty"])
  end.

Definition with_warnings (meta : list (text * json))
    (warnings : list text) : list (text * json) :=
  let meta := if Dict.mem (txt "warnings") meta then meta
              else Dict.set (txt "warnings") (JList []) meta in
  match get "warnings" meta with
  | JList old =>
      Dict.set (txt "warnings") (JList (old ++ map JStr warnings)) meta
  | _ => Dict.set (txt "warnings") (JList (map JStr warnings)) meta
  end.

(** [load_refs_extracted] from the document [json.load] returned. *)
Definition load_refs_extracted (data : json) : RefsExtracted :=
  let '(meta, refs_raw, warnings) := select_refs data in
  let '(refs_raw, warnings) := refs_list refs_raw warnings in
  let '(refs, warnings) := normalize_all refs_raw [] warnings in
  {| meta := with_warnings meta warnings;
     refs := refs;
     warnings := warnings |}.

End Tables.
End Unicode.

(* ===================================================================== *)
(** * Properties: bare strings in the references list *)
(* ===================================================================== *)

Module UnicodeFacts.
Import Unicode.

Section Tables.
Variable isspace : N -> bool.
Variable decimal : N -> option Z.
Variable isword : N -> bool.
Variable same_letter : N -> N -> bool.
Variable py_repr : json -> text.

Abbreviation strip := (Unicode.strip isspace).
Abbreviation extract_doi := (Unicode.extract_doi decimal isword same_letter).
Abbreviation extract_first_url :=
  (Unicode.extract_first_url isspace isword same_letter).
Abbreviation extract_arxiv_id :=
  (Unicode.extract_arxiv_id decimal isword same_letter).
Abbreviation extract_year :=
  (Unicode.extract_year isspace decimal isword same_letter).
Abbreviation _normalize_ref :=
  (Unicode._normalize_ref isspace decimal isword same_letter py_repr).
Abbreviation normalize_all :=
  (Unicode.normalize_all isspace decimal isword same_letter py_repr).
Abbreviation load_refs_extracted :=
  (Unicode.load_refs_extracted isspace decimal isword same_letter py_repr).

(** An extracted value, stripped, and dropped when nothing is left. *)
Definition cleaned (o : option text) : option text :=
  match o with
  | Some t => or_none (strip t)
  | None => None
  end.

(** The reference of a bare string entry, in the words of the claim: the
    trimmed text, no id, no line range, and the identifier and year fields
    extracted from the text (the arXiv id from the text, else from the
    extracted DOI, else from the extracted URL). *)
Definition bare_string_reference (s : text) : Reference :=
  let raw := strip s in
  {| ref_id := [];
     line_start := (-1);
     line_end := (-1);
     raw_text := raw;
     parsed :=
       {| p_doi := cleaned (extract_doi (Some raw));
          p_url := cleaned (extract_first_url (Some raw));
          p_arxiv :=
            cleaned
              (or_opt (or_opt (extract_arxiv_id (Some raw))
                              (extract_arxiv_id (extract_doi (Some raw))))
                      (extract_arxiv_id (extract_first_url (Some raw))));
          p_year := cleaned (extract_year (Some raw));
          p_title_guess := None;
          p_author_guess := None |} |}.

Definition bare_string_entry (s : text) : list Reference :=
  if truthy (strip s) then [bare_string_reference s] else [].

Lemma clean_backfilled o :
  clean isspace py_repr (json_of_opt o) = cleaned o.
Proof. destruct o; reflexivity. Qed.

Lemma arxiv_from_backfilled o :
  extract_arxiv_id (Some (str_if_true py_repr (json_of_opt o)))
  = extract_arxiv_id o.
Proof. destruct o as [[|a t]|]; reflexivity. Qed.

Lemma bare_string_normalized s warnings :
  _normalize_ref (JStr s) warnings
  = (if truthy (strip s) then Some (bare_string_reference s) else None,
     warnings).
Proof.
  unfold Unicode._normalize_ref.
  destruct (truthy (strip s)); simpl; [|reflexivity].
  unfold bare_string_reference, _normalize_parsed. simpl.
  rewrite !clean_backfilled, !arxiv_from_backfilled. reflexivity.
Qed.

(** A call of [_normalize_ref] only appends to the warnings, and its
    reference does not depend on them. *)
Lemma normalize_ref_extends entry warnings :
  _normalize_ref entry warnings
  = (fst (_normalize_ref entry []),
     warnings ++ snd (_normalize_ref entry [])).
Proof.
  unfold Unicode._normalize_ref.
  destruct entry as [| | | |s| |obj]; simpl;
    try (rewrite ?app_nil_r; reflexivity).
  - destruct (truthy (strip s)); simpl; now rewrite app_nil_r.
  - destruct (truthy _); simpl; [|reflexivity].
    unfold _extract_line_range.
    destruct (_ && _ && _); simpl; now rewrite ?app_nil_r.
Qed.

(** The references and warnings the loop adds for a list of entries. *)
Definition kept (entries : list json) : list Reference :=
  fst (normalize_all entries [] []).
Definition warned (entries : list json) : list text :=
  snd (normalize_all entries [] []).

Lemma normalize_all_step entry entries refs warnings :
  normalize_all (entry :: entries) refs warnings
  = normalize_all entries
      (refs ++ match fst (_normalize_ref entry []) with
               | Some r => [r]
               | None => []
               end)
      (warnings ++ snd (_normalize_ref entry [])).
Proof.
  simpl. rewrite (normalize_ref_extends entry warnings).
  destruct (fst (_normalize_ref entry [])); simpl;
    now rewrite ?app_nil_r.
Qed.

Lemma normalize_all_accumulates entries : forall refs warnings,
  normalize_all entries refs warnings
  = (refs ++ kept entries, warnings ++ warned entries).
Proof.
  unfold kept, warned.
  induction entries as [|entry entries IH]; intros refs warnings.
  - simpl. now rewrite !app_nil_r.
  - rewrite !normalize_all_step, IH. simpl.
    rewrite (IH (match fst (_normalize_ref entry []) with
                 | Some r => [r] | None => [] end)
                (snd (_normalize_ref entry []))).
    simpl. now rewrite !app_assoc.
Qed.

Lemma kept_cons entry entries :
  kept (entry :: entries)
  = match fst (_normalize_ref entry []) with
    | Some r => [r] | None => []
    end ++ kept entries.
Proof.
  unfold kept at 1. now rewrite normalize_all_step, normalize_all_accumulates.
Qed.

Lemma warned_cons entry entries :
  warned (entry :: entries)
  = snd (_normalize_ref entry []) ++ warned entries.
Proof.
  unfold warned at 1.
  now rewrite normalize_all_step, normalize_all_accumulates.
Qed.

Lemma kept_concat l1 l2 : kept (l1 ++ l2) = kept l1 ++ kept l2.
Proof.
  induction l1 as [|entry l1 IH]; [reflexivity|].
  rewrite <- app_comm_cons, !kept_cons, IH. apply app_assoc.
Qed.

Lemma warned_concat l1 l2 : warned (l1 ++ l2) = warned l1 ++ warned l2.
Proof.
  induction l1 as [|entry l1 IH]; [reflexivity|].
  rewrite <- app_comm_cons, !warned_cons, IH. apply app_assoc.
Qed.

(** A refs document with the given entries. *)
Definition refs_document (entries : list json) : json :=
  JObj [(txt "refs", JList entries)].

Lemma load_document_refs entries :
  refs (load_refs_extracted (refs_document entries)) = kept entries
  /\ warnings (load_refs_extracted (refs_document entries))
     = warned entries.
Proof.
  unfold Unicode.load_refs_extracted, refs_document. simpl.
  rewrite normalize_all_accumulates. simpl. auto.
Qed.

(** C10. Whatever the Unicode database says of the characters, a bare
    string entry whose trimmed text is not empty becomes the reference
    [bare_string_reference]: the trimmed text, an empty id, both lines
    -1, and the fields extracted from the text; one whose trimmed text is
    empty is dropped.  Neither records a warning, and in the list
    [load_refs_extracted] returns the reference stands between those of
    the entries before and after it. *)
Theorem bare_string_is_a_reference (s : text) (warnings : list text)
    (before after : list json) :
  _normalize_ref (JStr s) warnings
  = (if truthy (strip s) then Some (bare_string_reference s) else None,
     warnings)
  /\ refs (load_refs_extracted (refs_document (before ++ JStr s :: after)))
     = refs (load_refs_extracted (refs_document before))
       ++ bare_string_entry s
       ++ refs (load_refs_extracted (refs_document after))
  /\ Unicode.warnings
       (load_refs_extracted (refs_document (before ++ JStr s :: after)))
     = Unicode.warnings
         (load_refs_extracted (refs_document (before ++ after))).
Proof.
  split; [apply bare_string_normalized|].
  assert (Hk : kept [JStr s] = bare_string_entry s
               /\ warned [JStr s] = []).
  { unfold bare_string_entry.
    rewrite kept_cons, warned_cons, bare_string_normalized. simpl.
    destruct (truthy (strip s)); auto. }
  destruct Hk as [Hk Hw].
  destruct (load_document_refs (before ++ JStr s :: after)) as [-> ->].
  destruct (load_document_refs (before ++ after)) as [_ ->].
  destruct (load_document_refs before) as [-> _].
  destruct (load_document_refs after) as [-> _].
  change (JStr s :: after) with ([JStr s] ++ after).
  rewrite !kept_concat, !warned_concat, Hk, Hw. auto.
Qed.

End Tables.
End UnicodeFacts.

(* ===================================================================== *)
(** * Bare strings with characters beyond ASCII *)
(* ===================================================================== *)

Module UnicodeExamples.
Import Unicode UnicodeFacts.
Local Open Scope N_scope.

(** An excerpt of the Unicode database, enough for the characters of the
    examples: all whitespace; the ASCII, Arabic-Indic and fullwidth
    digits; as word characters the ASCII ones, those digits, those of
    Latin-1 and the CJK ideographs from U+4E00 to U+9FA5; and for the
    letters that [re.IGNORECASE] identifies, the ASCII pairs and the four
    characters beyond ASCII that match an ASCII letter. *)
Definition isspace (c : N) : bool :=
  existsb (N.eqb c)
    [9; 10; 11; 12; 13; 28; 29; 30; 31; 32; 133; 160; 5760; 8192; 8193;
     8194; 8195; 8196; 8197; 8198; 8199; 8200; 8201; 8202; 8232; 8233;
     8239; 8287; 12288].

Definition within (lo hi c : N) : bool := (lo <=? c) && (c <=? hi).

Definition decimal (c : N) : option Z :=
  if within 48 57 c then Some (Z.of_N (c - 48))
  else if within 1632 1641 c then Some (Z.of_N (c - 1632))
  else if within 65296 65305 c then Some (Z.of_N (c - 65296))
  else None.

Definition isword (c : N) : bool :=
  within 65 90 c || within 97 122 c || (c =? 95)
  || isdecimal decimal c
  || within 192 214 c || within 216 246 c || within 248 255 c
  || (c =? 170) || (c =? 178) || (c =? 179) || (c =? 181) || (c =? 185)
  || (c =? 186) || within 188 190 c
  || within 19968 40869 c.

Definition ascii_lower (c : N) : N := if within 65 90 c then c + 32 else c.

Definition same_letter (a c : N) : bool :=
  (ascii_lower a =? ascii_lower c)
  || ((ascii_lower a =? 105) && ((c =? 304) || (c =? 305)))
  || ((ascii_lower a =? 107) && (c =? 8490))
  || ((ascii_lower a =? 115) && (c =? 383)).

Definition no_repr : json -> text := fun _ => [].

Abbreviation _normalize_ref :=
  (Unicode._normalize_ref isspace decimal isword same_letter no_repr).
Abbreviation load_refs_extracted :=
  (Unicode.load_refs_extracted isspace decimal isword same_letter no_repr).

Definition year_of (entry : text) : option text :=
  match fst (_normalize_ref (JStr entry) []) with
  | Some ref => p_year (parsed ref)
  | None => None
  end.

Definition doi_of (entry : text) : option text :=
  match fst (_normalize_ref (JStr entry) []) with
  | Some ref => p_doi (parsed ref)
  | None => None
  end.

(** An entry of a no-break space and an ideographic space is dropped. *)
Example spaces_beyond_ascii_are_trimmed :
  _normalize_ref (JStr [160; 12288]) [] = (None, [])
  /\ raw_text <$> fst (_normalize_ref (JStr ([160] ++ txt "Smith 2019"
                                               ++ [12288])) [])
     = Some (txt "Smith 2019").
Proof. split; vm_compute; reflexivity. Qed.

(** No word boundary separates a year from an ideograph that follows
    it; digits beyond ASCII make a year; and the long s and the Kelvin
    sign are letters of a DOI. *)
Example classes_beyond_ascii :
  year_of (txt "2019" ++ [24180]) = None
  /\ year_of (txt "2019.") = Some (txt "2019")
  /\ year_of (txt "M" ++ [252] ++ txt "ller 19" ++ [1636; 1637])
     = Some (txt "19" ++ [1636; 1637])
  /\ doi_of (txt "10.1000/ab" ++ [383] ++ txt "c" ++ [8490] ++ txt ").")
     = Some (txt "10.1000/ab" ++ [383] ++ txt "c" ++ [8490]).
Proof. repeat split; vm_compute; reflexivity. Qed.

(** A list of three entries: a bare string, a blank one, and an
    object. *)
Example bare_strings_in_a_list :
  map raw_text
    (refs (load_refs_extracted
             (refs_document
                [JStr ([160] ++ txt "Lee (2021). Attention. " ++ [160]);
                 JStr [12288; 32];
                 JObj [(txt "raw_text", JStr (txt "Jones 1999"))]])))
  = [txt "Lee (2021). Attention."; txt "Jones 1999"].
Proof. vm_compute. reflexivity. Qed.

End UnicodeExamples.
